(** * Questions API: a shallow embedding of the route handlers

    The development follows [src/app/api/questions/route.ts] (handlers
    [GET] and [POST]) and the per-id route (handlers [DELETE] and [PUT]).

    - [JS] models the part of the JavaScript runtime the handlers rely on:
      strings as sequences of UTF-16 code units, numbers as binary64
      values, JSON values, [String.prototype.trim], [Number(string)].
    - [Db] models the [questions] table behind [pool.query], one statement
      constructor per SQL text of the source.
    - The handlers are written in a small state-and-exception monad over
      the pool. *)

From Stdlib Require Import ZArith NArith List Bool Lia String Ascii.
From Stdlib Require Import Floats.SpecFloat.
From Stdlib Require Import Sorted Permutation.
Import ListNotations.
Open Scope Z_scope.
Set Warnings "-register-all".

(* ================================================================== *)
(** * The JavaScript values the handlers manipulate *)
(* ================================================================== *)

Module JS.

(** ** Strings: sequences of UTF-16 code units *)

Definition jsstring := list N.

Fixpoint jsstring_eqb (a b : jsstring) : bool :=
  match a, b with
  | [], [] => true
  | x :: a', y :: b' => N.eqb x y && jsstring_eqb a' b'
  | _, _ => false
  end.

(** Source literals are written as Rocq strings (UTF-8 bytes) and decoded
    to code units; the literals of the handlers lie in the Basic
    Multilingual Plane, where a code point is one code unit. *)
Fixpoint utf8_decode (bytes : list N) (fuel : nat) : jsstring :=
  match fuel with
  | O => []
  | S fuel' =>
      match bytes with
      | [] => []
      | b0 :: rest =>
          if (b0 <? 128)%N then b0 :: utf8_decode rest fuel'
          else if (b0 <? 224)%N then
            match rest with
            | b1 :: rest' =>
                ((b0 - 192) * 64 + (b1 - 128))%N :: utf8_decode rest' fuel'
            | [] => [b0]
            end
          else
            match rest with
            | b1 :: b2 :: rest' =>
                ((b0 - 224) * 4096 + (b1 - 128) * 64 + (b2 - 128))%N
                  :: utf8_decode rest' fuel'
            | _ => b0 :: rest
            end
      end
  end.

Definition lit (s : string) : jsstring :=
  let bytes := map N_of_ascii (list_ascii_of_string s) in
  utf8_decode bytes (List.length bytes).

(** WhiteSpace and LineTerminator code points of ECMAScript: the
    characters [trim] strips and [Number] ignores around a literal. *)
Definition is_whitespace (c : N) : bool :=
  ((c =? 9) || (c =? 10) || (c =? 11) || (c =? 12) || (c =? 13)
   || (c =? 32) || (c =? 160) || (c =? 5760)
   || ((8192 <=? c) && (c <=? 8202))
   || (c =? 8232) || (c =? 8233) || (c =? 8239) || (c =? 8287)
   || (c =? 12288) || (c =? 65279))%N.

Fixpoint trimStart (s : jsstring) : jsstring :=
  match s with
  | [] => []
  | c :: s' => if is_whitespace c then trimStart s' else s
  end.

Definition trimEnd (s : jsstring) : jsstring := rev (trimStart (rev s)).

(** [String.prototype.trim] *)
Definition trim (s : jsstring) : jsstring := trimEnd (trimStart s).

(** ** Numbers: IEEE 754 binary64 *)

Definition number := spec_float.

Definition prec : Z := 53.
Definition emax : Z := 1024.

Definition NaN : number := S754_nan.
Definition of_Z (z : Z) : number := binary_normalize prec emax z 0 false.

(** The comparisons [a < b], [a <= b], [a > b], [a >= b]: all false when
    an operand is NaN. *)
Definition num_lt (a b : number) : bool := SFltb a b.
Definition num_le (a b : number) : bool := SFleb a b.
Definition num_gt (a b : number) : bool := SFltb b a.
Definition num_ge (a b : number) : bool := SFleb b a.

Definition num_sub (a b : number) : number := SFsub prec emax a b.
Definition num_mul (a b : number) : number := SFmul prec emax a b.
Definition num_div (a b : number) : number := SFdiv prec emax a b.

(** [Number.isFinite] and the global [isNaN], on a number *)
Definition isFinite (x : number) : bool :=
  match x with
  | S754_zero _ | S754_finite _ _ _ => true
  | S754_infinity _ | S754_nan => false
  end.

Definition isNaN (x : number) : bool :=
  match x with S754_nan => true | _ => false end.

Definition is_zero (x : number) : bool :=
  match x with S754_zero _ => true | _ => false end.

(** ToBoolean on a number: [+0], [-0] and [NaN] are falsy. *)
Definition number_truthy (x : number) : bool :=
  negb (is_zero x || isNaN x).

(** The integer a number denotes, when it denotes one. *)
Definition to_integer (x : number) : option Z :=
  match x with
  | S754_zero _ => Some 0
  | S754_finite s m e =>
      let sign := if s then (-1) else 1 in
      if 0 <=? e then Some (sign * (Zpos m * 2 ^ e))
      else if Zpos m mod 2 ^ (- e) =? 0
           then Some (sign * (Zpos m / 2 ^ (- e)))
           else None
  | _ => None
  end.

(** [Math.ceil] *)
Definition Math_ceil (x : number) : number :=
  match x with
  | S754_finite s m e =>
      if 0 <=? e then x
      else
        let q := Zpos m / 2 ^ (- e) in
        let exact := Zpos m mod 2 ^ (- e) =? 0 in
        if s then binary_normalize prec emax (- q) 0 true
        else binary_normalize prec emax (if exact then q else q + 1) 0 false
  | _ => x
  end.

(** [Math.max] of two numbers *)
Definition Math_max (a b : number) : number :=
  match SFcompare a b with
  | None => NaN
  | Some Lt => b
  | Some Gt => a
  | Some Eq => match a with S754_zero true => b | _ => a end
  end.

(** ** [Number(string)]: StringToNumber *)

Definition digit_value (base : N) (c : N) : option N :=
  let v :=
    if ((48 <=? c) && (c <=? 57))%N then Some (c - 48)%N
    else if ((97 <=? c) && (c <=? 102))%N then Some (c - 87)%N
    else if ((65 <=? c) && (c <=? 70))%N then Some (c - 55)%N
    else None in
  match v with
  | Some d => if (d <? base)%N then Some d else None
  | None => None
  end.

(** Longest prefix of digits in [base]: its value continuing [acc], the
    number of digits read added to [count], and the rest of the input. *)
Fixpoint read_digits (base : N) (s : jsstring) (acc : Z) (count : Z)
  : Z * Z * jsstring :=
  match s with
  | [] => (acc, count, [])
  | c :: s' =>
      match digit_value base c with
      | Some d => read_digits base s' (acc * Z.of_N base + Z.of_N d) (count + 1)
      | None => (acc, count, s)
      end
  end.

(** The binary64 value nearest to [m * 10 ^ e10], ties to even, with the
    sign [neg]. For a negative [e10] the quotient is taken with 1100
    fractional bits and a sticky bit below them: every binary64 value and
    every midpoint between two of them is a multiple of 2 ^ -1075. *)
Definition decimal_to_number (neg : bool) (m : Z) (e10 : Z) : number :=
  let sgn (z : Z) := if neg then - z else z in
  if 0 <=? e10 then binary_normalize prec emax (sgn (m * 10 ^ e10)) 0 neg
  else
    let d := 10 ^ (- e10) in
    let n := m * 2 ^ 1100 in
    let q := n / d in
    let sticky := if n mod d =? 0 then 0 else 1 in
    binary_normalize prec emax (sgn (2 * q + sticky)) (- 1101) neg.

(** ExponentPart after the indicator [e] or [E] has been read. *)
Definition read_exponent (s : jsstring) : option Z :=
  let '(neg, s1) :=
    match s with
    | 43%N :: s' => (false, s')
    | 45%N :: s' => (true, s')
    | _ => (false, s)
    end in
  match read_digits 10 s1 0 0 with
  | (v, n, []) => if 0 <? n then Some (if neg then - v else v) else None
  | _ => None
  end.

(** StrUnsignedDecimalLiteral other than [Infinity]. *)
Definition unsigned_decimal (neg : bool) (s : jsstring) : number :=
  let '(ip, ni, s1) := read_digits 10 s 0 0 in
  let '(m, nf, dot, s2) :=
    match s1 with
    | 46%N :: s' =>
        let '(m', nf', s'') := read_digits 10 s' ip 0 in (m', nf', true, s'')
    | _ => (ip, 0, false, s1)
    end in
  if (0 <? ni) || (dot && (0 <? nf)) then
    match s2 with
    | [] => decimal_to_number neg m (- nf)
    | c :: s3 =>
        if ((c =? 101) || (c =? 69))%N then
          match read_exponent s3 with
          | Some e => decimal_to_number neg m (e - nf)
          | None => NaN
          end
        else NaN
    end
  else NaN.

Definition str_decimal (neg : bool) (s : jsstring) : number :=
  if jsstring_eqb s (lit "Infinity") then S754_infinity neg
  else unsigned_decimal neg s.

Definition non_decimal (base : N) (s : jsstring) : number :=
  match read_digits base s 0 0 with
  | (v, n, []) => if 0 <? n then of_Z v else NaN
  | _ => NaN
  end.

Definition StringToNumber (s : jsstring) : number :=
  match trim s with
  | [] => S754_zero false
  | 43%N :: s' => str_decimal false s'
  | 45%N :: s' => str_decimal true s'
  | 48%N :: c :: s' =>
      if ((c =? 120) || (c =? 88))%N then non_decimal 16 s'
      else if ((c =? 111) || (c =? 79))%N then non_decimal 8 s'
      else if ((c =? 98) || (c =? 66))%N then non_decimal 2 s'
      else str_decimal false (48%N :: c :: s')
  | s' => str_decimal false s'
  end.

(** ** JSON values, and what property access yields *)

Inductive value :=
| JUndefined
| JNull
| JBool (b : bool)
| JNumber (n : number)
| JString (s : jsstring)
| JDate (ms : Z)
| JArray (items : list value)
| JObject (fields : list (jsstring * value)).

Definition str (s : string) : value := JString (lit s).

(** [v === "literal"] *)
Definition strict_eq_string (v : value) (s : jsstring) : bool :=
  match v with
  | JString t => jsstring_eqb t s
  | _ => false
  end.

(** ToBoolean *)
Definition truthy (v : value) : bool :=
  match v with
  | JUndefined | JNull => false
  | JBool b => b
  | JNumber n => number_truthy n
  | JString s => match s with [] => false | _ => true end
  | JDate _ | JArray _ | JObject _ => true
  end.

(** [a ?? b] *)
Definition nullish (a b : value) : value :=
  match a with
  | JUndefined | JNull => b
  | _ => a
  end.

Fixpoint lookup (k : jsstring) (fields : list (jsstring * value)) : value :=
  match fields with
  | [] => JUndefined
  | (k', v) :: rest => if jsstring_eqb k' k then v else lookup k rest
  end.

Fixpoint assign (k : jsstring) (v : value) (fields : list (jsstring * value))
  : list (jsstring * value) :=
  match fields with
  | [] => [(k, v)]
  | (k', v') :: rest =>
      if jsstring_eqb k' k then (k', v) :: rest
      else (k', v') :: assign k v rest
  end.

(** [o.k] for the field names the handlers read ([text], [type],
    [column_name], ...), none of which is a property of a primitive
    wrapper, an array or a date: [None] is the TypeError raised on
    [null] and [undefined]. *)
Definition prop (o : value) (k : jsstring) : option value :=
  match o with
  | JUndefined | JNull => None
  | JObject fields => Some (lookup k fields)
  | _ => Some JUndefined
  end.

(** [o?.k] *)
Definition prop_opt (o : value) (k : jsstring) : value :=
  match prop o k with
  | Some v => v
  | None => JUndefined
  end.

(** [xs[i]] on an array of strings: the property whose key is the
    canonical rendering of [i], that is an element when [i] denotes an
    index in range and [undefined] otherwise. *)
Definition elem (xs : list jsstring) (i : number) : value :=
  match to_integer i with
  | Some z =>
      if 0 <=? z then
        match nth_error xs (Z.to_nat z) with
        | Some s => JString s
        | None => JUndefined
        end
      else JUndefined
  | None => JUndefined
  end.

(** [rows[0]] *)
Definition first_row (rows : list value) : value :=
  match rows with
  | [] => JUndefined
  | r :: _ => r
  end.

End JS.

Import JS.


(* ================================================================== *)
(** * The storage behind [pool.query] *)
(* ================================================================== *)

Module Db.

(** A row of the table [questions]. Columns hold the value bound to the
    statement parameter; [col_hint1] is meaningful only while the column
    exists. *)
Record Row := {
  col_id : Z;
  col_text : value;
  col_difficulty : value;
  col_type : value;
  col_answer : value;
  col_hint1 : value;
  col_options : value;
  col_correct_index : value;
  col_created_at : Z;
  col_used_at : value
}.

(** The pool: the table, whether the optional column [hint1] has been
    added, the sequence behind [id], the clock behind [created_at], and a
    script saying which of the coming queries the storage fails
    (connection loss, a violated constraint, a malformed parameter):
    [true] makes the next query throw. *)
Record Pool := {
  questions : list Row;
  hint1_column : bool;
  next_id : Z;
  now : Z;
  faults : list bool
}.

Definition with_questions (p : Pool) (rows : list Row) : Pool :=
  {| questions := rows; hint1_column := hint1_column p;
     next_id := next_id p; now := now p; faults := faults p |}.

Definition with_faults (p : Pool) (fs : list bool) : Pool :=
  {| questions := questions p; hint1_column := hint1_column p;
     next_id := next_id p; now := now p; faults := fs |}.

(** The statements the handlers issue, with their bound parameters. *)
Inductive Stmt :=
(** SELECT COUNT( * )::int AS total FROM questions [WHERE difficulty = $1] *)
| CountQuestions (difficulty : option jsstring)
(** SELECT column_name FROM information_schema.columns
    WHERE table_name = 'questions' AND column_name = 'hint1' *)
| ProbeHint1
(** SELECT id, text, difficulty, CASE ... END AS type, answer [, hint1],
    options, correct_index, created_at, used_at FROM questions [WHERE ...]
    ORDER BY created_at DESC LIMIT $n OFFSET $m *)
| SelectPage (difficulty : option jsstring) (with_hint1 : bool)
             (limit offset : number)
(** ALTER TABLE questions ADD COLUMN IF NOT EXISTS hint1 TEXT *)
| AddHint1
(** INSERT INTO questions (text, difficulty, type, answer [, hint1],
    options, correct_index) VALUES (...) RETURNING ... *)
| InsertQuestion (with_hint1 : bool)
                 (text difficulty type answer hint1 options correct_index : value)
(** DELETE FROM questions WHERE id = $1 *)
| DeleteQuestion (id : number)
(** UPDATE questions SET text = $1, difficulty = $2, type = $3, answer = $4
    [, hint1 = $5], options = $n::jsonb, correct_index = $m,
    created_at = created_at WHERE id = $k RETURNING ... *)
| UpdateQuestion (with_hint1 : bool)
                 (text difficulty type answer hint1 options correct_index : value)
                 (id : number).

Record QueryResult := { rowCount : Z; rows : list value }.

(** A parameter as the driver binds it: [undefined] is sent as NULL. *)
Definition bind (v : value) : value :=
  match v with
  | JUndefined => JNull
  | _ => v
  end.

(** WHERE id = $1 *)
Definition id_is (n : number) (r : Row) : bool :=
  match to_integer n with
  | Some z => col_id r =? z
  | None => false
  end.

(** WHERE difficulty = $1, when the filter is present *)
Definition difficulty_is (d : option jsstring) (r : Row) : bool :=
  match d with
  | Some s => strict_eq_string (col_difficulty r) s
  | None => true
  end.

(** A LIMIT or OFFSET bound: a non-negative integer, anything else is
    refused by the storage. *)
Definition bound (n : number) : option nat :=
  match to_integer n with
  | Some z => if 0 <=? z then Some (Z.to_nat z) else None
  | None => None
  end.

(** ORDER BY created_at DESC *)
Fixpoint insert_desc (r : Row) (sorted : list Row) : list Row :=
  match sorted with
  | [] => [r]
  | r' :: rest =>
      if col_created_at r' <? col_created_at r then r :: sorted
      else r' :: insert_desc r rest
  end.

Definition order_by_created_at_desc (l : list Row) : list Row :=
  fold_right insert_desc [] l.

(** The object of a row under the RETURNING list of INSERT: [type] as
    stored. UPDATE returns the same columns without [usedAt]. *)
Definition returning (with_hint1 with_used_at : bool) (r : Row) : value :=
  JObject
    ([(lit "id", JNumber (of_Z (col_id r)));
      (lit "text", col_text r);
      (lit "difficulty", col_difficulty r);
      (lit "type", col_type r);
      (lit "answer", col_answer r)]
     ++ (if with_hint1 then [(lit "hint1", col_hint1 r)] else [])
     ++ [(lit "options", col_options r);
         (lit "correctIndex", col_correct_index r);
         (lit "createdAt", JDate (col_created_at r))]
     ++ (if with_used_at then [(lit "usedAt", col_used_at r)] else [])).

(** The object of a row under the select list of the page query:
    CASE WHEN type = 'multipla_escolha' THEN 'MCQ' ELSE 'OPEN' END AS type *)
Definition selected (with_hint1 : bool) (r : Row) : value :=
  JObject
    ([(lit "id", JNumber (of_Z (col_id r)));
      (lit "text", col_text r);
      (lit "difficulty", col_difficulty r);
      (lit "type",
        if strict_eq_string (col_type r) (lit "multipla_escolha")
        then str "MCQ" else str "OPEN");
      (lit "answer", col_answer r)]
     ++ (if with_hint1 then [(lit "hint1", col_hint1 r)] else [])
     ++ [(lit "options", col_options r);
         (lit "correctIndex", col_correct_index r);
         (lit "createdAt", JDate (col_created_at r));
         (lit "usedAt", col_used_at r)]).

Definition updated (with_hint1 : bool)
    (text difficulty type answer hint1 options correct_index : value)
    (r : Row) : Row :=
  {| col_id := col_id r;
     col_text := bind text;
     col_difficulty := bind difficulty;
     col_type := bind type;
     col_answer := bind answer;
     col_hint1 := if with_hint1 then bind hint1 else col_hint1 r;
     col_options := bind options;
     col_correct_index := bind correct_index;
     col_created_at := col_created_at r;
     col_used_at := col_used_at r |}.

(** What a statement does to the pool when the storage runs it: [None]
    when the statement itself is in error (a column that does not exist,
    a bound that is not a row count). *)
Definition exec (s : Stmt) (p : Pool) : option (QueryResult * Pool) :=
  match s with
  | CountQuestions d =>
      let n := Z.of_nat (List.length (filter (difficulty_is d) (questions p))) in
      Some ({| rowCount := 1;
               rows := [JObject [(lit "total", JNumber (of_Z n))]] |}, p)
  | ProbeHint1 =>
      let found :=
        if hint1_column p
        then [JObject [(lit "column_name", str "hint1")]] else [] in
      Some ({| rowCount := Z.of_nat (List.length found); rows := found |}, p)
  | SelectPage d with_hint1 limit offset =>
      if with_hint1 && negb (hint1_column p) then None
      else
        match bound limit, bound offset with
        | Some l, Some o =>
            let matching := filter (difficulty_is d) (questions p) in
            let page := firstn l (skipn o (order_by_created_at_desc matching)) in
            Some ({| rowCount := Z.of_nat (List.length page);
                     rows := map (selected with_hint1) page |}, p)
        | _, _ => None
        end
  | AddHint1 =>
      Some ({| rowCount := 0; rows := [] |},
            {| questions := questions p; hint1_column := true;
               next_id := next_id p; now := now p; faults := faults p |})
  | InsertQuestion with_hint1 text difficulty type answer hint1 options ci =>
      if with_hint1 && negb (hint1_column p) then None
      else
        let r := {| col_id := next_id p;
                    col_text := bind text;
                    col_difficulty := bind difficulty;
                    col_type := bind type;
                    col_answer := bind answer;
                    col_hint1 := if with_hint1 then bind hint1 else JNull;
                    col_options := bind options;
                    col_correct_index := bind ci;
                    col_created_at := now p;
                    col_used_at := JNull |} in
        Some ({| rowCount := 1; rows := [returning with_hint1 true r] |},
              {| questions := questions p ++ [r];
                 hint1_column := hint1_column p;
                 next_id := next_id p + 1; now := now p;
                 faults := faults p |})
  | DeleteQuestion id =>
      let gone := filter (id_is id) (questions p) in
      let kept := filter (fun r => negb (id_is id r)) (questions p) in
      Some ({| rowCount := Z.of_nat (List.length gone); rows := [] |},
            with_questions p kept)
  | UpdateQuestion with_hint1 text difficulty type answer hint1 options ci id =>
      if with_hint1 && negb (hint1_column p) then None
      else
        let upd := updated with_hint1 text difficulty type answer hint1 options ci in
        let hit := map upd (filter (id_is id) (questions p)) in
        Some ({| rowCount := Z.of_nat (List.length hit);
                 rows := map (returning with_hint1 false) hit |},
              with_questions p
                (map (fun r => if id_is id r then upd r else r) (questions p)))
  end.

End Db.

Import Db.

(* ================================================================== *)
(** * Handlers: state over the pool, exceptions, responses *)
(* ================================================================== *)

Inductive Outcome (A : Type) :=
| Value (a : A)
| Thrown.
Arguments Value {A} a.
Arguments Thrown {A}.

(** An asynchronous computation of the handler, awaited in sequence. *)
Definition Async (A : Type) : Type := Pool -> Outcome A * Pool.

Definition ret {A} (a : A) : Async A := fun p => (Value a, p).

Definition throw {A} : Async A := fun p => (Thrown, p).

Definition bind_async {A B} (m : Async A) (k : A -> Async B) : Async B :=
  fun p =>
    match m p with
    | (Value a, p') => k a p'
    | (Thrown, p') => (Thrown, p')
    end.

(** try { m } catch { h } *)
Definition try_catch {A} (m : Async A) (h : Async A) : Async A :=
  fun p =>
    match m p with
    | (Value a, p') => (Value a, p')
    | (Thrown, p') => h p'
    end.

Notation "x <- m ;; k" := (bind_async m (fun x => k))
  (at level 61, m at next level, right associativity).
Notation "m ;;; k" := (bind_async m (fun _ => k))
  (at level 61, right associativity).

(** A value that property access may fail to produce. *)
Definition access (o : option value) : Async value :=
  match o with
  | Some v => ret v
  | None => throw
  end.

(** await pool.query(text, values) *)
Definition query (s : Stmt) : Async QueryResult :=
  fun p =>
    let run (p0 : Pool) :=
      match exec s p0 with
      | Some (res, p1) => (Value res, p1)
      | None => (Thrown, p0)
      end in
    match faults p with
    | true :: fs => (Thrown, with_faults p fs)
    | false :: fs => run (with_faults p fs)
    | [] => run p
    end.

(** NextResponse.json(body, { status }) *)
Record Response := { status : Z; body : value }.

Definition json (b : value) (st : Z) : Response := {| status := st; body := b |}.

Definition error (msg : string) : value := JObject [(lit "error", str msg)].

(** The handler as a whole: what escapes its body is caught and answered
    with the handler's 500. *)
Definition handler (m : Async Response) (on_error : Response) (p : Pool)
  : Response * Pool :=
  match m p with
  | (Value r, p') => (r, p')
  | (Thrown, p') => (on_error, p')
  end.

(* ================================================================== *)
(** * The collection route: listing and creating questions *)
(* ================================================================== *)

(** typeof v === "string" && v.trim().length > 0 *)
Definition isNonEmptyString (v : value) : bool :=
  match v with
  | JString s => 0 <? Z.of_nat (List.length (trim s))
  | _ => false
  end.

Definition toDbType (t : value) : value :=
  if strict_eq_string t (lit "MCQ") || strict_eq_string t (lit "multipla_escolha")
  then str "multipla_escolha"
  else str "discursiva".

Definition toApiType (t : value) : value :=
  if strict_eq_string t (lit "multipla_escolha") || strict_eq_string t (lit "MCQ")
  then str "MCQ"
  else str "OPEN".

(** [v.trim()]: a TypeError unless [v] is a string. *)
Definition call_trim (v : value) : Async value :=
  match v with
  | JString s => ret (JString (trim s))
  | _ => throw
  end.

(** ToNumber on the primitives and dates a result row can hold. *)
Definition ToNumber (v : value) : number :=
  match v with
  | JUndefined => NaN
  | JNull => of_Z 0
  | JBool b => if b then of_Z 1 else of_Z 0
  | JNumber n => n
  | JString s => StringToNumber s
  | JDate ms => of_Z ms
  | JArray _ | JObject _ => NaN
  end.

(** searchParams.get(name): the first value under the name, or null. *)
Fixpoint searchParams_get (params : list (jsstring * jsstring)) (name : jsstring)
  : option jsstring :=
  match params with
  | [] => None
  | (k, v) :: rest =>
      if jsstring_eqb k name then Some v else searchParams_get rest name
  end.

(** Number(searchParams.get(name) ?? fallback) *)
Definition Number_param (params : list (jsstring * jsstring)) (name : jsstring)
    (fallback : Z) : number :=
  match searchParams_get params name with
  | Some s => StringToNumber s
  | None => of_Z fallback
  end.

(** Number.isFinite(pageRaw) && pageRaw > 0 ? pageRaw : 1 *)
Definition page_of (pageRaw : number) : number :=
  if isFinite pageRaw && num_gt pageRaw (of_Z 0) then pageRaw else of_Z 1.

(** Number.isFinite(limitRaw) && limitRaw > 0 && limitRaw <= 200 ? limitRaw : 5 *)
Definition limit_of (limitRaw : number) : number :=
  if isFinite limitRaw && num_gt limitRaw (of_Z 0) && num_le limitRaw (of_Z 200)
  then limitRaw else of_Z 5.

(** rows.some((r) => r.column_name === 'hint1'), the rows being objects *)
Definition some_hint1 (rows : list value) : bool :=
  existsb (fun r => strict_eq_string (prop_opt r (lit "column_name")) (lit "hint1"))
          rows.

Definition GET_body (searchParams : list (jsstring * jsstring)) : Async Response :=
  let pageRaw := Number_param searchParams (lit "page") 1 in
  let limitRaw := Number_param searchParams (lit "limit") 5 in
  let difficulty := searchParams_get searchParams (lit "difficulty") in
  let page := page_of pageRaw in
  let limit := limit_of limitRaw in
  let offset := num_mul (num_sub page (of_Z 1)) limit in
  (* if (difficulty) { values.push(difficulty); where.push(...) } *)
  let filter_ :=
    match difficulty with
    | Some (c :: d) => Some (c :: d)
    | _ => None
    end in
  countResult <- query (CountQuestions filter_) ;;
  let total :=
    nullish (prop_opt (first_row (rows countResult)) (lit "total"))
            (JNumber (of_Z 0)) in
  colRes <- query ProbeHint1 ;;
  let has_hint1 := some_hint1 (rows colRes) in
  res <- query (SelectPage filter_ has_hint1 limit offset) ;;
  let totalPages :=
    Math_max (of_Z 1) (Math_ceil (num_div (ToNumber total) limit)) in
  ret (json
         (JObject
            [(lit "page", JNumber page);
             (lit "limit", JNumber limit);
             (lit "total", total);
             (lit "totalPages", JNumber totalPages);
             (lit "count", JNumber (of_Z (Z.of_nat (List.length (rows res)))));
             (lit "data", JArray (rows res))])
         200).

Definition GET (searchParams : list (jsstring * jsstring)) (p : Pool)
  : Response * Pool :=
  handler (GET_body searchParams) (json (error "Erro ao buscar perguntas") 500) p.

(** rawOptions.map((o) => ...): the trimmed string, or the empty string
    for an entry that is not a string *)
Definition trim_option (o : value) : jsstring :=
  match o with
  | JString s => trim s
  | _ => []
  end.

(** typeof correctIndex === "number" && correctIndex >= 0 && correctIndex <= 3
      ? correctIndex : 0 *)
Definition ci_of (correctIndex : value) : number :=
  match correctIndex with
  | JNumber n => if num_ge n (of_Z 0) && num_le n (of_Z 3) then n else of_Z 0
  | _ => of_Z 0
  end.

Definition is_empty (s : jsstring) : bool :=
  match s with [] => true | _ => false end.

(** row.type = toApiType(row.type), on the row object *)
Definition with_api_type (row type_ : value) : value :=
  match row with
  | JObject fields => JObject (assign (lit "type") (toApiType type_) fields)
  | _ => row
  end.

(** The statement of the create path and its answer, once the values of
    [answer], [options] (null when [None]) and [correctIndex] are known. *)
Definition POST_insert (body text difficulty dbType answer : value)
    (options : option (list jsstring)) (correctIndex : value) : Async Response :=
  colRes2 <- query ProbeHint1 ;;
  text' <- call_trim text ;;
  let has_hint1 := some_hint1 (rows colRes2) in
  (* isNonEmptyString(body.hint1) ? body.hint1.trim() : null, pushed only
     when the column exists *)
  hint1' <- (if has_hint1 then
               hint1 <- access (prop body (lit "hint1")) ;;
               if isNonEmptyString hint1 then call_trim hint1 else ret JNull
             else ret JNull) ;;
  (* options ? JSON.stringify(options) : null, read back as the JSON value *)
  let options' :=
    match options with
    | Some l => JArray (map JString l)
    | None => JNull
    end in
  res <- query (InsertQuestion has_hint1 text' difficulty dbType answer hint1'
                               options' correctIndex) ;;
  let row := first_row (rows res) in
  type_ <- access (prop row (lit "type")) ;;
  ret (json (with_api_type row type_) 201).

Definition POST_body (req_json : option value) : Async Response :=
  body <- access req_json ;;
  text <- access (prop body (lit "text")) ;;
  if negb (isNonEmptyString text) then
    ret (json (error "Texto da pergunta é obrigatório.") 400)
  else
    type_ <- access (prop body (lit "type")) ;;
    let dbType := toDbType type_ in
    difficulty_ <- access (prop body (lit "difficulty")) ;;
    let difficulty :=
      if isNonEmptyString difficulty_ then difficulty_ else str "facil" in
    (* try { ALTER TABLE ... } catch (e) { console.warn(...) } *)
    try_catch (query AddHint1 ;;; ret tt) (ret tt) ;;;
    if strict_eq_string dbType (lit "multipla_escolha") then
      options_ <- access (prop body (lit "options")) ;;
      let rawOptions := match options_ with JArray l => l | _ => [] end in
      let trimmed := map trim_option rawOptions in
      if negb (Z.of_nat (List.length trimmed) =? 4) || existsb is_empty trimmed then
        ret (json
               (error "MCQ precisa de 4 alternativas preenchidas (A, B, C e D).")
               400)
      else
        correctIndex_ <- access (prop body (lit "correctIndex")) ;;
        let ci := ci_of correctIndex_ in
        answer_ <- access (prop body (lit "answer")) ;;
        answer <- (if isNonEmptyString answer_ then call_trim answer_
                   else ret (elem trimmed ci)) ;;
        POST_insert body text difficulty dbType answer (Some trimmed) (JNumber ci)
    else
      answer_ <- access (prop body (lit "answer")) ;;
      if negb (isNonEmptyString answer_) then
        ret (json (error "Resposta é obrigatória para pergunta aberta.") 400)
      else
        answer <- call_trim answer_ ;;
        POST_insert body text difficulty dbType answer None JNull.

Definition POST (req_json : option value) (p : Pool) : Response * Pool :=
  handler (POST_body req_json) (json (error "Erro ao criar pergunta") 500) p.

(* ================================================================== *)
(** * The per-id route: the handlers of one question *)
(* ================================================================== *)

(** !numericId || isNaN(numericId) *)
Definition invalid_id (numericId : number) : bool :=
  negb (number_truthy numericId) || isNaN numericId.

Definition DELETE_body (id : jsstring) : Async Response :=
  let numericId := StringToNumber id in
  if invalid_id numericId then
    ret (json (error "ID inválido") 400)
  else
    res <- query (DeleteQuestion numericId) ;;
    if rowCount res =? 0 then
      ret (json (error "Pergunta não encontrada") 404)
    else
      ret (json (JObject [(lit "message", str "Pergunta removida com sucesso")]) 200).

Definition DELETE (id : jsstring) (p : Pool) : Response * Pool :=
  handler (DELETE_body id) (json (error "Erro ao deletar pergunta") 500) p.

(** The statement of the update path and its answer, once the body has
    been destructured. *)
Definition PUT_update (text difficulty type_ answer hint1 options correctIndex : value)
    (numericId : number) : Async Response :=
  colRes <- query ProbeHint1 ;;
  let hasHint1 := some_hint1 (rows colRes) in
  res <- query (UpdateQuestion hasHint1 text difficulty type_ answer
                  (nullish hint1 JNull)
                  (* options ? JSON.stringify(options) : null, cast to jsonb
                     and read back as the JSON value *)
                  (if truthy options then options else JNull)
                  (nullish correctIndex JNull)
                  numericId) ;;
  if rowCount res =? 0 then
    ret (json (error "Pergunta não encontrada") 404)
  else
    ret (json (first_row (rows res)) 200).

Definition PUT_body (req_json : option value) (id : jsstring) : Async Response :=
  let numericId := StringToNumber id in
  if invalid_id numericId then
    ret (json (error "ID inválido") 400)
  else
    body <- access req_json ;;
    (* const { text, difficulty, type, answer, hint1, options, correctIndex } = body *)
    text <- access (prop body (lit "text")) ;;
    difficulty <- access (prop body (lit "difficulty")) ;;
    type_ <- access (prop body (lit "type")) ;;
    answer <- access (prop body (lit "answer")) ;;
    hint1 <- access (prop body (lit "hint1")) ;;
    options <- access (prop body (lit "options")) ;;
    correctIndex <- access (prop body (lit "correctIndex")) ;;
    PUT_update text difficulty type_ answer hint1 options correctIndex numericId.

Definition PUT (req_json : option value) (id : jsstring) (p : Pool)
  : Response * Pool :=
  handler (PUT_body req_json id) (json (error "Erro ao atualizar pergunta") 500) p.

(* ================================================================== *)
(** * Concrete requests and pools used as test inputs *)
(* ================================================================== *)

(** A fresh database of the first release: no row, no [hint1] column. *)
Definition old_pool : Pool :=
  {| questions := []; hint1_column := false; next_id := 1; now := 1000;
     faults := [] |}.

Definition sample_row : Row :=
  {| col_id := 7; col_text := str "CSROHA"; col_difficulty := str "facil";
     col_type := str "discursiva"; col_answer := str "CHAROS";
     col_hint1 := JNull; col_options := JNull; col_correct_index := JNull;
     col_created_at := 500; col_used_at := JNull |}.

Definition one_row_pool : Pool :=
  {| questions := [sample_row]; hint1_column := true; next_id := 8;
     now := 1000; faults := [] |}.

(* ================================================================== *)
(** * Vocabulary of the statements below *)
(* ================================================================== *)

(** The table and its schema are the same in both pools (the fault script
    may have advanced). *)
Definition same_table (p p' : Pool) : Prop :=
  questions p' = questions p /\
  hint1_column p' = hint1_column p /\
  next_id p' = next_id p /\
  now p' = now p.

(** The row an INSERT of the create path adds to pool [p]. *)
Definition inserted (p : Pool)
    (text difficulty type answer hint1 options correct_index : value) : Row :=
  {| col_id := next_id p;
     col_text := text;
     col_difficulty := difficulty;
     col_type := type;
     col_answer := answer;
     col_hint1 := hint1;
     col_options := options;
     col_correct_index := correct_index;
     col_created_at := now p;
     col_used_at := JNull |}.

(** What the add-column step of the create path may have done to [p]:
    no row is touched, the column [hint1] may have appeared. *)
Definition column_ensured (p p1 : Pool) : Prop :=
  questions p1 = questions p /\ next_id p1 = next_id p /\ now p1 = now p /\
  (hint1_column p1 = hint1_column p \/ hint1_column p1 = true) /\
  (faults p = [] -> faults p1 = [] /\ hint1_column p1 = true).

(** isNonEmptyString(v) ? v.trim() : d *)
Definition trim_or (v d : value) : value :=
  match v with
  | JString s => if isNonEmptyString v then JString (trim s) else d
  | _ => d
  end.

(** The fields of a create request, as the handler reads them. *)
Section CreateRequest.
Variable fields : list (jsstring * value).

Definition req_text : value := lookup (lit "text") fields.
Definition req_dbType : value := toDbType (lookup (lit "type") fields).
Definition req_difficulty : value :=
  if isNonEmptyString (lookup (lit "difficulty") fields)
  then lookup (lit "difficulty") fields else str "facil".
Definition req_trimmed : list jsstring :=
  map trim_option
      (match lookup (lit "options") fields with JArray l => l | _ => [] end).
Definition req_ci : number := ci_of (lookup (lit "correctIndex") fields).
Definition req_answer : value := lookup (lit "answer") fields.

(** The test of line 140 passes: four options, none empty once trimmed. *)
Definition four_filled : bool :=
  (Z.of_nat (List.length req_trimmed) =? 4) && negb (existsb is_empty req_trimmed).
End CreateRequest.

Definition text_required : Response :=
  json (error "Texto da pergunta é obrigatório.") 400.
Definition mcq_needs_four : Response :=
  json (error "MCQ precisa de 4 alternativas preenchidas (A, B, C e D).") 400.
Definition answer_required : Response :=
  json (error "Resposta é obrigatória para pergunta aberta.") 400.
Definition create_failed : Response := json (error "Erro ao criar pergunta") 500.
Definition invalid_id_response : Response := json (error "ID inválido") 400.
Definition not_found : Response := json (error "Pergunta não encontrada") 404.
Definition removed : Response :=
  json (JObject [(lit "message", str "Pergunta removida com sucesso")]) 200.
Definition delete_failed : Response := json (error "Erro ao deletar pergunta") 500.
Definition update_failed : Response := json (error "Erro ao atualizar pergunta") 500.
Definition list_failed : Response := json (error "Erro ao buscar perguntas") 500.

(** The [options] field is an array of exactly four strings, each
    non-empty once trimmed. *)
Definition four_nonempty_strings (options : value) : Prop :=
  exists a b c d : jsstring,
    options = JArray [JString a; JString b; JString c; JString d] /\
    trim a <> [] /\ trim b <> [] /\ trim c <> [] /\ trim d <> [].

(** The [correctIndex] field is missing, is not a number, or is a number
    outside the interval [0, 3]. *)
Definition missing_or_outside_0_3 (correctIndex : value) : Prop :=
  match correctIndex with
  | JNumber n =>
      num_lt n (of_Z 0) = true \/ num_gt n (of_Z 3) = true \/ isNaN n = true
  | _ => True
  end.

(** Requests used as test inputs. *)
Definition untitled_mcq_fields : list (jsstring * value) :=
  [(lit "text", JString []); (lit "type", str "MCQ");
   (lit "options", JArray [str "Paris"; str "Lyon"])].

Definition two_option_mcq_fields : list (jsstring * value) :=
  [(lit "text", str "Capital of France?"); (lit "type", str "MCQ");
   (lit "options", JArray [str "Paris"; str "Lyon"])].

Definition two_option_mcq : value := JObject two_option_mcq_fields.

Definition france_mcq_fields : list (jsstring * value) :=
  [(lit "text", str "Capital of France?"); (lit "type", str "MCQ");
   (lit "options", JArray [str "Paris"; str " Lyon"; str "Nice"; str "Metz"])].

(** The same question with the third option marked as the correct one. *)
Definition nice_mcq_fields : list (jsstring * value) :=
  [(lit "text", str "Town of the Promenade des Anglais?"); (lit "type", str "MCQ");
   (lit "options", JArray [str "Paris"; str " Lyon"; str "Nice"; str "Metz"]);
   (lit "correctIndex", JNumber (of_Z 2))].

(** The same request with its own answer text. *)
Definition answered_mcq_fields : list (jsstring * value) :=
  nice_mcq_fields ++ [(lit "answer", str " Nizza ")].


Definition charos_fields : list (jsstring * value) :=
  [(lit "text", str "CSROHA"); (lit "type", str "OPEN");
   (lit "answer", str " CHAROS "); (lit "difficulty", str "facil")].

Definition padded_fields : list (jsstring * value) :=
  [(lit "text", str " CSROHA "); (lit "type", str "OPEN");
   (lit "answer", str " CHAROS "); (lit "difficulty", str " facil ");
   (lit "hint1", str " fish ")].

(** The row an update of the per-id route writes over [old], from the
    fields of the request body. *)
Definition replaced (with_hint1 : bool) (fields : list (jsstring * value))
    (old : Row) : Row :=
  updated with_hint1
    (lookup (lit "text") fields) (lookup (lit "difficulty") fields)
    (lookup (lit "type") fields) (lookup (lit "answer") fields)
    (nullish (lookup (lit "hint1") fields) JNull)
    (if truthy (lookup (lit "options") fields)
     then lookup (lit "options") fields else JNull)
    (nullish (lookup (lit "correctIndex") fields) JNull)
    old.

Definition harder_fields : list (jsstring * value) :=
  [(lit "text", str "CSROHA"); (lit "difficulty", str "dificil");
   (lit "type", str "discursiva"); (lit "answer", str "CHAROS")].

(* ================================================================== *)
(** * Vocabulary of the further statements *)
(* ================================================================== *)

(** Every id of the table was drawn from the sequence: it is positive
    and below the next value, and no two rows share it. *)
Definition ids_fresh (p : Pool) : Prop :=
  0 < next_id p /\
  (forall r : Row, In r (questions p) -> 0 < col_id r < next_id p) /\
  NoDup (map col_id (questions p)).

(** The create request passes the check of its text and the check of its
    resolved type. *)
Definition accepted (fields : list (jsstring * value)) : bool :=
  isNonEmptyString (req_text fields) &&
  (if strict_eq_string (req_dbType fields) (lit "multipla_escolha")
   then four_filled fields
   else isNonEmptyString (req_answer fields)).

(** The row the create path inserts for an accepted request, on a pool
    whose [hint1] column exists or not. *)
Definition created_row (with_hint1 : bool) (p : Pool)
    (fields : list (jsstring * value)) : Row :=
  let mcq := strict_eq_string (req_dbType fields) (lit "multipla_escolha") in
  inserted p
    (trim_or (req_text fields) JNull)
    (req_difficulty fields)
    (req_dbType fields)
    (bind (if mcq
           then trim_or (req_answer fields)
                        (elem (req_trimmed fields) (req_ci fields))
           else trim_or (req_answer fields) JUndefined))
    (if with_hint1 then trim_or (lookup (lit "hint1") fields) JNull else JNull)
    (if mcq then JArray (map JString (req_trimmed fields)) else JNull)
    (if mcq then JNumber (req_ci fields) else JNull).

(** The difficulty filter the list handler applies: none when the
    parameter is absent or empty. *)
Definition list_filter (searchParams : list (jsstring * jsstring))
  : option jsstring :=
  match searchParams_get searchParams (lit "difficulty") with
  | Some (c :: d) => Some (c :: d)
  | _ => None
  end.

(** The rows of one page of the list, newest first. *)
Definition page_rows (searchParams : list (jsstring * jsstring)) (p : Pool)
    (limit offset : nat) : list Row :=
  firstn limit
    (skipn offset
       (order_by_created_at_desc
          (filter (difficulty_is (list_filter searchParams)) (questions p)))).

(** ORDER BY created_at DESC, between two rows that follow each other *)
Definition newer_first (a b : Row) : Prop :=
  col_created_at b <= col_created_at a.

(* ================================================================== *)
(** * QuestionForm.tsx: the form, the list and the delete dialog *)
(* ================================================================== *)

Module QuestionForm.

(** The fields of a Question the component reads (the type is declared
    in ../types): [q_type] is [undefined] when the field is absent. *)
Record Question := {
  q_id : jsstring;
  q_text : jsstring;
  q_difficulty : jsstring;
  q_type : value
}.

(** The state hooks of the component. *)
Record State := {
  text : jsstring;
  answer : jsstring;
  difficulty : jsstring;
  selectedDifficulty : jsstring;
  confirmOpen : bool;
  pendingDelete : option (jsstring * jsstring)
}.

(** What a handler does besides setting state: the calls to the props
    [onAdd] and [onDelete], to [alert] and to [e.preventDefault]. *)
Inductive Effect :=
| preventDefault
| alert (msg : string)
| onAdd (question : value)
| onDelete (id : jsstring).

(** useState("") twice, useState(Difficulty.EASY) twice, useState(false),
    useState(null): [EASY] is the constant of the enumeration declared
    in ../types. *)
Definition initial (EASY : jsstring) : State :=
  {| text := []; answer := []; difficulty := EASY; selectedDifficulty := EASY;
     confirmOpen := false; pendingDelete := None |}.

Definition requestDelete (q : Question) (s : State) : State :=
  {| text := text s; answer := answer s; difficulty := difficulty s;
     selectedDifficulty := selectedDifficulty s;
     confirmOpen := true;
     pendingDelete := Some (q_id q, q_text q) |}.

Definition confirmDelete (s : State) : State * list Effect :=
  match pendingDelete s with
  | None => (s, [])
  | Some (id, _) =>
      ({| text := text s; answer := answer s; difficulty := difficulty s;
          selectedDifficulty := selectedDifficulty s;
          confirmOpen := false;
          pendingDelete := None |},
       [onDelete id])
  end.

Definition cancelDelete (s : State) : State :=
  {| text := text s; answer := answer s; difficulty := difficulty s;
     selectedDifficulty := selectedDifficulty s;
     confirmOpen := false;
     pendingDelete := None |}.

Definition handleSubmit (s : State) : State * list Effect :=
  let qText := trim (text s) in
  if is_empty qText then (s, [preventDefault; alert "Preencha a Dica 1."])
  else
    let aText := trim (answer s) in
    if is_empty aText then
      (s, [preventDefault; alert "Preencha a Resposta Correta."])
    else
      ({| text := []; answer := []; difficulty := difficulty s;
          selectedDifficulty := selectedDifficulty s;
          confirmOpen := confirmOpen s;
          pendingDelete := pendingDelete s |},
       [preventDefault;
        onAdd (JObject [(lit "text", JString qText);
                        (lit "answer", JString aText);
                        (lit "difficulty", JString (difficulty s));
                        (lit "type", str "OPEN")])]).

(** The events the rendered tree can raise: the two inputs, the
    difficulty radios, the difficulty tabs, the submit of the form, the
    delete button of a listed question, the two buttons and the overlay of
    the dialog. *)
Inductive Event :=
| setText (v : jsstring)
| setAnswer (v : jsstring)
| setDifficulty (level : jsstring)
| setSelectedDifficulty (level : jsstring)
| submit
| clickDelete (q : Question)
| clickConfirm
| clickCancel.

Definition step (s : State) (e : Event) : State * list Effect :=
  match e with
  | setText v =>
      ({| text := v; answer := answer s; difficulty := difficulty s;
          selectedDifficulty := selectedDifficulty s;
          confirmOpen := confirmOpen s; pendingDelete := pendingDelete s |}, [])
  | setAnswer v =>
      ({| text := text s; answer := v; difficulty := difficulty s;
          selectedDifficulty := selectedDifficulty s;
          confirmOpen := confirmOpen s; pendingDelete := pendingDelete s |}, [])
  | setDifficulty level =>
      ({| text := text s; answer := answer s; difficulty := level;
          selectedDifficulty := selectedDifficulty s;
          confirmOpen := confirmOpen s; pendingDelete := pendingDelete s |}, [])
  | setSelectedDifficulty level =>
      ({| text := text s; answer := answer s; difficulty := difficulty s;
          selectedDifficulty := level;
          confirmOpen := confirmOpen s; pendingDelete := pendingDelete s |}, [])
  | submit => handleSubmit s
  | clickDelete q => (requestDelete q s, [])
  | clickConfirm => confirmDelete s
  | clickCancel => (cancelDelete s, [])
  end.

(** A session: the state after the events, and the effects in order. *)
Fixpoint run (s : State) (events : list Event) : State * list Effect :=
  match events with
  | [] => (s, [])
  | e :: rest =>
      let '(s1, out1) := step s e in
      let '(s2, out2) := run s1 rest in
      (s2, out1 ++ out2)
  end.

(** questions.length *)
Definition totalAll (questions : list Question) : nat := List.length questions.

(** (q.type ?? "OPEN") === tag *)
Definition has_type (tag : jsstring) (q : Question) : bool :=
  strict_eq_string (nullish (q_type q) (str "OPEN")) tag.

Definition totalAllOpen (questions : list Question) : nat :=
  List.length (filter (has_type (lit "OPEN")) questions).

Definition totalAllMcq (questions : list Question) : nat :=
  List.length (filter (has_type (lit "MCQ")) questions).

(** questions.filter((q) => q.difficulty === level) *)
Definition of_level (level : jsstring) (questions : list Question)
  : list Question :=
  filter (fun q => jsstring_eqb (q_difficulty q) level) questions.

Definition filteredQuestions (questions : list Question) (s : State)
  : list Question :=
  of_level (selectedDifficulty s) questions.

(** The count shown on the tab of a level. *)
Definition counts (questions : list Question) (level : jsstring) : nat :=
  List.length (of_level level questions).

Definition is_onDelete (e : Effect) : bool :=
  match e with onDelete _ => true | _ => false end.

Definition is_clickDelete (e : Event) : bool :=
  match e with clickDelete _ => true | _ => false end.

(** One when a question is pending in the dialog, zero otherwise. *)
Definition pending_weight (s : State) : nat :=
  match pendingDelete s with Some _ => 1%nat | None => 0%nat end.

(** The type is absent, "OPEN" or "MCQ". *)
Definition open_or_mcq (q : Question) : bool :=
  has_type (lit "OPEN") q || has_type (lit "MCQ") q.

End QuestionForm.

(** Further requests and sessions used as test inputs. *)
Definition mcq_update_fields : list (jsstring * value) :=
  [(lit "text", str "CSROHA"); (lit "difficulty", str "facil");
   (lit "type", str "MCQ"); (lit "answer", str "CHAROS")].

Definition typed_state : QuestionForm.State :=
  {| QuestionForm.text := lit " CSROHA ";
     QuestionForm.answer := lit "CHAROS ";
     QuestionForm.difficulty := lit "facil";
     QuestionForm.selectedDifficulty := lit "facil";
     QuestionForm.confirmOpen := false;
     QuestionForm.pendingDelete := None |}.

Definition listed_question : QuestionForm.Question :=
  {| QuestionForm.q_id := lit "7"; QuestionForm.q_text := lit "CSROHA";
     QuestionForm.q_difficulty := lit "facil";
     QuestionForm.q_type := JUndefined |}.

Definition delete_session : list QuestionForm.Event :=
  [QuestionForm.clickDelete listed_question; QuestionForm.clickConfirm;
   QuestionForm.clickConfirm].


(* ================================================================== *)
(** * One query at a time *)
(* ================================================================== *)

Lemma bind_unfold {A B} (m : Async A) (k : A -> Async B) (p : Pool) :
  bind_async m k p =
  match m p with
  | (Value a, p') => k a p'
  | (Thrown, p') => (Thrown, p')
  end.
Proof. reflexivity. Qed.

Lemma same_table_refl p : same_table p p.
Proof. repeat split. Qed.

Lemma same_table_trans p q r : same_table p q -> same_table q r -> same_table p r.
Proof.
  unfold same_table. intros (A & B & C & D) (A' & B' & C' & D').
  repeat split; congruence.
Qed.

Lemma same_table_with_faults p fs : same_table p (with_faults p fs).
Proof. repeat split. Qed.

Lemma with_faults_nil p : faults p = [] -> with_faults p [] = p.
Proof. destruct p; simpl; intros ->; reflexivity. Qed.

Lemma with_questions_same p : with_questions p (questions p) = p.
Proof. destruct p; reflexivity. Qed.

(** A query either throws on a scheduled fault, leaving the table alone,
    or is run by the storage on the pool with the script advanced. *)
Lemma query_cases (s : Stmt) (p : Pool) :
  exists q : Pool,
    same_table p q /\ (faults p = [] -> q = p) /\
    ((query s p = (Thrown, q) /\ faults p <> []) \/
     query s p = match exec s q with
                 | Some (res, p1) => (Value res, p1)
                 | None => (Thrown, q)
                 end).
Proof.
  unfold query. destruct (faults p) as [|[|] fs] eqn:F.
  - exists p. split; [apply same_table_refl|]. split; [reflexivity|].
    right. reflexivity.
  - exists (with_faults p fs). split; [apply same_table_with_faults|].
    split; [discriminate|]. left. split; [reflexivity|discriminate].
  - exists (with_faults p fs). split; [apply same_table_with_faults|].
    split; [discriminate|]. right. reflexivity.
Qed.

Lemma some_hint1_probe (b : bool) :
  some_hint1 (if b then [JObject [(lit "column_name", str "hint1")]] else []) = b.
Proof. destruct b; reflexivity. Qed.

(** The probe never changes the table; when it answers, it tells whether
    the column exists. *)
Lemma query_ProbeHint1 (p : Pool) :
  exists q : Pool,
    same_table p q /\ (faults p = [] -> q = p) /\
    ((query ProbeHint1 p = (Thrown, q) /\ faults p <> []) \/
     exists res, query ProbeHint1 p = (Value res, q) /\
                 some_hint1 (rows res) = hint1_column p).
Proof.
  destruct (query_cases ProbeHint1 p) as (q & Hs & Hq & [H|H]).
  - exists q. repeat split; try apply Hs; auto.
  - exists q. split; [exact Hs|]. split; [exact Hq|]. right.
    simpl in H. eexists. split; [exact H|]. simpl.
    rewrite some_hint1_probe. destruct Hs as (_ & B & _). exact B.
Qed.

(** try { ALTER TABLE ... ADD COLUMN IF NOT EXISTS } catch { } never
    throws and never touches a row; it may add the column. *)
Lemma try_AddHint1 (p : Pool) :
  exists q : Pool,
    try_catch (query AddHint1 ;;; ret tt) (ret tt) p = (Value tt, q) /\
    questions q = questions p /\ next_id q = next_id p /\ now q = now p /\
    (hint1_column q = hint1_column p \/ hint1_column q = true) /\
    (faults p = [] -> faults q = [] /\ hint1_column q = true).
Proof.
  unfold try_catch, bind_async.
  destruct (query_cases AddHint1 p) as (q & (A & B & C & D) & Hq & [[H F]|H]).
  - rewrite H. exists q. simpl.
    split; [reflexivity|]. split; [exact A|]. split; [exact C|].
    split; [exact D|]. split; [left; exact B|].
    intros F'. contradiction.
  - rewrite H. simpl. eexists. split; [reflexivity|]. simpl.
    split; [exact A|]. split; [exact C|]. split; [exact D|].
    split; [right; reflexivity|].
    intros F. split; [|reflexivity]. rewrite (Hq F). exact F.
Qed.

(** The INSERT of the create path, whose column list follows the probe. *)
Lemma query_InsertQuestion (w : bool) (p : Pool)
    (text difficulty type answer hint1 options ci : value) :
  w && negb (hint1_column p) = false ->
  exists q : Pool,
    (faults p = [] -> faults q = []) /\
    ((query (InsertQuestion w text difficulty type answer hint1 options ci) p
        = (Thrown, q) /\ same_table p q /\ faults p <> []) \/
     let r := inserted p (bind text) (bind difficulty) (bind type) (bind answer)
                (if w then bind hint1 else JNull) (bind options) (bind ci) in
     query (InsertQuestion w text difficulty type answer hint1 options ci) p
        = (Value {| rowCount := 1; rows := [returning w true r] |}, q) /\
     questions q = questions p ++ [r] /\
     hint1_column q = hint1_column p /\
     next_id q = next_id p + 1).
Proof.
  intros Hw.
  destruct (query_cases (InsertQuestion w text difficulty type answer hint1 options ci) p)
    as (q & (A & B & C & D) & Hq & [[H F]|H]).
  - exists q. split; [intros F'; contradiction|]. left.
    repeat split; auto.
  - simpl in H. rewrite B, Hw in H. eexists. split; [|right].
    2:{ cbv zeta. split; [|split; [|split]].
        - rewrite H. unfold inserted. rewrite C, D. reflexivity.
        - simpl. rewrite A. reflexivity.
        - simpl. reflexivity.
        - simpl. reflexivity. }
    simpl. intros F. rewrite (Hq F). exact F.
Qed.

Lemma returning_type (w u : bool) (r : Row) :
  prop (returning w u r) (lit "type") = Some (col_type r).
Proof. reflexivity. Qed.

Lemma bind_string (s : jsstring) : bind (JString s) = JString s.
Proof. reflexivity. Qed.

(** The stored form of the [options] of the create path. *)
Lemma bind_options (o : option (list jsstring)) :
  bind (match o with Some l => JArray (map JString l) | None => JNull end)
  = match o with Some l => JArray (map JString l) | None => JNull end.
Proof. destruct o; reflexivity. Qed.

(** The insert phase of the create path: either the storage failed and the
    table is as before, or exactly one row was appended, carrying the
    values computed by the handler. *)
Lemma POST_insert_spec (fields : list (jsstring * value)) (s : jsstring)
    (difficulty dbType answer : value) (options : option (list jsstring))
    (ci : value) (e : Response) (p : Pool) :
  exists (r : Response) (q : Pool),
    handler (POST_insert (JObject fields) (JString s) difficulty dbType answer
                         options ci) e p = (r, q) /\
    ((r = e /\ same_table p q /\ faults p <> []) \/
     exists h : value,
       let row := inserted p (JString (trim s)) (bind difficulty) (bind dbType)
                    (bind answer) h
                    (match options with
                     | Some l => JArray (map JString l)
                     | None => JNull
                     end)
                    (bind ci) in
       r = json (with_api_type (returning (hint1_column p) true row) (bind dbType)) 201 /\
       questions q = questions p ++ [row] /\
       hint1_column q = hint1_column p /\
       (h = JNull \/
        exists t, lookup (lit "hint1") fields = JString t /\ h = JString (trim t))).
Proof.
  unfold handler, POST_insert. rewrite bind_unfold.
  destruct (query_ProbeHint1 p) as (q1 & S1 & Hq1 & [[H F]|(res & H & Hs)]).
  - rewrite H. exists e, q1. split; [reflexivity|]. left. auto.
  - rewrite H, bind_unfold. cbn [call_trim ret]. rewrite Hs, bind_unfold.
    assert (Hh : exists h,
               (if hint1_column p then
                  hint1 <- access (prop (JObject fields) (lit "hint1")) ;;
                  if isNonEmptyString hint1 then call_trim hint1 else ret JNull
                else ret JNull) q1 = (Value h, q1) /\
               ((if hint1_column p then bind h else JNull) = JNull \/
                exists t, lookup (lit "hint1") fields = JString t /\
                          (if hint1_column p then bind h else JNull) = JString (trim t))).
    { destruct (hint1_column p); [|exists JNull; split; [reflexivity|left; reflexivity]].
      rewrite bind_unfold. cbn [access prop ret].
      destruct (lookup (lit "hint1") fields) as [| | | |t| | |];
        try (exists JNull; split; [reflexivity|left; reflexivity]).
      destruct (isNonEmptyString (JString t)).
      - exists (JString (trim t)). split; [reflexivity|].
        right. exists t. split; reflexivity.
      - exists JNull. split; [reflexivity|left; reflexivity]. }
    destruct Hh as (h & Hh & Hhv). rewrite Hh.
    destruct S1 as (A & B & C & D).
    destruct (query_InsertQuestion (hint1_column p) q1 (JString (trim s)) difficulty
                dbType answer h
                (match options with
                 | Some l => JArray (map JString l)
                 | None => JNull
                 end) ci) as (q2 & Hf & [(H2 & S2 & F2)|H2]).
    { rewrite B. destruct (hint1_column p); reflexivity. }
    + rewrite bind_unfold, H2. exists e, q2. split; [reflexivity|]. left.
      split; [reflexivity|]. split.
      * apply same_table_trans with q1; [repeat split; auto|exact S2].
      * intros F. apply F2. rewrite (Hq1 F). exact F.
    + cbv zeta in H2. destruct H2 as (H2 & Q2 & C2 & N2).
      rewrite bind_unfold, H2. cbn [rows first_row].
      rewrite bind_unfold, returning_type.
      cbn [access ret col_type inserted].
      eexists _, q2. split; [reflexivity|]. right.
      exists (if hint1_column p then bind h else JNull).
      cbv zeta. rewrite bind_options, bind_string in *.
      unfold inserted in *. rewrite C, D in *.
      split; [reflexivity|]. split; [rewrite Q2, A; reflexivity|].
      split; [congruence|]. exact Hhv.
Qed.

Lemma trim_or_run (v d : value) (p : Pool) :
  (if isNonEmptyString v then call_trim v else ret d) p = (Value (trim_or v d), p).
Proof.
  unfold trim_or. destruct v; try reflexivity.
  destruct (isNonEmptyString (JString s)); reflexivity.
Qed.

Lemma isNonEmptyString_string (v : value) :
  isNonEmptyString v = true -> exists s, v = JString s /\ trim s <> [].
Proof.
  destruct v; simpl; try discriminate. intros H. exists s. split; [reflexivity|].
  intros E. rewrite E in H. discriminate.
Qed.

(** The create handler on a JSON object, step by step: the text check
    touches nothing; the add-column step comes next; then the checks of
    the resolved type; then the insert phase. *)
Lemma POST_object (fields : list (jsstring * value)) (p : Pool) :
  if negb (isNonEmptyString (req_text fields)) then
    POST (Some (JObject fields)) p = (text_required, p)
  else
    exists p1 : Pool, column_ensured p p1 /\
      if strict_eq_string (req_dbType fields) (lit "multipla_escolha") then
        if negb (four_filled fields) then
          POST (Some (JObject fields)) p = (mcq_needs_four, p1)
        else
          POST (Some (JObject fields)) p =
          handler (POST_insert (JObject fields) (req_text fields)
                     (req_difficulty fields) (req_dbType fields)
                     (trim_or (req_answer fields)
                              (elem (req_trimmed fields) (req_ci fields)))
                     (Some (req_trimmed fields)) (JNumber (req_ci fields)))
                  create_failed p1
      else
        if negb (isNonEmptyString (req_answer fields)) then
          POST (Some (JObject fields)) p = (answer_required, p1)
        else
          POST (Some (JObject fields)) p =
          handler (POST_insert (JObject fields) (req_text fields)
                     (req_difficulty fields) (req_dbType fields)
                     (trim_or (req_answer fields) JUndefined)
                     None JNull)
                  create_failed p1.
Proof.
  unfold POST, handler, POST_body.
  rewrite !bind_unfold. cbn [access ret prop]. rewrite bind_unfold.
  cbn [access ret prop].
  fold (req_text fields).
  destruct (isNonEmptyString (req_text fields)) eqn:Ht; cbn [negb]; [|reflexivity].
  destruct (try_AddHint1 p) as (p1 & H1 & A & B & C & D & E).
  exists p1. split; [repeat split; auto; apply E; auto|].
  do 3 (rewrite bind_unfold; cbn [access ret prop]).
  rewrite H1.
  fold (req_dbType fields).
  destruct (strict_eq_string (req_dbType fields) (lit "multipla_escolha")).
  - rewrite bind_unfold; cbn [access ret prop].
    unfold four_filled. rewrite negb_andb, negb_involutive.
    fold (req_trimmed fields).
    destruct (negb (Z.of_nat (Datatypes.length (req_trimmed fields)) =? 4)
              || existsb is_empty (req_trimmed fields)); [reflexivity|].
    do 3 (rewrite bind_unfold; cbn [access ret prop]).
    fold (req_ci fields) (req_answer fields).
    rewrite trim_or_run. reflexivity.
  - rewrite bind_unfold; cbn [access ret prop].
    fold (req_answer fields).
    destruct (isNonEmptyString (req_answer fields)) eqn:Ha; cbn [negb]; [|reflexivity].
    destruct (isNonEmptyString_string _ Ha) as (s & Hs & _).
    rewrite bind_unfold.
    rewrite Hs in *. cbn [call_trim ret]. unfold trim_or.
    rewrite Ha. reflexivity.
Qed.
(* ================================================================== *)
(** * Numbers: order facts used by the guards *)
(* ================================================================== *)

Lemma SFcompare_swap (a b : number) :
  SFcompare b a = option_map CompOpp (SFcompare a b).
Proof.
  destruct a as [sa|sa| |sa ma ea], b as [sb|sb| |sb mb eb]; simpl;
    try reflexivity;
    try (destruct sa; reflexivity); try (destruct sb; reflexivity);
    try (destruct sa, sb; reflexivity).
  f_equal.
  destruct sa, sb; simpl; try reflexivity.
  - rewrite (Z.compare_antisym ea eb).
    destruct (ea ?= eb); simpl; try reflexivity.
    rewrite (Pos.compare_cont_antisym ma mb Eq). reflexivity.
  - rewrite (Z.compare_antisym ea eb).
    destruct (ea ?= eb); simpl; try reflexivity.
    rewrite (Pos.compare_cont_antisym ma mb Eq). reflexivity.
Qed.

Lemma num_le_not_gt (x y : number) : num_le x y = true -> num_gt x y = false.
Proof.
  unfold num_le, num_gt, SFleb, SFltb. rewrite (SFcompare_swap x y).
  destruct (SFcompare x y) as [[ | | ]|]; simpl; congruence.
Qed.

Lemma num_gt_not_le (x y : number) : num_gt x y = true -> num_le x y = false.
Proof.
  unfold num_le, num_gt, SFleb, SFltb. rewrite (SFcompare_swap x y).
  destruct (SFcompare x y) as [[ | | ]|]; simpl; congruence.
Qed.

Lemma num_lt_not_ge (x y : number) : num_lt x y = true -> num_ge x y = false.
Proof.
  unfold num_lt, num_ge, SFleb, SFltb. rewrite (SFcompare_swap x y).
  destruct (SFcompare x y) as [[ | | ]|]; simpl; congruence.
Qed.

Lemma to_integer_finite_nonzero s m e : to_integer (S754_finite s m e) <> Some 0.
Proof.
  unfold to_integer. pose proof (Pos2Z.is_pos m) as Hpos.
  remember (Z.pos m) as M eqn:HM. clear HM m.
  destruct (0 <=? e) eqn:He.
  - apply Z.leb_le in He. intro H. injection H as H.
    assert (0 < 2 ^ e) by (apply Z.pow_pos_nonneg; lia).
    destruct s; nia.
  - apply Z.leb_gt in He.
    destruct (M mod 2 ^ (- e) =? 0) eqn:Hm; [|discriminate].
    apply Z.eqb_eq in Hm. intro H. injection H as H.
    assert (Hp : 0 < 2 ^ (- e)) by (apply Z.pow_pos_nonneg; lia).
    pose proof (Z.div_mod M (2 ^ (- e)) ltac:(lia)) as Hd.
    rewrite Hm in Hd.
    assert (M / 2 ^ (- e) = 0) by (destruct s; lia).
    nia.
Qed.

(** A number that passes the id guard never selects the id 0. *)
Lemma valid_id_not_zero (n : number) :
  invalid_id n = false -> to_integer n <> Some 0.
Proof.
  destruct n as [s|s| |s m e]; simpl; try discriminate.
  intros _. apply to_integer_finite_nonzero.
Qed.

(** Conversely a number denoting a non-zero integer passes the guard. *)
Lemma nonzero_id_valid (n : number) (k : Z) :
  to_integer n = Some k -> k <> 0 -> invalid_id n = false.
Proof.
  destruct n as [s|s| |s m e]; simpl; try discriminate; try reflexivity.
  intros H Hk. injection H as H. congruence.
Qed.

Lemma jsstring_eqb_eq (a b : jsstring) : jsstring_eqb a b = true <-> a = b.
Proof.
  revert b. induction a as [|x a IH]; destruct b as [|y b]; simpl;
    try (split; [discriminate|discriminate]); try tauto.
  rewrite andb_true_iff, N.eqb_eq, IH. split.
  - intros [-> ->]. reflexivity.
  - intros H. injection H. auto.
Qed.

Lemma strict_eq_string_eq (v : value) (s : jsstring) :
  strict_eq_string v s = true <-> v = JString s.
Proof.
  destruct v; simpl; try (split; [discriminate|discriminate]).
  rewrite jsstring_eqb_eq. split; [intros ->; reflexivity|].
  intros H. injection H. auto.
Qed.

Lemma strict_eq_string_neq (v : value) (s : jsstring) :
  v <> JString s -> strict_eq_string v s = false.
Proof.
  intros H. destruct (strict_eq_string v s) eqn:E; [|reflexivity].
  apply strict_eq_string_eq in E. contradiction.
Qed.

(* ================================================================== *)
(** * The type vocabulary *)
(* ================================================================== *)

(** C1. External to storage and back is the identity on OPEN and MCQ;
    [toDbType] sends every input other than "MCQ" and "multipla_escolha"
    to "discursiva", [toApiType] sends every input other than
    "multipla_escolha" and "MCQ" to "OPEN". Both are total functions. *)
Theorem type_vocabulary_round_trip :
  toApiType (toDbType (str "OPEN")) = str "OPEN" /\
  toApiType (toDbType (str "MCQ")) = str "MCQ" /\
  (forall t : value,
      t <> str "MCQ" -> t <> str "multipla_escolha" ->
      toDbType t = str "discursiva") /\
  (forall t : value,
      t <> str "multipla_escolha" -> t <> str "MCQ" ->
      toApiType t = str "OPEN").
Proof.
  split; [reflexivity|]. split; [reflexivity|]. split.
  - intros t H1 H2. unfold toDbType.
    rewrite (strict_eq_string_neq t (lit "MCQ") H1).
    rewrite (strict_eq_string_neq t (lit "multipla_escolha") H2).
    reflexivity.
  - intros t H1 H2. unfold toApiType.
    rewrite (strict_eq_string_neq t (lit "multipla_escolha") H1).
    rewrite (strict_eq_string_neq t (lit "MCQ") H2).
    reflexivity.
Qed.

Lemma type_vocabulary_defaults_witness :
  toDbType (JNumber (of_Z 3)) = str "discursiva" /\
  toDbType (str "open") = str "discursiva" /\
  toApiType JNull = str "OPEN" /\
  toApiType (str "discursiva") = str "OPEN".
Proof.
  destruct type_vocabulary_round_trip as (_ & _ & Hdb & Hapi).
  split; [apply Hdb; discriminate|].
  split; [apply Hdb; discriminate|].
  split; apply Hapi; discriminate.
Defined.

(* ================================================================== *)
(** * The create operation *)
(* ================================================================== *)

Lemma is_empty_false (s : jsstring) : s <> [] -> is_empty s = false.
Proof. destruct s; [contradiction|reflexivity]. Qed.

Lemma trim_option_nonempty (o : value) :
  is_empty (trim_option o) = false -> exists s, o = JString s /\ trim s <> [].
Proof.
  destruct o; simpl; try discriminate. intros H. exists s.
  split; [reflexivity|]. intros E. rewrite E in H. discriminate.
Qed.

(** The test of line 140 accepts exactly the arrays of four strings that
    are non-empty once trimmed. *)
Lemma four_filled_iff (fields : list (jsstring * value)) :
  four_filled fields = true <->
  four_nonempty_strings (lookup (lit "options") fields).
Proof.
  unfold four_filled, req_trimmed, four_nonempty_strings. split.
  - intros H. apply andb_true_iff in H. destruct H as [Hl He].
    apply Z.eqb_eq in Hl. apply negb_true_iff in He.
    destruct (lookup (lit "options") fields) as [| | | | | |l|];
      try (simpl in Hl; discriminate).
    destruct l as [|x1 [|x2 [|x3 [|x4 [|x5 l]]]]]; simpl in Hl; try lia.
    simpl in He.
    apply orb_false_iff in He. destruct He as [E1 He].
    apply orb_false_iff in He. destruct He as [E2 He].
    apply orb_false_iff in He. destruct He as [E3 He].
    apply orb_false_iff in He. destruct He as [E4 _].
    destruct (trim_option_nonempty _ E1) as (a & -> & Ha).
    destruct (trim_option_nonempty _ E2) as (b & -> & Hb).
    destruct (trim_option_nonempty _ E3) as (c & -> & Hc).
    destruct (trim_option_nonempty _ E4) as (d & -> & Hd).
    exists a, b, c, d. auto.
  - intros (a & b & c & d & -> & Ha & Hb & Hc & Hd). simpl.
    rewrite !is_empty_false by assumption. reflexivity.
Qed.

Lemma four_filled_false (fields : list (jsstring * value)) :
  ~ four_nonempty_strings (lookup (lit "options") fields) ->
  four_filled fields = false.
Proof.
  intros H. destruct (four_filled fields) eqn:E; [|reflexivity].
  apply four_filled_iff in E. contradiction.
Qed.

(** C2 (as amended). A create request whose resolved type is
    multiple-choice and whose options are not exactly four strings,
    non-empty once trimmed, is answered 400 and no row is persisted,
    whatever the storage does; the message is the one about the four
    options when the text passes its own check, which comes first, and
    the one about the missing text otherwise. *)
Theorem mcq_without_four_options_rejected
    (fields : list (jsstring * value)) (p : Pool) :
  req_dbType fields = str "multipla_escolha" ->
  ~ four_nonempty_strings (lookup (lit "options") fields) ->
  let r := fst (POST (Some (JObject fields)) p) in
  let q := snd (POST (Some (JObject fields)) p) in
  status r = 400 /\
  questions q = questions p /\
  (isNonEmptyString (req_text fields) = true -> r = mcq_needs_four) /\
  (isNonEmptyString (req_text fields) = false -> r = text_required).
Proof.
  intros Ht Ho. cbv zeta.
  pose proof (POST_object fields p) as H.
  destruct (isNonEmptyString (req_text fields)); cbn [negb] in H.
  - destruct H as (p1 & (A & _) & H). rewrite Ht in H.
    change (strict_eq_string (str "multipla_escolha") (lit "multipla_escolha"))
      with true in H. cbv iota in H.
    rewrite (four_filled_false fields Ho) in H. cbn [negb] in H.
    rewrite H. cbn [fst snd].
    split; [reflexivity|]. split; [exact A|]. split; [reflexivity|discriminate].
  - rewrite H. cbn [fst snd].
    split; [reflexivity|]. split; [reflexivity|]. split; [discriminate|reflexivity].
Qed.

Lemma mcq_without_four_options_rejected_witness :
  fst (POST (Some two_option_mcq) old_pool) = mcq_needs_four /\
  questions (snd (POST (Some two_option_mcq) old_pool)) = [].
Proof.
  assert (Hno : ~ four_nonempty_strings
                    (lookup (lit "options") two_option_mcq_fields)).
  { intros (a & b & c & d & H & _). vm_compute in H. discriminate. }
  destruct (mcq_without_four_options_rejected two_option_mcq_fields
              old_pool eq_refl Hno) as (_ & Hq & Hm & _).
  split; [apply Hm; reflexivity|exact Hq].
Defined.

(** C2, as stated, fails where the text is empty: the request resolves to
    multiple-choice with two options, and the answer is the 400 about the
    text, not the one about the four options. *)
Lemma mcq_message_needs_text :
  req_dbType untitled_mcq_fields = str "multipla_escolha" /\
  ~ four_nonempty_strings (lookup (lit "options") untitled_mcq_fields) /\
  fst (POST (Some (JObject untitled_mcq_fields)) old_pool) = text_required /\
  fst (POST (Some (JObject untitled_mcq_fields)) old_pool) <> mcq_needs_four.
Proof.
  split; [reflexivity|]. split.
  { intros (a & b & c & d & H & _). vm_compute in H. discriminate. }
  split; [reflexivity|].
  vm_compute. discriminate.
Qed.

Lemma ci_of_default (v : value) :
  missing_or_outside_0_3 v -> ci_of v = of_Z 0.
Proof.
  destruct v as [| | |n| | | |]; cbn [missing_or_outside_0_3 ci_of];
    try reflexivity.
  intros [H|[H|H]].
  - rewrite (num_lt_not_ge n (of_Z 0) H). reflexivity.
  - rewrite (num_gt_not_le n (of_Z 3) H), andb_false_r. reflexivity.
  - destruct n; try discriminate. reflexivity.
Qed.

(** The insert phase on the pool left by the add-column step, read from
    the pool the request arrived on. *)
Lemma create_outcome (fields : list (jsstring * value)) (s : jsstring)
    (difficulty dbType answer : value) (options : option (list jsstring))
    (ci : value) (p p1 : Pool) :
  column_ensured p p1 ->
  exists (r : Response) (q : Pool),
    handler (POST_insert (JObject fields) (JString s) difficulty dbType answer
                         options ci) create_failed p1 = (r, q) /\
    (faults p = [] -> status r = 201) /\
    ((r = create_failed /\ questions q = questions p) \/
     (status r = 201 /\
      exists h : value,
        questions q =
        questions p ++
        [inserted p (JString (trim s)) (bind difficulty) (bind dbType)
           (bind answer) h
           (match options with
            | Some l => JArray (map JString l)
            | None => JNull
            end)
           (bind ci)] /\
        (h = JNull \/
         exists t, lookup (lit "hint1") fields = JString t /\ h = JString (trim t)))).
Proof.
  intros (A & B & C & D & E).
  destruct (POST_insert_spec fields s difficulty dbType answer options ci
              create_failed p1) as (r & q & H & [(Hr & S & F)|(h & Hr & Q & _ & Hh)]).
  - exists r, q. split; [exact H|]. split.
    + intros Fp. destruct (E Fp) as [F1 _]. contradiction.
    + left. split; [exact Hr|]. destruct S as (S & _). congruence.
  - exists r, q. split; [exact H|]. split.
    + intros _. rewrite Hr. reflexivity.
    + right. split; [rewrite Hr; reflexivity|]. exists h. split; [|exact Hh].
      rewrite Q, A. unfold inserted. rewrite B, C. reflexivity.
Qed.

Lemma ci_of_in_range (n : number) :
  num_ge n (of_Z 0) = true -> num_le n (of_Z 3) = true -> ci_of (JNumber n) = n.
Proof. intros H0 H3. cbn [ci_of]. rewrite H0, H3. reflexivity. Qed.

Lemma small_index (i : Z) : (0 <= i <= 3)%Z -> i = 0%Z \/ i = 1%Z \/ i = 2%Z \/ i = 3%Z.
Proof. lia. Qed.

Lemma ci_of_small (i : Z) : (0 <= i <= 3)%Z -> ci_of (JNumber (of_Z i)) = of_Z i.
Proof.
  intros H. destruct (small_index i H) as [-> | [-> | [-> | ->]]]; reflexivity.
Qed.

(** [xs[i]] at a small whole index is the list element at that position. *)
Lemma elem_small (xs : list jsstring) (i : Z) :
  (0 <= i <= 3)%Z ->
  elem xs (of_Z i) = match nth_error xs (Z.to_nat i) with
                     | Some s => JString s
                     | None => JUndefined
                     end.
Proof.
  intros H. destruct (small_index i H) as [-> | [-> | [-> | ->]]]; reflexivity.
Qed.

Lemma trim_or_supplied (a : jsstring) (d : value) :
  isNonEmptyString (JString a) = true -> trim_or (JString a) d = JString (trim a).
Proof. intros H. unfold trim_or. rewrite H. reflexivity. Qed.

Lemma trim_or_default (v d : value) :
  isNonEmptyString v = false -> trim_or v d = d.
Proof. intros H. unfold trim_or. rewrite H. destruct v; reflexivity. Qed.

(** C3. A valid multiple-choice create request either fails in storage
    (500, no row) or appends one row (201; always so when the storage has
    no fault). The row keeps the trimmed options. Its correctIndex is 0
    when the field is missing, not a number or outside [0, 3], and is the
    number of the request when that lies in [0, 3]: for i among 0, 1, 2
    and 3 the row has correctIndex i. When a non-empty answer string was
    supplied the row has that string, trimmed; otherwise its answer is
    the stored option at the stored correctIndex, which for i among 0, 1,
    2 and 3 is the trimmed option at position i. With correctIndex
    omitted the row has correctIndex 0 and answer options[0]. *)
Theorem mcq_defaults (fields : list (jsstring * value)) (p : Pool) :
  isNonEmptyString (req_text fields) = true ->
  req_dbType fields = str "multipla_escolha" ->
  four_nonempty_strings (lookup (lit "options") fields) ->
  exists (r : Response) (q : Pool),
    POST (Some (JObject fields)) p = (r, q) /\
    (faults p = [] -> status r = 201) /\
    ((r = create_failed /\ questions q = questions p) \/
     (status r = 201 /\
      exists row : Row,
        questions q = questions p ++ [row] /\
        col_options row = JArray (map JString (req_trimmed fields)) /\
        col_correct_index row = JNumber (req_ci fields) /\
        (missing_or_outside_0_3 (lookup (lit "correctIndex") fields) ->
         col_correct_index row = JNumber (of_Z 0)) /\
        (isNonEmptyString (req_answer fields) = false ->
         col_answer row = bind (elem (req_trimmed fields) (req_ci fields))) /\
        (lookup (lit "correctIndex") fields = JUndefined ->
         isNonEmptyString (req_answer fields) = false ->
         col_correct_index row = JNumber (of_Z 0) /\
         exists first rest,
           req_trimmed fields = first :: rest /\ col_answer row = JString first) /\
        (forall n : number,
            lookup (lit "correctIndex") fields = JNumber n ->
            num_ge n (of_Z 0) = true -> num_le n (of_Z 3) = true ->
            col_correct_index row = JNumber n) /\
        (forall i : Z,
            (0 <= i <= 3)%Z ->
            lookup (lit "correctIndex") fields = JNumber (of_Z i) ->
            col_correct_index row = JNumber (of_Z i) /\
            (isNonEmptyString (req_answer fields) = false ->
             exists s : jsstring,
               nth_error (req_trimmed fields) (Z.to_nat i) = Some s /\
               col_answer row = JString s)) /\
        (isNonEmptyString (req_answer fields) = false ->
         forall k : number,
           col_correct_index row = JNumber k ->
           col_answer row = bind (elem (req_trimmed fields) k)) /\
        (forall a : jsstring,
            req_answer fields = JString a ->
            isNonEmptyString (JString a) = true ->
            col_answer row = JString (trim a)))).
Proof.
  intros Ht Hty Ho.
  pose proof (POST_object fields p) as H.
  rewrite Ht in H. cbn [negb] in H. destruct H as (p1 & Hens & H).
  rewrite Hty in H.
  change (strict_eq_string (str "multipla_escolha") (lit "multipla_escolha"))
    with true in H. cbv iota in H.
  pose proof (proj2 (four_filled_iff fields) Ho) as Hf.
  rewrite Hf in H. cbn [negb] in H.
  destruct (isNonEmptyString_string _ Ht) as (s & Hs & _).
  rewrite Hs in H.
  destruct (create_outcome fields s (req_difficulty fields)
              (str "multipla_escolha")
              (trim_or (req_answer fields)
                       (elem (req_trimmed fields) (req_ci fields)))
              (Some (req_trimmed fields)) (JNumber (req_ci fields)) p p1 Hens)
    as (r & q & Hr & Hok & Hcases).
  exists r, q. split; [congruence|]. split; [exact Hok|].
  destruct Hcases as [Hfail|(H201 & h & Hq & _)]; [left; exact Hfail|].
  right. split; [exact H201|]. eexists. split; [exact Hq|].
  cbn [inserted col_options col_correct_index col_answer bind].
  split; [reflexivity|]. split; [reflexivity|].
  assert (Hna : isNonEmptyString (req_answer fields) = false ->
                trim_or (req_answer fields)
                        (elem (req_trimmed fields) (req_ci fields))
                = elem (req_trimmed fields) (req_ci fields)).
  { apply trim_or_default. }
  destruct Ho as (a & b & c & d & Hopt & _).
  assert (Htr : req_trimmed fields = [trim a; trim b; trim c; trim d]).
  { unfold req_trimmed. rewrite Hopt. reflexivity. }
  split; [|split; [|split; [|split; [|split; [|split]]]]].
  - intros Hout. unfold req_ci. rewrite (ci_of_default _ Hout). reflexivity.
  - intros Ha. rewrite (Hna Ha). reflexivity.
  - intros Hci Ha. rewrite (Hna Ha). unfold req_ci. rewrite Hci.
    split; [reflexivity|]. rewrite Htr.
    exists (trim a), [trim b; trim c; trim d]. split; reflexivity.
  - intros n Hci H0 H3. unfold req_ci. rewrite Hci, (ci_of_in_range n H0 H3).
    reflexivity.
  - intros i Hi Hci. unfold req_ci. rewrite Hci, (ci_of_small i Hi).
    split; [reflexivity|].
    intros Ha. rewrite (trim_or_default _ _ Ha), (elem_small _ i Hi), Htr.
    destruct (small_index i Hi) as [-> | [-> | [-> | ->]]];
      eexists; (split; [reflexivity|reflexivity]).
  - intros Ha k Hk. injection Hk as <-. rewrite (Hna Ha). reflexivity.
  - intros ans Hans Hne. rewrite Hans, (trim_or_supplied ans _ Hne). reflexivity.
Qed.

Lemma mcq_defaults_witness :
  (exists (r : Response) (q : Pool),
      POST (Some (JObject france_mcq_fields)) old_pool = (r, q) /\
      status r = 201 /\
      exists row : Row,
        questions q = [row] /\
        col_correct_index row = JNumber (of_Z 0) /\
        col_answer row = str "Paris") /\
  (exists (r : Response) (q : Pool),
      POST (Some (JObject nice_mcq_fields)) old_pool = (r, q) /\
      status r = 201 /\
      exists row : Row,
        questions q = [row] /\
        col_correct_index row = JNumber (of_Z 2) /\
        col_answer row = str "Nice") /\
  (exists (r : Response) (q : Pool),
      POST (Some (JObject answered_mcq_fields)) old_pool = (r, q) /\
      status r = 201 /\
      exists row : Row,
        questions q = [row] /\
        col_correct_index row = JNumber (of_Z 2) /\
        col_answer row = str "Nizza").
Proof.
  assert (Ho : four_nonempty_strings
                 (JArray [str "Paris"; str " Lyon"; str "Nice"; str "Metz"])).
  { exists (lit "Paris"), (lit " Lyon"), (lit "Nice"), (lit "Metz").
    split; [reflexivity|]. repeat split; vm_compute; discriminate. }
  split; [|split].
  - destruct (mcq_defaults france_mcq_fields old_pool eq_refl eq_refl Ho)
      as (r & q & H & Hok &
          [[Hr _]|(_ & row & Hq & _ & _ & _ & _ & Hdef & _)]).
    + specialize (Hok eq_refl). rewrite Hr in Hok. discriminate.
    + exists r, q. split; [exact H|]. split; [apply Hok; reflexivity|].
      exists row. split; [exact Hq|].
      destruct (Hdef eq_refl eq_refl) as (Hci & first & rest & Htr & Ha).
      split; [exact Hci|]. rewrite Ha. vm_compute in Htr.
      injection Htr as Hfirst _. rewrite <- Hfirst. reflexivity.
  - destruct (mcq_defaults nice_mcq_fields old_pool eq_refl eq_refl Ho)
      as (r & q & H & Hok &
          [[Hr _]|(_ & row & Hq & _ & _ & _ & _ & _ & _ & Hin & _)]).
    + specialize (Hok eq_refl). rewrite Hr in Hok. discriminate.
    + exists r, q. split; [exact H|]. split; [apply Hok; reflexivity|].
      exists row. split; [exact Hq|].
      destruct (Hin 2%Z ltac:(lia) eq_refl) as (Hci & Hans).
      split; [exact Hci|].
      destruct (Hans eq_refl) as (s & Hs & Ha). rewrite Ha.
      vm_compute in Hs. injection Hs as <-. reflexivity.
  - destruct (mcq_defaults answered_mcq_fields old_pool eq_refl eq_refl Ho)
      as (r & q & H & Hok &
          [[Hr _]|(_ & row & Hq & _ & _ & _ & _ & _ & _ & Hin & _ & Hsup)]).
    + specialize (Hok eq_refl). rewrite Hr in Hok. discriminate.
    + exists r, q. split; [exact H|]. split; [apply Hok; reflexivity|].
      exists row. split; [exact Hq|].
      destruct (Hin 2%Z ltac:(lia) eq_refl) as (Hci & _).
      split; [exact Hci|].
      rewrite (Hsup (lit " Nizza ") eq_refl eq_refl). reflexivity.
Defined.

(** C4. A valid OPEN create request either fails in storage (500, no
    row) or appends one row (201; always so when the storage has no
    fault) whose options and correctIndex are null and whose answer is
    the trimmed input; an OPEN create request whose answer is missing, not
    a string or empty once trimmed is answered 400 and no row is
    persisted. *)
Theorem open_question_created (fields : list (jsstring * value)) (p : Pool) :
  req_dbType fields = str "discursiva" ->
  (forall s : jsstring,
      isNonEmptyString (req_text fields) = true ->
      req_answer fields = JString s -> trim s <> [] ->
      exists (r : Response) (q : Pool),
        POST (Some (JObject fields)) p = (r, q) /\
        (faults p = [] -> status r = 201) /\
        ((r = create_failed /\ questions q = questions p) \/
         (status r = 201 /\
          exists row : Row,
            questions q = questions p ++ [row] /\
            col_options row = JNull /\
            col_correct_index row = JNull /\
            col_answer row = JString (trim s)))) /\
  (isNonEmptyString (req_answer fields) = false ->
   status (fst (POST (Some (JObject fields)) p)) = 400 /\
   questions (snd (POST (Some (JObject fields)) p)) = questions p).
Proof.
  intros Hty.
  pose proof (POST_object fields p) as H.
  rewrite Hty in H.
  change (strict_eq_string (str "discursiva") (lit "multipla_escolha"))
    with false in H. cbv iota in H.
  split.
  - intros s Ht Hs Hne.
    assert (Ha : isNonEmptyString (req_answer fields) = true).
    { rewrite Hs. simpl. destruct (trim s); [contradiction|reflexivity]. }
    rewrite Ht, Ha in H. cbn [negb] in H.
    destruct H as (p1 & Hens & H).
    destruct (isNonEmptyString_string _ Ht) as (t & Htx & _).
    rewrite Htx in H.
    destruct (create_outcome fields t (req_difficulty fields) (str "discursiva")
                (trim_or (req_answer fields) JUndefined) None JNull p p1 Hens)
      as (r & q & Hr & Hok & Hcases).
    exists r, q. split; [congruence|]. split; [exact Hok|].
    destruct Hcases as [Hfail|(H201 & h & Hq & _)]; [left; exact Hfail|].
    right. split; [exact H201|]. eexists. split; [exact Hq|].
    cbn [inserted col_options col_correct_index col_answer bind].
    split; [reflexivity|]. split; [reflexivity|].
    unfold trim_or. rewrite Ha, Hs. reflexivity.
  - intros Ha. rewrite Ha in H. cbn [negb] in H.
    destruct (isNonEmptyString (req_text fields)); cbn [negb] in H.
    + destruct H as (p1 & (A & _) & H). rewrite H. cbn [fst snd].
      split; [reflexivity|exact A].
    + rewrite H. split; reflexivity.
Qed.

Lemma open_question_created_witness :
  (exists (r : Response) (q : Pool),
      POST (Some (JObject charos_fields)) old_pool = (r, q) /\
      status r = 201 /\
      exists row : Row,
        questions q = [row] /\ col_options row = JNull /\
        col_correct_index row = JNull /\ col_answer row = str "CHAROS") /\
  status (fst (POST (Some (JObject [(lit "text", str "CSROHA");
                                    (lit "answer", str "  ")])) old_pool)) = 400.
Proof.
  split.
  - destruct (open_question_created charos_fields old_pool eq_refl) as [H _].
    destruct (H (lit " CHAROS ") eq_refl eq_refl ltac:(vm_compute; discriminate))
      as (r & q & Hp & Hok & [[Hr _]|(_ & row & Hq & Ho & Hc & Ha)]).
    + specialize (Hok eq_refl). rewrite Hr in Hok. discriminate.
    + exists r, q. split; [exact Hp|]. split; [apply Hok; reflexivity|].
      exists row. split; [exact Hq|]. split; [exact Ho|]. split; [exact Hc|].
      rewrite Ha. reflexivity.
  - destruct (open_question_created
                [(lit "text", str "CSROHA"); (lit "answer", str "  ")]
                old_pool eq_refl) as [_ H].
    apply H. reflexivity.
Defined.

(** The create handler on a body that is not a JSON object. *)
Lemma POST_not_object (req_json : option value) (p : Pool) :
  (forall fields, req_json <> Some (JObject fields)) ->
  POST req_json p = (create_failed, p) \/ POST req_json p = (text_required, p).
Proof.
  intros H. destruct req_json as [[| | | | | | |fields]|];
    try (left; reflexivity); try (right; reflexivity).
  exfalso. apply (H fields). reflexivity.
Qed.

Lemma text_required_is_not_mcq_needs_four : mcq_needs_four <> text_required.
Proof. intros E. apply (f_equal body) in E. vm_compute in E. discriminate. Qed.

Lemma text_required_is_not_answer_required : answer_required <> text_required.
Proof. intros E. apply (f_equal body) in E. vm_compute in E. discriminate. Qed.

(** C5 (as amended). When the create operation answers 400, no row has
    been written: the table rows and the id sequence are as before. The
    check of the text precedes every storage access, so its failure
    leaves the pool untouched; the checks of the resolved type come after
    the add-column step, which may have added the column [hint1]. *)
Theorem validation_failure_writes_no_row (req_json : option value) (p : Pool) :
  status (fst (POST req_json p)) = 400 ->
  let q := snd (POST req_json p) in
  questions q = questions p /\
  next_id q = next_id p /\
  (hint1_column q = hint1_column p \/ hint1_column q = true) /\
  (fst (POST req_json p) = text_required -> q = p).
Proof.
  intros Hst. cbv zeta.
  assert (Hself : questions p = questions p /\ next_id p = next_id p /\
                  (hint1_column p = hint1_column p \/ hint1_column p = true) /\
                  (fst (POST req_json p) = text_required -> p = p))
    by (repeat split; auto).
  destruct req_json as [v|].
  2:{ exact Hself. }
  destruct v as [| | | | | | |fields]; try exact Hself.
  pose proof (POST_object fields p) as H.
  destruct (isNonEmptyString (req_text fields)) eqn:Ht; cbn [negb] in H.
  2:{ rewrite H. cbn [fst snd]. repeat split; auto. }
  destruct H as (p1 & (A & B & C & D & E) & H).
  destruct (isNonEmptyString_string _ Ht) as (t & Htx & _).
  destruct (strict_eq_string (req_dbType fields) (lit "multipla_escolha")).
  - destruct (four_filled fields); cbn [negb] in H.
    + rewrite Htx in H.
      destruct (create_outcome fields t (req_difficulty fields) (req_dbType fields)
                  (trim_or (req_answer fields)
                           (elem (req_trimmed fields) (req_ci fields)))
                  (Some (req_trimmed fields)) (JNumber (req_ci fields)) p p1
                  (conj A (conj B (conj C (conj D E)))))
        as (r & q & Hr & _ & [[Hf _]|[H201 _]]);
        rewrite H, Hr in Hst; cbn [fst] in Hst.
      * rewrite Hf in Hst. discriminate.
      * rewrite H201 in Hst. discriminate.
    + rewrite H. cbn [fst snd]. repeat split; auto.
      intros Hx. destruct (text_required_is_not_mcq_needs_four Hx).
  - destruct (isNonEmptyString (req_answer fields)); cbn [negb] in H.
    + rewrite Htx in H.
      destruct (create_outcome fields t (req_difficulty fields) (req_dbType fields)
                  (trim_or (req_answer fields) JUndefined) None JNull p p1
                  (conj A (conj B (conj C (conj D E)))))
        as (r & q & Hr & _ & [[Hf _]|[H201 _]]);
        rewrite H, Hr in Hst; cbn [fst] in Hst.
      * rewrite Hf in Hst. discriminate.
      * rewrite H201 in Hst. discriminate.
    + rewrite H. cbn [fst snd]. repeat split; auto.
      intros Hx. destruct (text_required_is_not_answer_required Hx).
Qed.

Lemma validation_failure_writes_no_row_witness :
  questions (snd (POST (Some two_option_mcq) one_row_pool)) = [sample_row] /\
  next_id (snd (POST (Some two_option_mcq) one_row_pool)) = 8.
Proof.
  destruct (validation_failure_writes_no_row (Some two_option_mcq) one_row_pool
              eq_refl) as (Hq & Hn & _).
  split; [exact Hq|exact Hn].
Defined.

(** C5, as stated, fails on a database of the first release: the request
    is answered 400 for its two options, and the storage is not as it
    was, the column [hint1] having been added before the check. *)
Lemma rejected_create_alters_schema :
  status (fst (POST (Some two_option_mcq) old_pool)) = 400 /\
  hint1_column old_pool = false /\
  hint1_column (snd (POST (Some two_option_mcq) old_pool)) = true /\
  snd (POST (Some two_option_mcq) old_pool) <> old_pool.
Proof.
  split; [reflexivity|]. split; [reflexivity|]. split; [reflexivity|].
  intros E. apply (f_equal hint1_column) in E. vm_compute in E. discriminate.
Qed.

(** C8 at a request whose strings are padded with spaces: text, answer
    and hint1 are stored trimmed, difficulty is stored as received. *)
Theorem difficulty_stored_untrimmed :
  exists row : Row,
    questions (snd (POST (Some (JObject padded_fields)) old_pool)) = [row] /\
    col_text row = str "CSROHA" /\
    col_answer row = str "CHAROS" /\
    col_hint1 row = str "fish" /\
    col_difficulty row = str " facil " /\
    col_difficulty row <> JString (trim (lit " facil ")).
Proof.
  eexists. split; [vm_compute; reflexivity|].
  repeat split; try (vm_compute; reflexivity).
  vm_compute. discriminate.
Qed.

(* ================================================================== *)
(** * The list operation *)
(* ================================================================== *)

Lemma query_no_fault (s : Stmt) (p : Pool) :
  faults p = [] ->
  query s p = match exec s p with
              | Some (res, p1) => (Value res, p1)
              | None => (Thrown, p)
              end.
Proof. intros F. unfold query. rewrite F. reflexivity. Qed.

Lemma page_of_invalid (pageRaw : number) :
  isFinite pageRaw = false \/ num_le pageRaw (of_Z 0) = true ->
  page_of pageRaw = of_Z 1.
Proof.
  unfold page_of. intros [H|H].
  - rewrite H. reflexivity.
  - rewrite (num_le_not_gt _ _ H), andb_false_r. reflexivity.
Qed.

Lemma limit_of_invalid (limitRaw : number) :
  isFinite limitRaw = false \/ num_le limitRaw (of_Z 0) = true \/
  num_gt limitRaw (of_Z 200) = true ->
  limit_of limitRaw = of_Z 5.
Proof.
  unfold limit_of. intros [H|[H|H]].
  - rewrite H. reflexivity.
  - rewrite (num_le_not_gt _ _ H), andb_false_r. reflexivity.
  - rewrite (num_gt_not_le _ _ H), andb_false_r. reflexivity.
Qed.

Lemma limit_of_le_200 (limitRaw : number) :
  num_le (limit_of limitRaw) (of_Z 200) = true.
Proof.
  unfold limit_of.
  destruct (isFinite limitRaw && num_gt limitRaw (of_Z 0)); [|reflexivity].
  cbn [andb]. destruct (num_le limitRaw (of_Z 200)) eqn:H; [exact H|reflexivity].
Qed.

(** The list handler answers 200 with the resolved page and limit, or
    the 500 of its catch clause. *)
Lemma GET_outcome (searchParams : list (jsstring * jsstring)) (p : Pool) :
  let r := fst (GET searchParams p) in
  (status r = 200 /\
   prop (body r) (lit "page")
     = Some (JNumber (page_of (Number_param searchParams (lit "page") 1))) /\
   prop (body r) (lit "limit")
     = Some (JNumber (limit_of (Number_param searchParams (lit "limit") 5)))) \/
  r = list_failed.
Proof.
  unfold GET, handler, GET_body. cbv zeta. rewrite bind_unfold.
  destruct (query _ p) as [[c1|] p1]; [|right; reflexivity].
  rewrite bind_unfold.
  destruct (query ProbeHint1 p1) as [[c2|] p2]; [|right; reflexivity].
  rewrite bind_unfold.
  destruct (query _ p2) as [[c3|] p3]; [|right; reflexivity].
  left. cbn [ret fst status body json].
  split; [reflexivity|]. split; reflexivity.
Qed.

(** With a storage that does not fail, the list handler answers 200 as
    soon as the resolved limit and offset are row counts. *)
Lemma GET_no_fault (searchParams : list (jsstring * jsstring)) (p : Pool) :
  let page := page_of (Number_param searchParams (lit "page") 1) in
  let limit := limit_of (Number_param searchParams (lit "limit") 5) in
  faults p = [] ->
  bound limit <> None ->
  bound (num_mul (num_sub page (of_Z 1)) limit) <> None ->
  status (fst (GET searchParams p)) = 200.
Proof.
  cbv zeta. intros F Hl Ho.
  unfold GET, handler, GET_body. cbv zeta.
  rewrite bind_unfold, (query_no_fault _ p F). cbn [exec].
  rewrite bind_unfold, (query_no_fault _ p F). cbn [exec rows].
  rewrite some_hint1_probe.
  rewrite bind_unfold, (query_no_fault _ p F). cbn [exec].
  rewrite andb_negb_r.
  destruct (bound (limit_of _)); [|contradiction].
  destruct (bound (num_mul _ _)); [|contradiction].
  reflexivity.
Qed.

(** The list handler reads its parameters only through the effective
    page, the effective limit and the difficulty. *)
Lemma GET_effective (sp sp' : list (jsstring * jsstring)) (p : Pool) :
  page_of (Number_param sp (lit "page") 1)
    = page_of (Number_param sp' (lit "page") 1) ->
  limit_of (Number_param sp (lit "limit") 5)
    = limit_of (Number_param sp' (lit "limit") 5) ->
  searchParams_get sp (lit "difficulty") = searchParams_get sp' (lit "difficulty") ->
  GET sp p = GET sp' p.
Proof.
  intros H1 H2 H3. unfold GET, GET_body. cbv zeta. rewrite H1, H2, H3.
  reflexivity.
Qed.

(** A number that is finite and > 0 is a positive finite float. *)
Lemma positive_finite (x : number) :
  num_gt x (of_Z 0) = true -> isFinite x = true ->
  exists m e, x = S754_finite false m e.
Proof.
  intros Hgt Hfin.
  destruct x as [s|s| |s m e]; try discriminate Hfin.
  - destruct s; discriminate Hgt.
  - destruct s; [discriminate Hgt|]. exists m, e. reflexivity.
Qed.

Lemma limit_of_positive (limitRaw : number) :
  exists m e, limit_of limitRaw = S754_finite false m e.
Proof.
  unfold limit_of.
  destruct (isFinite limitRaw) eqn:Hfin; cbn [andb];
    [|eexists; eexists; vm_compute; reflexivity].
  destruct (num_gt limitRaw (of_Z 0)) eqn:Hgt; cbn [andb];
    [|eexists; eexists; vm_compute; reflexivity].
  destruct (num_le limitRaw (of_Z 200));
    [|eexists; eexists; vm_compute; reflexivity].
  apply positive_finite; assumption.
Qed.

(** A positive float that denotes an integer is a row count. *)
Lemma bound_positive (m : positive) (e : Z) :
  to_integer (S754_finite false m e) <> None ->
  bound (S754_finite false m e) <> None.
Proof.
  unfold bound. destruct (to_integer (S754_finite false m e)) as [z|] eqn:Hz;
    [intros _|intros H; destruct (H eq_refl)].
  assert (Hnn : (0 <= z)%Z).
  { pose proof (Pos2Z.is_pos m) as Hpos. unfold to_integer in Hz.
    remember (Z.pos m) as M eqn:HM. clear HM.
    destruct (0 <=? e)%Z eqn:He.
    - apply Z.leb_le in He. injection Hz as Hz.
      pose proof (Z.pow_nonneg 2 e ltac:(lia)) as Hpw.
      pose proof (Z.mul_nonneg_nonneg M (2 ^ e) ltac:(lia) Hpw).
      destruct (M * 2 ^ e)%Z; lia.
    - apply Z.leb_gt in He.
      destruct (M mod 2 ^ (- e) =? 0)%Z; [|discriminate Hz].
      injection Hz as Hz.
      assert (Hp : (0 < 2 ^ (- e))%Z) by (apply Z.pow_pos_nonneg; lia).
      pose proof (Z.div_pos M (2 ^ (- e)) ltac:(lia) Hp).
      destruct (M / 2 ^ (- e))%Z; lia. }
  apply Z.leb_le in Hnn. rewrite Hnn. discriminate.
Qed.

(** The offset of the first page is 0, whatever the effective limit. *)
Lemma first_page_offset (limitRaw : number) :
  bound (num_mul (num_sub (of_Z 1) (of_Z 1)) (limit_of limitRaw)) = Some 0%nat.
Proof.
  destruct (limit_of_positive limitRaw) as (m & e & ->). reflexivity.
Qed.

(** C6. The effective page is 1 when the page parameter is not finite or
    is <= 0; the effective limit is 5 when the limit parameter is not
    finite, is <= 0 or is > 200; the effective limit never exceeds 200;
    and the list operation has no rejection for such values. It answers
    200 with the effective page and limit, or 500 when the storage
    fails, never 400. A request with an invalid page is answered exactly
    as the same request with page=1, and one with an invalid limit
    exactly as the same request with limit=5. With a storage that does
    not fail, a request with an invalid page is answered 200 with page 1
    as soon as its effective limit is a whole number, in particular when
    the limit is absent or invalid too; and a request with an invalid
    limit is answered 200 with limit 5 as soon as the offset of its page
    is a row count, in particular when the page is absent or invalid
    too. *)
Theorem list_parameters_fall_back
    (searchParams : list (jsstring * jsstring)) (p : Pool) :
  let pageRaw := Number_param searchParams (lit "page") 1 in
  let limitRaw := Number_param searchParams (lit "limit") 5 in
  let invalid_page :=
    isFinite pageRaw = false \/ num_le pageRaw (of_Z 0) = true in
  let invalid_limit :=
    isFinite limitRaw = false \/ num_le limitRaw (of_Z 0) = true \/
    num_gt limitRaw (of_Z 200) = true in
  let r := fst (GET searchParams p) in
  (invalid_page -> page_of pageRaw = of_Z 1) /\
  (invalid_limit -> limit_of limitRaw = of_Z 5) /\
  num_le (limit_of limitRaw) (of_Z 200) = true /\
  ((status r = 200 /\
    prop (body r) (lit "page") = Some (JNumber (page_of pageRaw)) /\
    prop (body r) (lit "limit") = Some (JNumber (limit_of limitRaw))) \/
   r = list_failed) /\
  status r <> 400 /\
  (faults p = [] -> invalid_page -> invalid_limit ->
   status r = 200 /\
   prop (body r) (lit "page") = Some (JNumber (of_Z 1)) /\
   prop (body r) (lit "limit") = Some (JNumber (of_Z 5))) /\
  (invalid_page ->
   GET searchParams p = GET ((lit "page", lit "1") :: searchParams) p) /\
  (invalid_limit ->
   GET searchParams p = GET ((lit "limit", lit "5") :: searchParams) p) /\
  (faults p = [] -> invalid_page ->
   to_integer (limit_of limitRaw) <> None ->
   status r = 200 /\
   prop (body r) (lit "page") = Some (JNumber (of_Z 1)) /\
   prop (body r) (lit "limit") = Some (JNumber (limit_of limitRaw))) /\
  (faults p = [] -> invalid_page ->
   searchParams_get searchParams (lit "limit") = None ->
   status r = 200 /\
   prop (body r) (lit "page") = Some (JNumber (of_Z 1)) /\
   prop (body r) (lit "limit") = Some (JNumber (of_Z 5))) /\
  (faults p = [] -> invalid_limit ->
   bound (num_mul (num_sub (page_of pageRaw) (of_Z 1)) (of_Z 5)) <> None ->
   status r = 200 /\
   prop (body r) (lit "page") = Some (JNumber (page_of pageRaw)) /\
   prop (body r) (lit "limit") = Some (JNumber (of_Z 5))) /\
  (faults p = [] -> invalid_limit ->
   searchParams_get searchParams (lit "page") = None ->
   status r = 200 /\
   prop (body r) (lit "page") = Some (JNumber (of_Z 1)) /\
   prop (body r) (lit "limit") = Some (JNumber (of_Z 5))).
Proof.
  cbv zeta.
  split; [apply page_of_invalid|]. split; [apply limit_of_invalid|].
  split; [apply limit_of_le_200|].
  pose proof (GET_outcome searchParams p) as Hout. cbv zeta in Hout.
  split; [exact Hout|]. split.
  { destruct Hout as [(H & _)|H]; rewrite H; discriminate. }
  assert (Hfields : status (fst (GET searchParams p)) = 200 ->
            prop (body (fst (GET searchParams p))) (lit "page")
              = Some (JNumber (page_of (Number_param searchParams (lit "page") 1))) /\
            prop (body (fst (GET searchParams p))) (lit "limit")
              = Some (JNumber (limit_of (Number_param searchParams (lit "limit") 5)))).
  { intros H200. destruct Hout as [(_ & Hpg & Hlm)|H]; [split; assumption|].
    rewrite H in H200. discriminate. }
  assert (Hpage : (isFinite (Number_param searchParams (lit "page") 1) = false \/
                   num_le (Number_param searchParams (lit "page") 1) (of_Z 0) = true) ->
                  faults p = [] ->
                  to_integer (limit_of (Number_param searchParams (lit "limit") 5))
                    <> None ->
                  status (fst (GET searchParams p)) = 200).
  { intros Hp F Hw. apply GET_no_fault; [exact F| |].
    - destruct (limit_of_positive (Number_param searchParams (lit "limit") 5))
        as (m & e & E). rewrite E in *. apply bound_positive. exact Hw.
    - rewrite (page_of_invalid _ Hp), first_page_offset. discriminate. }
  assert (Hlimit : (isFinite (Number_param searchParams (lit "limit") 5) = false \/
                    num_le (Number_param searchParams (lit "limit") 5) (of_Z 0) = true \/
                    num_gt (Number_param searchParams (lit "limit") 5) (of_Z 200) = true) ->
                   faults p = [] ->
                   bound (num_mul (num_sub
                            (page_of (Number_param searchParams (lit "page") 1))
                            (of_Z 1)) (of_Z 5)) <> None ->
                   status (fst (GET searchParams p)) = 200).
  { intros Hl F Ho. apply GET_no_fault; [exact F| |].
    - rewrite (limit_of_invalid _ Hl). discriminate.
    - rewrite (limit_of_invalid _ Hl). exact Ho. }
  split; [|split; [|split; [|split; [|split; [|split]]]]].
  - intros F Hp Hl.
    assert (H200 : status (fst (GET searchParams p)) = 200).
    { apply (Hpage Hp F). rewrite (limit_of_invalid _ Hl). discriminate. }
    split; [exact H200|]. destruct (Hfields H200) as (Hpg & Hlm).
    rewrite Hpg, Hlm, (page_of_invalid _ Hp), (limit_of_invalid _ Hl).
    split; reflexivity.
  - intros Hp. apply GET_effective.
    + rewrite (page_of_invalid _ Hp). reflexivity.
    + reflexivity.
    + reflexivity.
  - intros Hl. apply GET_effective.
    + reflexivity.
    + rewrite (limit_of_invalid _ Hl). reflexivity.
    + reflexivity.
  - intros F Hp Hw.
    assert (H200 := Hpage Hp F Hw).
    split; [exact H200|]. destruct (Hfields H200) as (Hpg & Hlm).
    rewrite Hpg, Hlm, (page_of_invalid _ Hp). split; reflexivity.
  - intros F Hp Hnone.
    assert (Hlm5 : limit_of (Number_param searchParams (lit "limit") 5) = of_Z 5).
    { unfold Number_param. rewrite Hnone. reflexivity. }
    assert (H200 : status (fst (GET searchParams p)) = 200).
    { apply (Hpage Hp F). rewrite Hlm5. discriminate. }
    split; [exact H200|]. destruct (Hfields H200) as (Hpg & Hlm).
    rewrite Hpg, Hlm, (page_of_invalid _ Hp), Hlm5. split; reflexivity.
  - intros F Hl Ho.
    assert (H200 := Hlimit Hl F Ho).
    split; [exact H200|]. destruct (Hfields H200) as (Hpg & Hlm).
    rewrite Hpg, Hlm, (limit_of_invalid _ Hl). split; reflexivity.
  - intros F Hl Hnone.
    assert (Hpg1 : page_of (Number_param searchParams (lit "page") 1) = of_Z 1).
    { unfold Number_param. rewrite Hnone. reflexivity. }
    assert (H200 : status (fst (GET searchParams p)) = 200).
    { apply (Hlimit Hl F). rewrite Hpg1. discriminate. }
    split; [exact H200|]. destruct (Hfields H200) as (Hpg & Hlm).
    rewrite Hpg, Hlm, (limit_of_invalid _ Hl), Hpg1. split; reflexivity.
Qed.

Lemma list_parameters_fall_back_witness :
  (status (fst (GET [(lit "page", lit "-3"); (lit "limit", lit "1000")]
                    one_row_pool)) = 200 /\
   prop (body (fst (GET [(lit "page", lit "-3"); (lit "limit", lit "1000")]
                        one_row_pool))) (lit "page") = Some (JNumber (of_Z 1)) /\
   prop (body (fst (GET [(lit "page", lit "-3"); (lit "limit", lit "1000")]
                        one_row_pool))) (lit "limit") = Some (JNumber (of_Z 5))) /\
  (status (fst (GET [(lit "page", lit "abc")] one_row_pool)) = 200 /\
   prop (body (fst (GET [(lit "page", lit "abc")] one_row_pool))) (lit "page")
     = Some (JNumber (of_Z 1)) /\
   prop (body (fst (GET [(lit "page", lit "abc")] one_row_pool))) (lit "limit")
     = Some (JNumber (of_Z 5))) /\
  (status (fst (GET [(lit "limit", lit "0"); (lit "page", lit "3")]
                    one_row_pool)) = 200 /\
   prop (body (fst (GET [(lit "limit", lit "0"); (lit "page", lit "3")]
                        one_row_pool))) (lit "page") = Some (JNumber (of_Z 3)) /\
   prop (body (fst (GET [(lit "limit", lit "0"); (lit "page", lit "3")]
                        one_row_pool))) (lit "limit") = Some (JNumber (of_Z 5))).
Proof.
  split; [|split].
  - destruct (list_parameters_fall_back
                [(lit "page", lit "-3"); (lit "limit", lit "1000")] one_row_pool)
      as (_ & _ & _ & _ & _ & H & _).
    apply H.
    + reflexivity.
    + right. reflexivity.
    + right. right. reflexivity.
  - destruct (list_parameters_fall_back [(lit "page", lit "abc")] one_row_pool)
      as (_ & _ & _ & _ & _ & _ & _ & _ & _ & H & _).
    apply H.
    + reflexivity.
    + left. reflexivity.
    + reflexivity.
  - destruct (list_parameters_fall_back
                [(lit "limit", lit "0"); (lit "page", lit "3")] one_row_pool)
      as (_ & _ & _ & _ & _ & _ & _ & _ & _ & _ & H & _).
    apply H.
    + reflexivity.
    + right. left. reflexivity.
    + vm_compute. discriminate.
Defined.


(* ================================================================== *)
(** * The operations on one question *)
(* ================================================================== *)

Lemma DELETE_invalid (id : jsstring) (p : Pool) :
  invalid_id (StringToNumber id) = true ->
  DELETE id p = (invalid_id_response, p).
Proof. intros H. unfold DELETE, handler, DELETE_body. rewrite H. reflexivity. Qed.

Lemma PUT_invalid (req_json : option value) (id : jsstring) (p : Pool) :
  invalid_id (StringToNumber id) = true ->
  PUT req_json id p = (invalid_id_response, p).
Proof. intros H. unfold PUT, handler, PUT_body. rewrite H. reflexivity. Qed.

Lemma DELETE_valid (id : jsstring) (p : Pool) :
  invalid_id (StringToNumber id) = false ->
  DELETE id p =
  match query (DeleteQuestion (StringToNumber id)) p with
  | (Value res, q) => (if rowCount res =? 0 then not_found else removed, q)
  | (Thrown, q) => (delete_failed, q)
  end.
Proof.
  intros H. unfold DELETE, handler, DELETE_body. rewrite H, bind_unfold.
  destruct (query _ p) as [[res|] q]; [|reflexivity].
  destruct (rowCount res =? 0); reflexivity.
Qed.

(** Past the id guard, the update handler either fails on reading the
    body ([null], [undefined] or unparsable) without a query, or runs the
    update phase on the fields it destructured: those of the object, none
    from another primitive, an array or a date. *)
Lemma PUT_valid (req_json : option value) (id : jsstring) (p : Pool) :
  invalid_id (StringToNumber id) = false ->
  PUT req_json id p = (update_failed, p) \/
  exists fields : list (jsstring * value),
    (forall fs, req_json = Some (JObject fs) -> fields = fs) /\
    PUT req_json id p =
    handler (PUT_update (lookup (lit "text") fields)
               (lookup (lit "difficulty") fields) (lookup (lit "type") fields)
               (lookup (lit "answer") fields) (lookup (lit "hint1") fields)
               (lookup (lit "options") fields)
               (lookup (lit "correctIndex") fields) (StringToNumber id))
            update_failed p.
Proof.
  intros H. unfold PUT, handler, PUT_body. rewrite H.
  destruct req_json as [v|]; [|left; reflexivity].
  destruct v as [| | | | | | |fields];
    try (left; reflexivity);
    try (right; exists []; split; [intros fs E; discriminate|reflexivity]).
  right. exists fields. split; [|reflexivity].
  intros fs E. injection E. auto.
Qed.

Lemma id_is_zero_row (n : number) (r : Row) :
  invalid_id n = false -> col_id r = 0 -> id_is n r = false.
Proof.
  intros Hn Hr. unfold id_is. pose proof (valid_id_not_zero n Hn) as Hz.
  destruct (to_integer n) as [z|]; [|reflexivity].
  rewrite Hr. apply Z.eqb_neq. intros E. apply Hz. congruence.
Qed.

(** The update phase either leaves the table as it was, or rewrites
    exactly the rows selected by the id. *)
Lemma PUT_update_spec (fields : list (jsstring * value)) (n : number) (p : Pool) :
  exists (r : Response) (q : Pool),
    handler (PUT_update (lookup (lit "text") fields)
               (lookup (lit "difficulty") fields) (lookup (lit "type") fields)
               (lookup (lit "answer") fields) (lookup (lit "hint1") fields)
               (lookup (lit "options") fields)
               (lookup (lit "correctIndex") fields) n)
            update_failed p = (r, q) /\
    ((r = update_failed /\ same_table p q /\ faults p <> []) \/
     (questions q =
        map (fun x => if id_is n x then replaced (hint1_column p) fields x else x)
            (questions p) /\
      r = let hit := map (replaced (hint1_column p) fields)
                         (filter (id_is n) (questions p)) in
          if Z.of_nat (List.length hit) =? 0 then not_found
          else json (first_row (map (returning (hint1_column p) false) hit)) 200)).
Proof.
  unfold handler, PUT_update. rewrite bind_unfold.
  destruct (query_ProbeHint1 p) as (q1 & S1 & Hq1 & [[H F]|(res & H & Hs)]).
  - rewrite H. exists update_failed, q1. split; [reflexivity|]. left. auto.
  - rewrite H, Hs, bind_unfold.
    destruct S1 as (A & B & C & D).
    match goal with
    | |- context [query ?s q1] =>
        destruct (query_cases s q1) as (q2 & (A2 & B2 & C2 & D2) & Hq2 & [[H2 F2]|H2])
    end.
    + rewrite H2. exists update_failed, q2. split; [reflexivity|]. left.
      split; [reflexivity|]. split.
      * repeat split; congruence.
      * intros F. apply F2. rewrite (Hq1 F). exact F.
    + rewrite H2. cbn [exec]. rewrite B2, B, andb_negb_r.
      cbn [rowCount rows]. rewrite A2, A.
      fold (replaced (hint1_column p) fields).
      rewrite !length_map.
      destruct (Z.of_nat (Datatypes.length (filter (id_is n) (questions p))) =? 0)
        eqn:E.
      * eexists _, _. split; [reflexivity|]. right. split; [reflexivity|].
        cbv zeta. rewrite ?length_map, ?E. reflexivity.
      * eexists _, _. split; [reflexivity|]. right. split; [reflexivity|].
        cbv zeta. rewrite ?length_map, ?E. reflexivity.
Qed.

(** C10. An id segment that converts to zero (or to NaN) is answered with
    the 400 of the id guard by DELETE and by PUT, before any storage
    access and before the body is read; "0", the empty segment and "0.0"
    convert to zero; and no request to either handler removes or changes a
    row whose id is 0. *)
Theorem zero_id_rejected (req_json : option value) (id : jsstring) (p : Pool) :
  (is_zero (StringToNumber id) = true \/ isNaN (StringToNumber id) = true ->
   DELETE id p = (invalid_id_response, p) /\
   PUT req_json id p = (invalid_id_response, p) /\
   status invalid_id_response = 400) /\
  (forall r : Row,
      In r (questions p) -> col_id r = 0 ->
      In r (questions (snd (DELETE id p))) /\
      In r (questions (snd (PUT req_json id p)))) /\
  is_zero (StringToNumber (lit "0")) = true /\
  is_zero (StringToNumber []) = true /\
  is_zero (StringToNumber (lit "0.0")) = true.
Proof.
  split; [|split; [|repeat split]].
  - intros H.
    assert (Hinv : invalid_id (StringToNumber id) = true).
    { unfold invalid_id, number_truthy.
      destruct H as [H|H]; rewrite H; [reflexivity|].
      rewrite orb_true_r. reflexivity. }
    split; [apply DELETE_invalid; exact Hinv|].
    split; [apply PUT_invalid; exact Hinv|reflexivity].
  - intros r Hin Hr.
    destruct (invalid_id (StringToNumber id)) eqn:Hinv.
    + rewrite (DELETE_invalid id p Hinv), (PUT_invalid req_json id p Hinv).
      split; exact Hin.
    + pose proof (id_is_zero_row _ r Hinv Hr) as Hno. split.
      * rewrite (DELETE_valid id p Hinv).
        destruct (query_cases (DeleteQuestion (StringToNumber id)) p)
          as (q & (A & _) & _ & [[H _]|H]); rewrite H.
        -- cbn [snd]. rewrite A. exact Hin.
        -- cbn [exec snd with_questions questions].
           apply filter_In. rewrite A, Hno. split; [exact Hin|reflexivity].
      * destruct (PUT_valid req_json id p Hinv) as [H|(fields & _ & H)];
          rewrite H; [exact Hin|].
        destruct (PUT_update_spec fields (StringToNumber id) p)
          as (r' & q & Hp & [(_ & (A & _) & _)|(Hq & _)]); rewrite Hp; cbn [snd].
        -- rewrite A. exact Hin.
        -- rewrite Hq. apply in_map_iff. exists r. rewrite Hno.
           split; [reflexivity|exact Hin].
Qed.

Lemma zero_id_rejected_witness :
  DELETE (lit "0.0") one_row_pool = (invalid_id_response, one_row_pool) /\
  PUT (Some (JObject harder_fields)) (lit "0.0") one_row_pool
    = (invalid_id_response, one_row_pool).
Proof.
  destruct (zero_id_rejected (Some (JObject harder_fields)) (lit "0.0") one_row_pool)
    as (H & _).
  destruct (H (or_introl eq_refl)) as (Hd & Hp & _).
  split; [exact Hd|exact Hp].
Defined.

Lemma filter_none {A} (f : A -> bool) (l : list A) :
  (forall x, In x l -> f x = false) -> filter f l = [].
Proof.
  induction l as [|a l IH]; simpl; intros H; [reflexivity|].
  rewrite (H a (or_introl eq_refl)). apply IH. intros x Hx. apply H. right. exact Hx.
Qed.

Lemma filter_all {A} (f : A -> bool) (l : list A) :
  (forall x, In x l -> f x = true) -> filter f l = l.
Proof.
  induction l as [|a l IH]; simpl; intros H; [reflexivity|].
  rewrite (H a (or_introl eq_refl)). f_equal. apply IH.
  intros x Hx. apply H. right. exact Hx.
Qed.

Lemma DELETE_no_fault (id : jsstring) (p : Pool) :
  invalid_id (StringToNumber id) = false ->
  faults p = [] ->
  DELETE id p =
  (if Z.of_nat (List.length (filter (id_is (StringToNumber id)) (questions p))) =? 0
   then not_found else removed,
   with_questions p
     (filter (fun r => negb (id_is (StringToNumber id) r)) (questions p))).
Proof.
  intros Hv F. rewrite (DELETE_valid id p Hv), (query_no_fault _ p F).
  reflexivity.
Qed.

(** C9 (as amended). For an id that passes the id guard and a storage
    that does not fail: deleting an id that matches no row is answered
    404 and leaves the pool as it was; deleting an id that matches a row
    is answered with the success message, removes the rows of that id and
    no other, and a second delete of the same id is answered 404. *)
Theorem delete_then_not_found (id : jsstring) (p : Pool) :
  invalid_id (StringToNumber id) = false ->
  faults p = [] ->
  ((forall r : Row, In r (questions p) -> id_is (StringToNumber id) r = false) ->
   DELETE id p = (not_found, p) /\ status not_found = 404) /\
  ((exists r : Row, In r (questions p) /\ id_is (StringToNumber id) r = true) ->
   exists q : Pool,
     DELETE id p = (removed, q) /\ status removed = 200 /\
     questions q
       = filter (fun r => negb (id_is (StringToNumber id) r)) (questions p) /\
     DELETE id q = (not_found, q) /\ status not_found = 404).
Proof.
  intros Hv F.
  assert (Hmiss : forall p0 : Pool,
             faults p0 = [] ->
             (forall r, In r (questions p0) -> id_is (StringToNumber id) r = false) ->
             DELETE id p0 = (not_found, p0)).
  { intros p0 F0 Hno. rewrite (DELETE_no_fault id p0 Hv F0).
    rewrite (filter_none _ _ Hno).
    rewrite filter_all, with_questions_same; [reflexivity|].
    intros x Hx. rewrite (Hno x Hx). reflexivity. }
  split.
  - intros Hno. split; [apply Hmiss; assumption|reflexivity].
  - intros (r & Hin & Hr).
    exists (with_questions p
              (filter (fun r => negb (id_is (StringToNumber id) r)) (questions p))).
    split; [|split; [reflexivity|split; [reflexivity|split; [|reflexivity]]]].
    + rewrite (DELETE_no_fault id p Hv F).
      assert (Hin' : In r (filter (id_is (StringToNumber id)) (questions p)))
        by (apply filter_In; split; assumption).
      destruct (filter (id_is (StringToNumber id)) (questions p)); [destruct Hin'|].
      reflexivity.
    + apply Hmiss; [exact F|].
      intros x Hx. cbn [with_questions questions] in Hx.
      apply filter_In in Hx. destruct Hx as [_ Hx].
      apply negb_true_iff in Hx. exact Hx.
Qed.

Lemma delete_then_not_found_witness :
  (DELETE (lit "8") one_row_pool = (not_found, one_row_pool)) /\
  (exists q : Pool,
      DELETE (lit "7") one_row_pool = (removed, q) /\
      questions q = [] /\
      DELETE (lit "7") q = (not_found, q)).
Proof.
  split.
  - destruct (delete_then_not_found (lit "8") one_row_pool eq_refl eq_refl)
      as [H _].
    apply H. intros r [<-|[]]. reflexivity.
  - destruct (delete_then_not_found (lit "7") one_row_pool eq_refl eq_refl)
      as [_ H].
    destruct H as (q & H1 & _ & Hq & H2 & _).
    + exists sample_row. split; [left; reflexivity|reflexivity].
    + exists q. split; [exact H1|]. split; [rewrite Hq; reflexivity|exact H2].
Defined.

(** C9, as stated, fails at the id "0": it is numeric and matches no row,
    yet the answer is the 400 of the id guard, not 404. *)
Lemma delete_zero_is_invalid_not_missing :
  (forall r : Row,
      In r (questions one_row_pool) -> id_is (StringToNumber (lit "0")) r = false) /\
  faults one_row_pool = [] /\
  DELETE (lit "0") one_row_pool = (invalid_id_response, one_row_pool) /\
  status (fst (DELETE (lit "0") one_row_pool)) = 400 /\
  fst (DELETE (lit "0") one_row_pool) <> not_found.
Proof.
  split; [intros r [<-|[]]; reflexivity|].
  split; [reflexivity|]. split; [reflexivity|]. split; [reflexivity|].
  intros E. apply (f_equal status) in E. vm_compute in E. discriminate.
Qed.

Lemma PUT_object (fields : list (jsstring * value)) (id : jsstring) (p : Pool) :
  invalid_id (StringToNumber id) = false ->
  PUT (Some (JObject fields)) id p =
  handler (PUT_update (lookup (lit "text") fields)
             (lookup (lit "difficulty") fields) (lookup (lit "type") fields)
             (lookup (lit "answer") fields) (lookup (lit "hint1") fields)
             (lookup (lit "options") fields)
             (lookup (lit "correctIndex") fields) (StringToNumber id))
          update_failed p.
Proof. intros H. unfold PUT, handler, PUT_body. rewrite H. reflexivity. Qed.

Lemma bind_truthy (o : value) :
  bind (if truthy o then o else JNull) = if truthy o then o else JNull.
Proof.
  destruct o as [| |b|n|s| | |]; try reflexivity.
  - destruct b; reflexivity.
  - cbn [truthy]. destruct (number_truthy n); reflexivity.
  - destruct s; reflexivity.
Qed.

Lemma id_is_eqb (n : number) (k : Z) (r : Row) :
  to_integer n = Some k -> id_is n r = (col_id r =? k).
Proof. intros H. unfold id_is. rewrite H. reflexivity. Qed.

Lemma returning_createdAt (w : bool) (r : Row) :
  prop (returning w false r) (lit "createdAt") = Some (JDate (col_created_at r)).
Proof. destruct w; reflexivity. Qed.

Lemma returning_difficulty (w : bool) (r : Row) :
  prop (returning w false r) (lit "difficulty") = Some (col_difficulty r).
Proof. destruct w; reflexivity. Qed.

(** C7. An update of an existing id either fails in storage (500, every
    row as before) or is answered 200 with the rewritten row, and always
    so when the storage has no fault. The rewritten row has the supplied
    text, difficulty, type, answer, options and correctIndex (a missing
    field counting as null), the supplied hint1 when the column exists,
    and the createdAt, id and usedAt of the row before; every other row
    is as before; the response is the rewritten row, with the new values
    and the original createdAt. *)
Theorem update_keeps_createdAt (fields : list (jsstring * value))
    (id : jsstring) (k : Z) (old : Row) (p : Pool) :
  to_integer (StringToNumber id) = Some k -> k <> 0 ->
  In old (questions p) -> col_id old = k ->
  (forall r : Row, In r (questions p) -> col_id r = k -> r = old) ->
  let new := replaced (hint1_column p) fields old in
  let options := lookup (lit "options") fields in
  (exists (r : Response) (q : Pool),
      PUT (Some (JObject fields)) id p = (r, q) /\
      (faults p = [] -> status r = 200) /\
      ((r = update_failed /\ questions q = questions p) \/
       (status r = 200 /\
        body r = returning (hint1_column p) false new /\
        prop (body r) (lit "createdAt") = Some (JDate (col_created_at old)) /\
        prop (body r) (lit "difficulty")
          = Some (bind (lookup (lit "difficulty") fields)) /\
        questions q
          = map (fun x => if col_id x =? k then new else x) (questions p)))) /\
  col_created_at new = col_created_at old /\
  col_id new = col_id old /\
  col_used_at new = col_used_at old /\
  col_text new = bind (lookup (lit "text") fields) /\
  col_difficulty new = bind (lookup (lit "difficulty") fields) /\
  col_type new = bind (lookup (lit "type") fields) /\
  col_answer new = bind (lookup (lit "answer") fields) /\
  col_hint1 new = (if hint1_column p
                   then bind (lookup (lit "hint1") fields)
                   else col_hint1 old) /\
  col_options new = (if truthy options then options else JNull) /\
  (truthy options = true \/ options = JNull \/ options = JUndefined ->
   col_options new = bind options) /\
  col_correct_index new = bind (lookup (lit "correctIndex") fields).
Proof.
  intros Hk Hnz Hin Hid Hkey. cbv zeta.
  pose proof (nonzero_id_valid _ _ Hk Hnz) as Hv.
  pose proof (PUT_object fields id p Hv) as H.
  split.
  - destruct (PUT_update_spec fields (StringToNumber id) p)
      as (r & q & Hp & [(Hr & (A & _) & Hf)|(Hq & Hr)]).
    { exists r, q. split; [congruence|]. split; [intros F; contradiction|].
      left. split; [exact Hr|exact A]. }
    exists r, q. split; [congruence|].
    assert (Hfilter : exists rest,
               filter (id_is (StringToNumber id)) (questions p) = old :: rest).
    { assert (Hin' : In old (filter (id_is (StringToNumber id)) (questions p))).
      { apply filter_In. split; [exact Hin|].
        rewrite (id_is_eqb _ _ old Hk). apply Z.eqb_eq. exact Hid. }
      destruct (filter (id_is (StringToNumber id)) (questions p)) as [|x rest] eqn:E;
        [destruct Hin'|].
      assert (Hx : In x (filter (id_is (StringToNumber id)) (questions p)))
        by (rewrite E; left; reflexivity).
      apply filter_In in Hx. destruct Hx as [Hx1 Hx2].
      rewrite (id_is_eqb _ _ x Hk) in Hx2. apply Z.eqb_eq in Hx2.
      rewrite (Hkey x Hx1 Hx2). exists rest. reflexivity. }
    destruct Hfilter as (rest & Hfil).
    cbv zeta in Hr. rewrite Hfil in Hr. cbn [map List.length first_row] in Hr.
    assert (Hr' : r = json (returning (hint1_column p) false
                              (replaced (hint1_column p) fields old)) 200).
    { rewrite Hr. destruct (Z.of_nat (S (Datatypes.length
          (map (replaced (hint1_column p) fields) rest))) =? 0) eqn:E;
        [apply Z.eqb_eq in E; lia|reflexivity]. }
    rewrite Hr'. cbn [status body json].
    split; [reflexivity|]. right.
    split; [reflexivity|]. split; [reflexivity|].
    split; [rewrite returning_createdAt; reflexivity|].
    split; [rewrite returning_difficulty; reflexivity|].
    rewrite Hq. apply map_ext_in. intros x Hx.
    rewrite (id_is_eqb _ _ x Hk).
    destruct (col_id x =? k) eqn:E; [|reflexivity].
    apply Z.eqb_eq in E. rewrite (Hkey x Hx E). reflexivity.
  - unfold replaced, updated.
    cbn [col_created_at col_id col_used_at col_text col_difficulty col_type
         col_answer col_hint1 col_options col_correct_index].
    repeat (split; [reflexivity|]).
    split; [destruct (hint1_column p);
            [destruct (lookup (lit "hint1") fields)|]; reflexivity|].
    rewrite bind_truthy.
    split; [reflexivity|].
    split; [|destruct (lookup (lit "correctIndex") fields); reflexivity].
    intros [Ht|[Hn|Hu]].
    + rewrite Ht. destruct (lookup (lit "options") fields);
        try reflexivity; discriminate Ht.
    + rewrite Hn. reflexivity.
    + rewrite Hu. reflexivity.
Qed.

Lemma update_keeps_createdAt_witness :
  exists (r : Response) (q : Pool),
    PUT (Some (JObject harder_fields)) (lit "7") one_row_pool = (r, q) /\
    status r = 200 /\
    prop (body r) (lit "createdAt") = Some (JDate 500) /\
    prop (body r) (lit "difficulty") = Some (str "dificil").
Proof.
  destruct (update_keeps_createdAt harder_fields (lit "7") 7 sample_row
              one_row_pool eq_refl ltac:(discriminate)
              (or_introl eq_refl) eq_refl)
    as ((r & q & H & Hok & [[Hr _]|(Hs & _ & Hc & Hd & _)]) & _).
  - intros x [<-|[]] _. reflexivity.
  - specialize (Hok eq_refl). rewrite Hr in Hok. discriminate.
  - exists r, q. split; [exact H|]. split; [exact Hs|].
    split; [exact Hc|exact Hd].
Defined.

(* ================================================================== *)
(** * Strings: what [trim] leaves, and what counts as filled *)
(* ================================================================== *)

Lemma trimStart_head (s : jsstring) :
  trimStart s = [] \/
  exists c t, trimStart s = c :: t /\ is_whitespace c = false.
Proof.
  induction s as [|c s IH]; simpl; [left; reflexivity|].
  destruct (is_whitespace c) eqn:E; [exact IH|].
  right. exists c, s. split; [reflexivity|exact E].
Qed.

Lemma trimStart_keeps (c : N) (t : jsstring) :
  is_whitespace c = false -> trimStart (c :: t) = c :: t.
Proof. intros H. simpl. rewrite H. reflexivity. Qed.

Lemma trimStart_nil_iff (s : jsstring) :
  trimStart s = [] <-> forallb is_whitespace s = true.
Proof.
  induction s as [|c s IH]; simpl; [tauto|].
  destruct (is_whitespace c); simpl; [exact IH|].
  split; discriminate.
Qed.

Lemma trimStart_idempotent (s : jsstring) : trimStart (trimStart s) = trimStart s.
Proof.
  destruct (trimStart_head s) as [H|(c & t & H & Hc)]; rewrite H;
    [reflexivity|apply trimStart_keeps; exact Hc].
Qed.

(** Stripping the front of a string that ends with a kept character
    leaves a string that ends with it. *)
Lemma trimStart_snoc (l : jsstring) (c : N) :
  is_whitespace c = false -> exists l2, trimStart (l ++ [c]) = l2 ++ [c].
Proof.
  intros Hc. induction l as [|x l IH]; simpl.
  - rewrite Hc. exists []. reflexivity.
  - destruct (is_whitespace x); [exact IH|]. exists (x :: l). reflexivity.
Qed.

Lemma trimEnd_of_trimmed_start (t : jsstring) :
  trimStart t = t -> trimStart (trimEnd t) = trimEnd t.
Proof.
  intros Ht. destruct (trimStart_head t) as [H|(c & t' & H & Hc)];
    rewrite Ht in H; subst t; [reflexivity|].
  unfold trimEnd. simpl rev.
  destruct (trimStart_snoc (rev t') c Hc) as (l2 & Hl). rewrite Hl.
  rewrite rev_app_distr. simpl. rewrite Hc. reflexivity.
Qed.

Lemma trimEnd_idempotent (s : jsstring) : trimEnd (trimEnd s) = trimEnd s.
Proof.
  unfold trimEnd. rewrite rev_involutive, trimStart_idempotent. reflexivity.
Qed.

Lemma trim_idempotent (s : jsstring) : trim (trim s) = trim s.
Proof.
  unfold trim.
  rewrite (trimEnd_of_trimmed_start (trimStart s) (trimStart_idempotent s)).
  apply trimEnd_idempotent.
Qed.

Lemma forallb_rev {A} (f : A -> bool) (l : list A) :
  forallb f (rev l) = forallb f l.
Proof.
  induction l as [|a l IH]; simpl; [reflexivity|].
  rewrite forallb_app, IH. simpl. rewrite andb_true_r. apply andb_comm.
Qed.

Lemma trim_nil_iff (s : jsstring) :
  trim s = [] <-> forallb is_whitespace s = true.
Proof.
  unfold trim, trimEnd. split.
  - intros H. apply (f_equal (@rev N)) in H. rewrite rev_involutive in H.
    simpl in H. apply trimStart_nil_iff in H. rewrite forallb_rev in H.
    destruct (trimStart_head s) as [E|(c & t & E & Hc)].
    + apply trimStart_nil_iff. exact E.
    + rewrite E in H. simpl in H. rewrite Hc in H. discriminate.
  - intros H. apply trimStart_nil_iff in H. rewrite H. reflexivity.
Qed.

(** X1. [isNonEmptyString] holds exactly of the strings that contain a
    character other than white space: every other value, the empty
    string and the strings made of white space only are refused. *)
Theorem isNonEmptyString_iff (v : value) :
  isNonEmptyString v = true <->
  exists s : jsstring,
    v = JString s /\ existsb (fun c => negb (is_whitespace c)) s = true.
Proof.
  split.
  - intros H. destruct v as [| | | |s| | |]; try discriminate H.
    exists s. split; [reflexivity|]. simpl in H.
    destruct (existsb (fun c => negb (is_whitespace c)) s) eqn:E; [reflexivity|].
    assert (Hall : forallb is_whitespace s = true).
    { apply forallb_forall. intros c Hc.
      destruct (is_whitespace c) eqn:Ec; [reflexivity|].
      assert (Hex : existsb (fun c => negb (is_whitespace c)) s = true)
        by (apply existsb_exists; exists c; rewrite Ec; auto).
      congruence. }
    apply trim_nil_iff in Hall. rewrite Hall in H. discriminate.
  - intros (s & -> & H). simpl.
    destruct (trim s) eqn:E; [|reflexivity].
    apply trim_nil_iff in E. apply existsb_exists in H.
    destruct H as (c & Hc & Hn).
    rewrite forallb_forall in E. rewrite (E c Hc) in Hn. discriminate.
Qed.

(* ================================================================== *)
(** * The two vocabularies, on every input *)
(* ================================================================== *)

Lemma toDbType_cases (t : value) :
  toDbType t = str "multipla_escolha" \/ toDbType t = str "discursiva".
Proof. unfold toDbType. destruct (_ || _); auto. Qed.

Lemma toApiType_of_toDbType (t : value) : toApiType (toDbType t) = toApiType t.
Proof.
  unfold toDbType, toApiType.
  destruct (strict_eq_string t (lit "MCQ"));
    destruct (strict_eq_string t (lit "multipla_escolha")); reflexivity.
Qed.

Lemma toDbType_mcq_iff (t : value) :
  toDbType t = str "multipla_escolha" <-> toApiType t = str "MCQ".
Proof.
  unfold toDbType, toApiType.
  destruct (strict_eq_string t (lit "MCQ"));
    destruct (strict_eq_string t (lit "multipla_escolha")); cbn [orb];
    split; intros H; try reflexivity; discriminate H.
Qed.

(** X2. Whatever the input, [toDbType] yields one of the two storage tags
    and [toApiType] one of the two external tags; the two functions agree
    on what is multiple-choice, so that translating twice, in either
    order, is translating once: toApiType(toDbType(t)) = toApiType(t) and
    toDbType(toApiType(t)) = toDbType(t). *)
Theorem vocabulary_translation_agrees (t : value) :
  (toDbType t = str "multipla_escolha" \/ toDbType t = str "discursiva") /\
  (toApiType t = str "MCQ" \/ toApiType t = str "OPEN") /\
  (toDbType t = str "multipla_escolha" <-> toApiType t = str "MCQ") /\
  (toDbType t = str "multipla_escolha" <->
   t = str "MCQ" \/ t = str "multipla_escolha") /\
  toApiType (toDbType t) = toApiType t /\
  toDbType (toApiType t) = toDbType t /\
  toDbType (toDbType t) = toDbType t /\
  toApiType (toApiType t) = toApiType t.
Proof.
  unfold toDbType, toApiType.
  destruct (strict_eq_string t (lit "MCQ")) eqn:E1;
    destruct (strict_eq_string t (lit "multipla_escolha")) eqn:E2;
    cbn [orb];
    (split; [auto|]); (split; [auto|]);
    (split; [split; intros H; try reflexivity; try discriminate H|]);
    (split; [|repeat split; reflexivity]).
  - split; [intros _|reflexivity]. left. apply strict_eq_string_eq. exact E1.
  - split; [intros _|reflexivity]. left. apply strict_eq_string_eq. exact E1.
  - split; [intros _|reflexivity]. right. apply strict_eq_string_eq. exact E2.
  - split; [discriminate|].
    intros [H|H]; apply strict_eq_string_eq in H; unfold str in *; congruence.
Qed.

(* ================================================================== *)
(** * The create operation, in full *)
(* ================================================================== *)

Lemma bind_trim_or (v : value) : bind (trim_or v JNull) = trim_or v JNull.
Proof.
  unfold trim_or. destruct v; try reflexivity.
  destruct (isNonEmptyString (JString s)); reflexivity.
Qed.

(** The insert phase with everything it leaves behind. *)
Lemma POST_insert_full (fields : list (jsstring * value)) (s : jsstring)
    (difficulty dbType answer : value) (options : option (list jsstring))
    (ci : value) (e : Response) (p : Pool) :
  exists (r : Response) (q : Pool),
    handler (POST_insert (JObject fields) (JString s) difficulty dbType answer
                         options ci) e p = (r, q) /\
    ((r = e /\ same_table p q /\ faults p <> []) \/
     let row := inserted p (JString (trim s)) (bind difficulty) (bind dbType)
                  (bind answer)
                  (if hint1_column p
                   then trim_or (lookup (lit "hint1") fields) JNull else JNull)
                  (match options with
                   | Some l => JArray (map JString l)
                   | None => JNull
                   end)
                  (bind ci) in
     r = json (with_api_type (returning (hint1_column p) true row) (bind dbType)) 201 /\
     questions q = questions p ++ [row] /\
     hint1_column q = hint1_column p /\
     next_id q = next_id p + 1 /\
     (faults p = [] -> faults q = [])).
Proof.
  unfold handler, POST_insert. rewrite bind_unfold.
  destruct (query_ProbeHint1 p) as (q1 & S1 & Hq1 & [[H F]|(res & H & Hs)]).
  - rewrite H. exists e, q1. split; [reflexivity|]. left. auto.
  - rewrite H, bind_unfold. cbn [call_trim ret]. rewrite Hs, bind_unfold.
    assert (Hh : (if hint1_column p then
                    hint1 <- access (prop (JObject fields) (lit "hint1")) ;;
                    if isNonEmptyString hint1 then call_trim hint1 else ret JNull
                  else ret JNull) q1
                 = (Value (if hint1_column p
                           then trim_or (lookup (lit "hint1") fields) JNull
                           else JNull), q1)).
    { destruct (hint1_column p); [|reflexivity].
      rewrite bind_unfold. cbn [access prop ret]. apply trim_or_run. }
    rewrite Hh. destruct S1 as (A & B & C & D).
    destruct (query_InsertQuestion (hint1_column p) q1 (JString (trim s)) difficulty
                dbType answer
                (if hint1_column p
                 then trim_or (lookup (lit "hint1") fields) JNull else JNull)
                (match options with
                 | Some l => JArray (map JString l)
                 | None => JNull
                 end) ci) as (q2 & Hf & [(H2 & S2 & F2)|H2]).
    { rewrite B. destruct (hint1_column p); reflexivity. }
    + rewrite bind_unfold, H2. exists e, q2. split; [reflexivity|]. left.
      split; [reflexivity|]. split.
      * apply same_table_trans with q1; [repeat split; auto|exact S2].
      * intros F. apply F2. rewrite (Hq1 F). exact F.
    + cbv zeta in H2. destruct H2 as (H2 & Q2 & C2 & N2).
      rewrite bind_unfold, H2. cbn [rows first_row].
      rewrite bind_unfold, returning_type.
      cbn [access ret col_type inserted].
      eexists _, q2. split; [reflexivity|]. right.
      cbv zeta. rewrite bind_options, bind_string in *.
      assert (Hb : (if hint1_column p
                    then bind (if hint1_column p
                               then trim_or (lookup (lit "hint1") fields) JNull
                               else JNull)
                    else JNull)
                   = (if hint1_column p
                      then trim_or (lookup (lit "hint1") fields) JNull else JNull)).
      { destruct (hint1_column p); [apply bind_trim_or|reflexivity]. }
      rewrite Hb in *.
      unfold inserted in *. rewrite C, D in *.
      split; [reflexivity|]. split; [rewrite Q2, A; reflexivity|].
      split; [congruence|]. split; [congruence|].
      intros F. apply Hf. rewrite (Hq1 F). exact F.
Qed.

Lemma bind_req_difficulty (fields : list (jsstring * value)) :
  bind (req_difficulty fields) = req_difficulty fields.
Proof.
  unfold req_difficulty.
  destruct (isNonEmptyString (lookup (lit "difficulty") fields)) eqn:E;
    [|reflexivity].
  destruct (isNonEmptyString_string _ E) as (s & -> & _). reflexivity.
Qed.

Lemma bind_req_dbType (fields : list (jsstring * value)) :
  bind (req_dbType fields) = req_dbType fields.
Proof.
  unfold req_dbType, toDbType.
  destruct (_ || _); reflexivity.
Qed.

(** The create handler, whatever the request and the storage: either it
    does not answer 201 and no row was written, or the request was an
    accepted object and exactly its row was appended. *)
Lemma POST_cases (req_json : option value) (p : Pool) :
  exists (r : Response) (q : Pool),
    POST req_json p = (r, q) /\
    (hint1_column q = hint1_column p \/ hint1_column q = true) /\
    (faults p = [] ->
     forall fields, req_json = Some (JObject fields) ->
                    accepted fields = true ->
                    status r = 201 /\ faults q = [] /\ hint1_column q = true) /\
    ((status r <> 201 /\ questions q = questions p /\ next_id q = next_id p) \/
     (exists fields : list (jsstring * value),
         req_json = Some (JObject fields) /\
         accepted fields = true /\
         r = json (with_api_type
                     (returning (hint1_column q) true
                                (created_row (hint1_column q) p fields))
                     (req_dbType fields)) 201 /\
         questions q = questions p ++ [created_row (hint1_column q) p fields] /\
         next_id q = next_id p + 1)).
Proof.
  destruct req_json as [v|].
  2:{ exists create_failed, p. split; [reflexivity|]. split; [left; reflexivity|].
      split; [intros _ fields E; discriminate|].
      left. split; [discriminate|]. split; reflexivity. }
  destruct v as [| | | | | | |fields];
    try (eexists _, p; split; [reflexivity|]; split; [left; reflexivity|];
         split; [intros _ fields E; discriminate|];
         left; split; [discriminate|]; split; reflexivity).
  pose proof (POST_object fields p) as H. unfold accepted.
  destruct (isNonEmptyString (req_text fields)) eqn:Ht; cbn [negb andb] in *.
  2:{ exists text_required, p. split; [exact H|]. split; [left; reflexivity|].
      split.
      - intros _ fs Efs Hacc. injection Efs as Efs. subst fs.
        rewrite Ht in Hacc. discriminate.
      - left. split; [discriminate|]. split; reflexivity. }
  destruct H as (p1 & (A & B & C & D & E) & H).
  destruct (isNonEmptyString_string _ Ht) as (t & Htx & _).
  assert (Htr : trim_or (req_text fields) JNull = JString (trim t)).
  { unfold trim_or. rewrite Ht, Htx. reflexivity. }
  assert (Hins : forall answer options ci,
             POST (Some (JObject fields)) p =
             handler (POST_insert (JObject fields) (req_text fields)
                        (req_difficulty fields) (req_dbType fields) answer options ci)
                     create_failed p1 ->
             bind ci = ci ->
             exists (r : Response) (q : Pool),
               POST (Some (JObject fields)) p = (r, q) /\
               (hint1_column q = hint1_column p \/ hint1_column q = true) /\
               (faults p = [] -> status r = 201 /\ faults q = [] /\ hint1_column q = true) /\
               ((status r <> 201 /\ questions q = questions p /\ next_id q = next_id p) \/
                (r = json (with_api_type
                             (returning (hint1_column q) true
                                (inserted p (JString (trim t)) (req_difficulty fields)
                                   (req_dbType fields) (bind answer)
                                   (if hint1_column q
                                    then trim_or (lookup (lit "hint1") fields) JNull
                                    else JNull)
                                   (match options with
                                    | Some l => JArray (map JString l)
                                    | None => JNull
                                    end) ci))
                             (req_dbType fields)) 201 /\
                 questions q =
                 questions p ++
                 [inserted p (JString (trim t)) (req_difficulty fields)
                    (req_dbType fields) (bind answer)
                    (if hint1_column q
                     then trim_or (lookup (lit "hint1") fields) JNull
                     else JNull)
                    (match options with
                     | Some l => JArray (map JString l)
                     | None => JNull
                     end) ci] /\
                 next_id q = next_id p + 1))).
  { intros answer options ci HP Hci. rewrite Htx in HP.
    destruct (POST_insert_full fields t (req_difficulty fields) (req_dbType fields)
                answer options ci create_failed p1)
      as (r & q & Hh & [(Hr & (S1 & S2 & S3 & S4) & F)|Hok]).
    - exists r, q. split; [congruence|]. split; [rewrite S2; exact D|].
      split; [intros Fp; destruct (E Fp) as [F1 _]; contradiction|].
      left. rewrite Hr. split; [discriminate|]. split; congruence.
    - cbv zeta in Hok. destruct Hok as (Hr & Q & Hc & Hn & Hf).
      rewrite bind_req_difficulty, bind_req_dbType, Hci in *.
      exists r, q. split; [congruence|]. split; [rewrite Hc; exact D|].
      split.
      + intros Fp. destruct (E Fp) as [F1 F2]. rewrite Hr.
        split; [reflexivity|]. split; [apply Hf; exact F1|congruence].
      + right. unfold inserted in *. rewrite B, C, Hc in *.
        split; [exact Hr|]. split; [rewrite Q, A; reflexivity|lia]. }
  destruct (strict_eq_string (req_dbType fields) (lit "multipla_escolha")) eqn:Em.
  - destruct (four_filled fields) eqn:Ef; cbn [negb] in H.
    + destruct (Hins _ _ _ H eq_refl) as (r & q & HP & Hcol & Hok & Hc).
      exists r, q. split; [exact HP|]. split; [exact Hcol|]. split.
      * intros Fp fs Efs _. apply Hok. exact Fp.
      * destruct Hc as [Hc|(Hr & Q & Hn)]; [left; exact Hc|].
        right. exists fields. split; [reflexivity|].
        split; [rewrite Ht, Em; cbn [andb]; assumption|].
        unfold created_row. rewrite Em, Htr.
        split; [exact Hr|]. split; [exact Q|exact Hn].
    + exists mcq_needs_four, p1. split; [exact H|]. split; [exact D|]. split.
      * intros _ fs Efs Hacc. injection Efs as Efs. subst fs.
        rewrite Ht, Em in Hacc. cbn [andb] in Hacc. congruence.
      * left. split; [discriminate|]. split; [exact A|exact B].
  - destruct (isNonEmptyString (req_answer fields)) eqn:Ea; cbn [negb] in H.
    + destruct (Hins _ _ _ H eq_refl) as (r & q & HP & Hcol & Hok & Hc).
      exists r, q. split; [exact HP|]. split; [exact Hcol|]. split.
      * intros Fp fs Efs _. apply Hok. exact Fp.
      * destruct Hc as [Hc|(Hr & Q & Hn)]; [left; exact Hc|].
        right. exists fields. split; [reflexivity|].
        split; [rewrite Ht, Em; cbn [andb]; assumption|].
        unfold created_row. rewrite Em, Htr.
        split; [exact Hr|]. split; [exact Q|exact Hn].
    + exists answer_required, p1. split; [exact H|]. split; [exact D|]. split.
      * intros _ fs Efs Hacc. injection Efs as Efs. subst fs.
        rewrite Ht, Em in Hacc. cbn [andb] in Hacc. congruence.
      * left. split; [discriminate|]. split; [exact A|exact B].
Qed.

(* ================================================================== *)
(** * What each handler leaves behind *)
(* ================================================================== *)

(** The delete handler, whatever the request and the storage. *)
Lemma DELETE_cases (id : jsstring) (p : Pool) :
  exists (r : Response) (q : Pool),
    DELETE id p = (r, q) /\
    next_id q = next_id p /\ hint1_column q = hint1_column p /\
    (faults p = [] -> faults q = []) /\
    ((invalid_id (StringToNumber id) = true /\ r = invalid_id_response /\ q = p) \/
     (invalid_id (StringToNumber id) = false /\ r = delete_failed /\
      questions q = questions p /\ faults p <> []) \/
     (invalid_id (StringToNumber id) = false /\
      questions q
        = filter (fun x => negb (id_is (StringToNumber id) x)) (questions p) /\
      r = if Z.of_nat (List.length
                         (filter (id_is (StringToNumber id)) (questions p))) =? 0
          then not_found else removed)).
Proof.
  destruct (invalid_id (StringToNumber id)) eqn:Hv.
  - rewrite (DELETE_invalid id p Hv). exists invalid_id_response, p.
    repeat split; auto.
  - rewrite (DELETE_valid id p Hv).
    destruct (query_cases (DeleteQuestion (StringToNumber id)) p)
      as (q & (A & B & C & D) & Hq & [[H F]|H]); rewrite H.
    + exists delete_failed, q. split; [reflexivity|].
      split; [exact C|]. split; [exact B|]. split; [intros F'; contradiction|].
      right. left. auto.
    + cbn [exec rowCount with_questions].
      eexists _, _. split; [reflexivity|]. cbn [next_id hint1_column faults questions].
      split; [exact C|]. split; [exact B|].
      split; [intros F; rewrite (Hq F); exact F|].
      right. right. rewrite A. auto.
Qed.

(** The update phase with everything it leaves behind. *)
Lemma PUT_update_full (fields : list (jsstring * value)) (n : number) (p : Pool) :
  exists (r : Response) (q : Pool),
    handler (PUT_update (lookup (lit "text") fields)
               (lookup (lit "difficulty") fields) (lookup (lit "type") fields)
               (lookup (lit "answer") fields) (lookup (lit "hint1") fields)
               (lookup (lit "options") fields)
               (lookup (lit "correctIndex") fields) n)
            update_failed p = (r, q) /\
    next_id q = next_id p /\ hint1_column q = hint1_column p /\
    (faults p = [] -> faults q = []) /\
    ((r = update_failed /\ questions q = questions p /\ faults p <> []) \/
     (questions q =
        map (fun x => if id_is n x then replaced (hint1_column p) fields x else x)
            (questions p) /\
      r = let hit := map (replaced (hint1_column p) fields)
                         (filter (id_is n) (questions p)) in
          if Z.of_nat (List.length hit) =? 0 then not_found
          else json (first_row (map (returning (hint1_column p) false) hit)) 200)).
Proof.
  unfold handler, PUT_update. rewrite bind_unfold.
  destruct (query_ProbeHint1 p) as (q1 & S1 & Hq1 & [[H F]|(res & H & Hs)]).
  - rewrite H. destruct S1 as (A & B & C & D).
    exists update_failed, q1. split; [reflexivity|].
    split; [exact C|]. split; [exact B|]. split; [intros F'; contradiction|].
    left. auto.
  - rewrite H, Hs, bind_unfold.
    destruct S1 as (A & B & C & D).
    match goal with
    | |- context [query ?s q1] =>
        destruct (query_cases s q1) as (q2 & (A2 & B2 & C2 & D2) & Hq2 & [[H2 F2]|H2])
    end.
    + rewrite H2. exists update_failed, q2. split; [reflexivity|].
      split; [congruence|]. split; [congruence|].
      split; [intros F; exfalso; apply F2; rewrite (Hq1 F); exact F|].
      left. split; [reflexivity|]. split; [congruence|].
      intros F. apply F2. rewrite (Hq1 F). exact F.
    + rewrite H2. cbn [exec]. rewrite B2, B, andb_negb_r.
      cbn [rowCount rows]. rewrite A2, A.
      fold (replaced (hint1_column p) fields).
      rewrite !length_map.
      destruct (Z.of_nat (Datatypes.length (filter (id_is n) (questions p))) =? 0)
        eqn:E.
      * eexists _, _. split; [reflexivity|].
        cbn [with_questions next_id hint1_column faults questions].
        split; [congruence|]. split; [congruence|].
        split; [intros F; rewrite (Hq2 ltac:(rewrite (Hq1 F); exact F)), (Hq1 F); exact F|].
        right. split; [reflexivity|].
        cbv zeta. rewrite ?length_map, ?E. reflexivity.
      * eexists _, _. split; [reflexivity|].
        cbn [with_questions next_id hint1_column faults questions].
        split; [congruence|]. split; [congruence|].
        split; [intros F; rewrite (Hq2 ltac:(rewrite (Hq1 F); exact F)), (Hq1 F); exact F|].
        right. split; [reflexivity|].
        cbv zeta. rewrite ?length_map, ?E. reflexivity.
Qed.

(** The update handler, whatever the request and the storage: the rows
    are as before, or each row selected by the id was rewritten from the
    fields read in the body. *)
Lemma PUT_cases (req_json : option value) (id : jsstring) (p : Pool) :
  exists (r : Response) (q : Pool),
    PUT req_json id p = (r, q) /\
    next_id q = next_id p /\ hint1_column q = hint1_column p /\
    (faults p = [] -> faults q = []) /\
    ((invalid_id (StringToNumber id) = true /\ r = invalid_id_response /\ q = p) \/
     (invalid_id (StringToNumber id) = false /\ r = update_failed /\
      questions q = questions p) \/
     (invalid_id (StringToNumber id) = false /\
      exists fields : list (jsstring * value),
        (forall fs, req_json = Some (JObject fs) -> fields = fs) /\
        questions q =
        map (fun x => if id_is (StringToNumber id) x
                      then replaced (hint1_column p) fields x else x)
            (questions p) /\
        r = let hit := map (replaced (hint1_column p) fields)
                           (filter (id_is (StringToNumber id)) (questions p)) in
            if Z.of_nat (List.length hit) =? 0 then not_found
            else json (first_row (map (returning (hint1_column p) false) hit)) 200)).
Proof.
  destruct (invalid_id (StringToNumber id)) eqn:Hv.
  - rewrite (PUT_invalid req_json id p Hv). exists invalid_id_response, p.
    repeat split; auto.
  - destruct (PUT_valid req_json id p Hv) as [H|(fields & Hfs & H)].
    + exists update_failed, p. split; [exact H|]. repeat split; auto.
    + destruct (PUT_update_full fields (StringToNumber id) p)
        as (r & q & Hp & Hn & Hc & Hf & [(Hr & Hq & _)|(Hq & Hr)]).
      * exists r, q. split; [congruence|]. repeat split; auto.
      * exists r, q. split; [congruence|]. split; [exact Hn|].
        split; [exact Hc|]. split; [exact Hf|].
        right. right. split; [reflexivity|]. exists fields. auto.
Qed.

(** The list handler never writes: whatever the request and the storage,
    table, schema and sequence are as before. *)
Lemma GET_reads_only (searchParams : list (jsstring * jsstring)) (p : Pool) :
  same_table p (snd (GET searchParams p)) /\
  (faults p = [] -> snd (GET searchParams p) = p).
Proof.
  unfold GET, handler, GET_body. cbv zeta. rewrite bind_unfold.
  match goal with
  | |- context [query ?s p] =>
      destruct (query_cases s p) as (q1 & S1 & Hq1 & [[H _]|H]); rewrite H
  end; [split; [exact S1|exact Hq1]|].
  cbn [exec]. rewrite bind_unfold.
  destruct (query_cases ProbeHint1 q1) as (q2 & S2 & Hq2 & [[H2 _]|H2]); rewrite H2.
  { split; [apply same_table_trans with q1; assumption|].
    intros F. rewrite <- (Hq1 F). apply Hq2. rewrite (Hq1 F). exact F. }
  cbn [exec]. rewrite bind_unfold.
  match goal with
  | |- context [query ?s q2] =>
      destruct (query_cases s q2) as (q3 & S3 & Hq3 & [[H3 _]|H3]); rewrite H3
  end.
  { split; [apply same_table_trans with q2; [apply same_table_trans with q1|];
            assumption|].
    intros F. pose proof (Hq1 F) as E1. subst q1.
    pose proof (Hq2 F) as E2. subst q2. apply Hq3. exact F. }
  assert (Hall : same_table p q3 /\ (faults p = [] -> q3 = p)).
  { split; [apply same_table_trans with q2; [apply same_table_trans with q1|];
            assumption|].
    intros F. pose proof (Hq1 F) as E1. subst q1.
    pose proof (Hq2 F) as E2. subst q2. apply Hq3. exact F. }
  cbn [exec].
  destruct (_ && negb (hint1_column q3)); [exact Hall|].
  destruct (bound _); [|exact Hall].
  destruct (bound _); exact Hall.
Qed.

(* ================================================================== *)
(** * Further properties of the create operation *)
(* ================================================================== *)

Lemma four_filled_true_iff_false (fields : list (jsstring * value)) :
  four_filled fields = false <->
  ~ four_nonempty_strings (lookup (lit "options") fields).
Proof.
  split.
  - intros H Hn. apply four_filled_iff in Hn. congruence.
  - apply four_filled_false.
Qed.

(** The create operation answers 400 to a JSON object exactly when the
    request is not accepted. *)
Lemma rejected_iff_not_accepted (fields : list (jsstring * value)) (p : Pool) :
  status (fst (POST (Some (JObject fields)) p)) = 400 <-> accepted fields = false.
Proof.
  pose proof (POST_object fields p) as H. unfold accepted.
  destruct (isNonEmptyString (req_text fields)) eqn:Ht; cbn [negb andb] in *.
  2:{ rewrite H. split; reflexivity. }
  destruct H as (p1 & Hens & H).
  destruct (isNonEmptyString_string _ Ht) as (t & Htx & _).
  assert (Hins : forall answer options ci,
             POST (Some (JObject fields)) p =
             handler (POST_insert (JObject fields) (req_text fields)
                        (req_difficulty fields) (req_dbType fields) answer options ci)
                     create_failed p1 ->
             status (fst (POST (Some (JObject fields)) p)) <> 400).
  { intros answer options ci HP. rewrite Htx in HP.
    destruct (POST_insert_full fields t (req_difficulty fields) (req_dbType fields)
                answer options ci create_failed p1)
      as (r & q & Hh & [(Hr & _)|Hok]).
    - rewrite HP, Hh, Hr. discriminate.
    - cbv zeta in Hok. destruct Hok as (Hr & _). rewrite HP, Hh, Hr. discriminate. }
  destruct (strict_eq_string (req_dbType fields) (lit "multipla_escolha")).
  - destruct (four_filled fields); cbn [negb] in H.
    + split; [intros E; destruct (Hins _ _ _ H E)|discriminate].
    + rewrite H. split; reflexivity.
  - destruct (isNonEmptyString (req_answer fields)); cbn [negb] in H.
    + split; [intros E; destruct (Hins _ _ _ H E)|discriminate].
    + rewrite H. split; reflexivity.
Qed.

(** X3. The create operation answers 400 to a JSON object exactly when
    one of its three checks fails: the text is not a filled string; or
    the type resolves to multiple-choice and the options are not four
    filled strings; or the type resolves to discursive and the answer is
    not a filled string. Nothing else in the body, and nothing the
    storage does, leads to a 400. *)
Theorem create_rejects_exactly_invalid
    (fields : list (jsstring * value)) (p : Pool) :
  status (fst (POST (Some (JObject fields)) p)) = 400 <->
  (isNonEmptyString (req_text fields) = false \/
   (req_dbType fields = str "multipla_escolha" /\
    ~ four_nonempty_strings (lookup (lit "options") fields)) \/
   (req_dbType fields = str "discursiva" /\
    isNonEmptyString (req_answer fields) = false)).
Proof.
  rewrite rejected_iff_not_accepted. unfold accepted.
  assert (Hty : (strict_eq_string (req_dbType fields) (lit "multipla_escolha") = true /\
                 req_dbType fields = str "multipla_escolha") \/
                (strict_eq_string (req_dbType fields) (lit "multipla_escolha") = false /\
                 req_dbType fields = str "discursiva")).
  { unfold req_dbType, toDbType. destruct (_ || _); [left|right]; split; reflexivity. }
  destruct (isNonEmptyString (req_text fields)); cbn [andb].
  2:{ split; [intros _; left; reflexivity|reflexivity]. }
  destruct Hty as [[Em Ety]|[Em Ety]]; rewrite Em, Ety.
  - rewrite four_filled_true_iff_false. split.
    + intros H. right. left. split; [reflexivity|exact H].
    + intros [H|[[_ H]|[H _]]]; [discriminate H|exact H|].
      vm_compute in H. discriminate H.
  - split.
    + intros H. right. right. split; [reflexivity|exact H].
    + intros [H|[[H _]|[_ H]]]; [discriminate H| |exact H].
      vm_compute in H. discriminate H.
Qed.

(** X4. A body that is not a JSON object never reaches the storage: JSON
    null, like a body that does not parse, is answered with the 500 of
    the catch clause; a JSON number, string, boolean or array with the 400
    about the missing text. *)
Theorem create_body_not_an_object (p : Pool) :
  POST None p = (create_failed, p) /\
  POST (Some JNull) p = (create_failed, p) /\
  (forall b, POST (Some (JBool b)) p = (text_required, p)) /\
  (forall n, POST (Some (JNumber n)) p = (text_required, p)) /\
  (forall s, POST (Some (JString s)) p = (text_required, p)) /\
  (forall items, POST (Some (JArray items)) p = (text_required, p)) /\
  status create_failed = 500 /\ status text_required = 400.
Proof. repeat split. Qed.

Lemma with_api_type_returning (w : bool) (row : Row) (t : value) :
  prop (with_api_type (returning w true row) t) (lit "type") = Some (toApiType t) /\
  prop (with_api_type (returning w true row) t) (lit "id")
    = Some (JNumber (of_Z (col_id row))) /\
  prop (with_api_type (returning w true row) t) (lit "createdAt")
    = Some (JDate (col_created_at row)) /\
  prop (with_api_type (returning w true row) t) (lit "usedAt")
    = Some (col_used_at row).
Proof. destruct w; repeat split. Qed.

(** X5. Whatever the request and whatever the storage does, the create
    operation writes at most one row: either it does not answer 201 and
    rows and id sequence are as before, or it answers 201 and the table is
    the former table followed by one new row, whose id is the next value
    of the sequence (also the id of the response), whose createdAt is the
    clock of the storage and whose usedAt is null. *)
Theorem create_appends_one_row (req_json : option value) (p : Pool) :
  let r := fst (POST req_json p) in
  let q := snd (POST req_json p) in
  (status r <> 201 /\ questions q = questions p /\ next_id q = next_id p) \/
  (status r = 201 /\
   exists row : Row,
     questions q = questions p ++ [row] /\
     next_id q = next_id p + 1 /\
     col_id row = next_id p /\
     col_created_at row = now p /\
     col_used_at row = JNull /\
     prop (body r) (lit "id") = Some (JNumber (of_Z (next_id p))) /\
     prop (body r) (lit "createdAt") = Some (JDate (now p))).
Proof.
  cbv zeta.
  destruct (POST_cases req_json p) as (r & q & H & _ & _ & [Hno|Hyes]);
    rewrite H; cbn [fst snd].
  - left. exact Hno.
  - right. destruct Hyes as (fields & _ & _ & Hr & Hq & Hn).
    split; [rewrite Hr; reflexivity|].
    eexists. split; [exact Hq|]. split; [exact Hn|].
    split; [reflexivity|]. split; [reflexivity|]. split; [reflexivity|].
    rewrite Hr. cbn [body json].
    destruct (with_api_type_returning (hint1_column q)
                (created_row (hint1_column q) p fields) (req_dbType fields))
      as (_ & Hid & Hc & _).
    split; [exact Hid|exact Hc].
Qed.

Lemma selected_type (w : bool) (x : Row) :
  prop (selected w x) (lit "type")
  = Some (if strict_eq_string (col_type x) (lit "multipla_escolha")
          then str "MCQ" else str "OPEN").
Proof. destruct w; reflexivity. Qed.

(** X6. A created question is stored under one of the two storage tags,
    the translation of the type of the request, and answered under the
    matching external tag, also when the request used the storage
    vocabulary or an unknown type; the list operation shows it under the
    same external tag. *)
Theorem created_type_in_both_vocabularies
    (fields : list (jsstring * value)) (p : Pool) :
  status (fst (POST (Some (JObject fields)) p)) = 201 ->
  exists row : Row,
    questions (snd (POST (Some (JObject fields)) p)) = questions p ++ [row] /\
    col_type row = toDbType (lookup (lit "type") fields) /\
    (col_type row = str "multipla_escolha" \/ col_type row = str "discursiva") /\
    prop (body (fst (POST (Some (JObject fields)) p))) (lit "type")
      = Some (toApiType (lookup (lit "type") fields)) /\
    (col_type row = str "multipla_escolha" <->
     toApiType (lookup (lit "type") fields) = str "MCQ") /\
    (forall w : bool,
        prop (selected w row) (lit "type")
        = Some (toApiType (lookup (lit "type") fields))).
Proof.
  intros Hst.
  destruct (POST_cases (Some (JObject fields)) p)
    as (r & q & H & _ & _ & [(Hno & _)|Hyes]); rewrite H in *; cbn [fst snd] in *.
  { contradiction. }
  destruct Hyes as (fs & Efs & _ & Hr & Hq & _). injection Efs as Efs. subst fs.
  eexists. split; [exact Hq|].
  pose proof (toDbType_cases (lookup (lit "type") fields)) as Hdb.
  pose proof (toDbType_mcq_iff (lookup (lit "type") fields)) as Hiff.
  pose proof (toApiType_of_toDbType (lookup (lit "type") fields)) as Hrt.
  split; [reflexivity|]. split; [exact Hdb|].
  split; [|split; [exact Hiff|]].
  rewrite Hr. cbn [body json].
  destruct (with_api_type_returning (hint1_column q)
              (created_row (hint1_column q) p fields) (req_dbType fields))
    as (Hty & _).
  - rewrite Hty. unfold req_dbType. rewrite Hrt. reflexivity.
  - intros w. rewrite selected_type.
    cbn [created_row inserted col_type]. unfold req_dbType, toDbType, toApiType.
    destruct (strict_eq_string (lookup (lit "type") fields) (lit "MCQ"));
      destruct (strict_eq_string (lookup (lit "type") fields)
                                 (lit "multipla_escolha")); reflexivity.
Qed.

(** X7. A created question has the difficulty of the request when that is
    a filled string, stored as received, and "facil" when the field is
    missing, is not a string or is blank. *)
Theorem created_difficulty_defaults
    (fields : list (jsstring * value)) (p : Pool) :
  status (fst (POST (Some (JObject fields)) p)) = 201 ->
  exists row : Row,
    questions (snd (POST (Some (JObject fields)) p)) = questions p ++ [row] /\
    (isNonEmptyString (lookup (lit "difficulty") fields) = true ->
     col_difficulty row = lookup (lit "difficulty") fields) /\
    (isNonEmptyString (lookup (lit "difficulty") fields) = false ->
     col_difficulty row = str "facil").
Proof.
  intros Hst.
  destruct (POST_cases (Some (JObject fields)) p)
    as (r & q & H & _ & _ & [(Hno & _)|Hyes]); rewrite H in *; cbn [fst snd] in *.
  { contradiction. }
  destruct Hyes as (fs & Efs & _ & Hr & Hq & _). injection Efs as Efs. subst fs.
  eexists. split; [exact Hq|].
  cbn [created_row inserted col_difficulty]. unfold req_difficulty.
  split; intros E; rewrite E; reflexivity.
Qed.

(** X8. On a storage that does not fail, an accepted create request is
    answered 201 and leaves the column hint1 in place, even on a
    database of the first release; the hint of the request is stored
    trimmed when it is a filled string, and as null otherwise. *)
Theorem created_hint_on_sound_storage
    (fields : list (jsstring * value)) (p : Pool) :
  faults p = [] ->
  accepted fields = true ->
  let r := fst (POST (Some (JObject fields)) p) in
  let q := snd (POST (Some (JObject fields)) p) in
  status r = 201 /\
  hint1_column q = true /\
  exists row : Row,
    questions q = questions p ++ [row] /\
    (forall s, lookup (lit "hint1") fields = JString s -> trim s <> [] ->
               col_hint1 row = JString (trim s)) /\
    (isNonEmptyString (lookup (lit "hint1") fields) = false ->
     col_hint1 row = JNull) /\
    prop (body r) (lit "hint1") = Some (col_hint1 row).
Proof.
  intros F Hacc. cbv zeta.
  destruct (POST_cases (Some (JObject fields)) p)
    as (r & q & H & _ & Hok & Hc); rewrite H; cbn [fst snd].
  destruct (Hok F fields eq_refl Hacc) as (H201 & _ & Hcol).
  split; [exact H201|]. split; [exact Hcol|].
  destruct Hc as [(Hno & _)|Hyes]; [contradiction|].
  destruct Hyes as (fs & Efs & _ & Hr & Hq & _). injection Efs as Efs. subst fs.
  rewrite Hcol in *.
  eexists. split; [exact Hq|].
  cbn [created_row inserted col_hint1].
  split; [|split].
  - intros s Hs Hne. rewrite Hs. unfold trim_or. simpl.
    destruct (trim s); [contradiction|reflexivity].
  - intros E. unfold trim_or. rewrite E.
    destruct (lookup (lit "hint1") fields); reflexivity.
  - rewrite Hr. reflexivity.
Qed.

(* ================================================================== *)
(** * Ids: drawn once, never rewritten *)
(* ================================================================== *)

Lemma NoDup_map_filter {A B} (f : A -> B) (g : A -> bool) (l : list A) :
  NoDup (map f l) -> NoDup (map f (filter g l)).
Proof.
  induction l as [|a l IH]; simpl; intros H; [constructor|].
  inversion H as [|x xs Hnin Hnd]; subst.
  destruct (g a); [|apply IH; exact Hnd].
  simpl. constructor; [|apply IH; exact Hnd].
  intros Hin. apply Hnin. apply in_map_iff in Hin.
  destruct Hin as (y & Hy & Hin). apply filter_In in Hin.
  apply in_map_iff. exists y. tauto.
Qed.

Lemma replaced_id (w : bool) (fields : list (jsstring * value)) (x : Row) :
  col_id (replaced w fields x) = col_id x.
Proof. reflexivity. Qed.

Lemma map_replaced_ids (w : bool) (fields : list (jsstring * value))
    (n : number) (l : list Row) :
  map col_id (map (fun x => if id_is n x then replaced w fields x else x) l)
  = map col_id l.
Proof.
  rewrite map_map. apply map_ext. intros x. destruct (id_is n x); reflexivity.
Qed.

Lemma ids_fresh_same (p q : Pool) :
  questions q = questions p -> next_id q = next_id p ->
  ids_fresh p -> ids_fresh q.
Proof. unfold ids_fresh. intros -> ->. auto. Qed.

(** X9. The ids of the table stay what the sequence made them: if every
    id is positive, below the next value of the sequence and borne by one
    row only, this is still so after any request to any of the four
    handlers, whatever the storage does. *)
Theorem handlers_keep_ids_fresh (p : Pool) :
  ids_fresh p ->
  (forall searchParams, ids_fresh (snd (GET searchParams p))) /\
  (forall req_json, ids_fresh (snd (POST req_json p))) /\
  (forall req_json id, ids_fresh (snd (PUT req_json id p))) /\
  (forall id, ids_fresh (snd (DELETE id p))).
Proof.
  intros Hf. split; [|split; [|split]].
  - intros sp. destruct (GET_reads_only sp p) as ((A & _ & C & _) & _).
    apply (ids_fresh_same p); assumption.
  - intros req.
    destruct (POST_cases req p) as (r & q & H & _ & _ & [(_ & A & C)|Hyes]);
      rewrite H; cbn [snd].
    + apply (ids_fresh_same p); assumption.
    + destruct Hyes as (fields & _ & _ & _ & Hq & Hn).
      destruct Hf as (Hpos & Hb & Hnd). unfold ids_fresh. rewrite Hq, Hn.
      split; [lia|]. split.
      * intros x Hx. apply in_app_iff in Hx. destruct Hx as [Hx|[<-|[]]].
        -- specialize (Hb x Hx). lia.
        -- cbn [created_row inserted col_id]. lia.
      * rewrite map_app. cbn [map created_row inserted col_id].
        apply NoDup_app; [exact Hnd|repeat constructor; intros []|].
        intros z Hz [<-|[]]. apply in_map_iff in Hz.
        destruct Hz as (y & Hy & Hin). specialize (Hb y Hin). lia.
  - intros req id.
    destruct (PUT_cases req id p)
      as (r & q & H & Hn & _ & _ & [(_ & _ & ->)|[(_ & _ & A)|(_ & fields & _ & Hq & _)]]);
      rewrite H; cbn [snd]; try exact Hf.
    + apply (ids_fresh_same p); assumption.
    + destruct Hf as (Hpos & Hb & Hnd). unfold ids_fresh. rewrite Hq, Hn.
      split; [exact Hpos|]. split.
      * intros x Hx. apply in_map_iff in Hx. destruct Hx as (y & Hy & Hin).
        specialize (Hb y Hin). subst x. destruct (id_is _ y); exact Hb.
      * rewrite map_replaced_ids. exact Hnd.
  - intros id.
    destruct (DELETE_cases id p)
      as (r & q & H & Hn & _ & _ & [(_ & _ & ->)|[(_ & _ & A & _)|(_ & Hq & _)]]);
      rewrite H; cbn [snd]; try exact Hf.
    + apply (ids_fresh_same p); assumption.
    + destruct Hf as (Hpos & Hb & Hnd). unfold ids_fresh. rewrite Hq, Hn.
      split; [exact Hpos|]. split.
      * intros x Hx. apply filter_In in Hx. apply Hb. tauto.
      * apply NoDup_map_filter. exact Hnd.
Qed.

(* ================================================================== *)
(** * Further properties of delete and update *)
(* ================================================================== *)

Lemma filter_negb_length {A} (f : A -> bool) (l : list A) :
  (List.length (filter f l) + List.length (filter (fun x => negb (f x)) l)
   = List.length l)%nat.
Proof.
  induction l as [|a l IH]; simpl; [reflexivity|].
  destruct (f a); simpl; lia.
Qed.

(** X10. The delete operation answers 400 exactly when the id does not
    pass the id guard, and then touches nothing. Otherwise, whatever the
    storage does, the rows left are the former rows whose id is another,
    in their order and as they were, or all the former rows when the
    answer is 404 or 500; the answer is the success message exactly when
    a row was removed. *)
Theorem delete_removes_only_that_id (id : jsstring) (p : Pool) :
  let r := fst (DELETE id p) in
  let q := snd (DELETE id p) in
  (status r = 400 <-> invalid_id (StringToNumber id) = true) /\
  (status r = 400 -> q = p) /\
  (status r = 200 \/ status r = 400 \/ status r = 404 \/ status r = 500) /\
  (status r <> 200 -> questions q = questions p) /\
  (status r = 200 ->
   questions q
     = filter (fun x => negb (id_is (StringToNumber id) x)) (questions p) /\
   (List.length (questions q) < List.length (questions p))%nat).
Proof.
  cbv zeta.
  destruct (DELETE_cases id p)
    as (r & q & H & _ & _ & _ & [(Hv & -> & ->)|[(Hv & -> & A & _)|(Hv & Hq & Hr)]]);
    rewrite H; cbn [fst snd]; rewrite Hv.
  - split; [split; reflexivity|]. split; [reflexivity|].
    split; [right; left; reflexivity|]. split; [reflexivity|discriminate].
  - split; [split; discriminate|]. split; [discriminate|].
    split; [right; right; right; reflexivity|]. split; [intros _; exact A|discriminate].
  - pose proof (filter_negb_length (id_is (StringToNumber id)) (questions p)) as Hlen.
    destruct (Z.of_nat (Datatypes.length
                (filter (id_is (StringToNumber id)) (questions p))) =? 0) eqn:E;
      rewrite Hr.
    + apply Z.eqb_eq in E.
      assert (E0 : filter (id_is (StringToNumber id)) (questions p) = [])
        by (destruct (filter (id_is (StringToNumber id)) (questions p));
            [reflexivity|simpl in E; lia]).
      split; [split; discriminate|]. split; [discriminate|].
      split; [right; right; left; reflexivity|].
      split; [|discriminate].
      intros _. rewrite Hq. apply filter_all. intros x Hx.
      destruct (id_is (StringToNumber id) x) eqn:Ex; [|reflexivity].
      assert (Hin : In x (filter (id_is (StringToNumber id)) (questions p)))
        by (apply filter_In; auto).
      rewrite E0 in Hin. destruct Hin.
    + apply Z.eqb_neq in E.
      split; [split; discriminate|]. split; [discriminate|].
      split; [left; reflexivity|].
      split; [intros Hc; exfalso; apply Hc; reflexivity|].
      intros _. split; [exact Hq|]. rewrite Hq. lia.
Qed.

(** X11. The update operation never creates, removes or renumbers a row
    and never touches createdAt or usedAt: whatever the request and the
    storage, the table has the same rows in the same order as far as id,
    createdAt and usedAt go, and the id sequence and the schema are as
    before. *)
Theorem update_keeps_identity (req_json : option value) (id : jsstring) (p : Pool) :
  let q := snd (PUT req_json id p) in
  map (fun x => (col_id x, col_created_at x, col_used_at x)) (questions q)
    = map (fun x => (col_id x, col_created_at x, col_used_at x)) (questions p) /\
  List.length (questions q) = List.length (questions p) /\
  next_id q = next_id p /\
  hint1_column q = hint1_column p.
Proof.
  cbv zeta.
  destruct (PUT_cases req_json id p)
    as (r & q & H & Hn & Hc & _ & [(_ & _ & ->)|[(_ & _ & A)|(_ & fields & _ & Hq & _)]]);
    rewrite H; cbn [snd].
  - repeat split.
  - rewrite A. repeat split; assumption.
  - rewrite Hq, map_map, length_map.
    split; [|repeat split; assumption].
    apply map_ext. intros x. destruct (id_is _ x); reflexivity.
Qed.

(** The update of a JSON object on a storage that does not fail. *)
Lemma PUT_no_fault (fields : list (jsstring * value)) (id : jsstring) (p : Pool) :
  invalid_id (StringToNumber id) = false ->
  faults p = [] ->
  PUT (Some (JObject fields)) id p =
  (let hit := map (replaced (hint1_column p) fields)
                  (filter (id_is (StringToNumber id)) (questions p)) in
   if Z.of_nat (List.length hit) =? 0 then not_found
   else json (first_row (map (returning (hint1_column p) false) hit)) 200,
   with_questions p
     (map (fun x => if id_is (StringToNumber id) x
                    then replaced (hint1_column p) fields x else x)
          (questions p))).
Proof.
  intros Hv F. rewrite (PUT_object fields id p Hv).
  unfold handler, PUT_update.
  rewrite bind_unfold, (query_no_fault _ p F). cbn [exec rows].
  rewrite bind_unfold, some_hint1_probe, (query_no_fault _ p F). cbn [exec].
  rewrite andb_negb_r. cbn [rowCount rows]. cbv zeta.
  fold (replaced (hint1_column p) fields).
  destruct (Z.of_nat _ =? 0); reflexivity.
Qed.

(** X12. The update operation validates nothing but the id. It answers
    400 exactly when the id does not pass the id guard; past the guard, on
    a storage that does not fail and for any JSON object as body, it
    answers 404 and leaves the pool as it was when no row has the id, and
    200 when one has, whatever the body holds or lacks. *)
Theorem update_validates_only_the_id
    (req_json : option value) (fields : list (jsstring * value))
    (id : jsstring) (p : Pool) :
  (status (fst (PUT req_json id p)) = 400 <->
   invalid_id (StringToNumber id) = true) /\
  (invalid_id (StringToNumber id) = false -> faults p = [] ->
   ((forall x, In x (questions p) -> id_is (StringToNumber id) x = false) ->
    PUT (Some (JObject fields)) id p = (not_found, p)) /\
   ((exists x, In x (questions p) /\ id_is (StringToNumber id) x = true) ->
    status (fst (PUT (Some (JObject fields)) id p)) = 200)).
Proof.
  split.
  - destruct (PUT_cases req_json id p)
      as (r & q & H & _ & _ & _ & [(Hv & -> & _)|[(Hv & -> & _)|(Hv & fs & _ & _ & Hr)]]);
      rewrite H; cbn [fst]; rewrite Hv.
    + split; reflexivity.
    + split; discriminate.
    + rewrite Hr. cbv zeta.
      destruct (Z.of_nat _ =? 0); split; discriminate.
  - intros Hv F. rewrite (PUT_no_fault fields id p Hv F). cbv zeta.
    rewrite length_map. split.
    + intros Hno. rewrite (filter_none _ _ Hno). cbn [List.length Z.of_nat Z.eqb].
      f_equal. transitivity (with_questions p (questions p));
        [|apply with_questions_same].
      f_equal. transitivity (map (fun x : Row => x) (questions p));
        [|apply map_id].
      apply map_ext_in. intros x Hx. rewrite (Hno x Hx). reflexivity.
    + intros (x & Hx & Hid). cbn [fst].
      assert (Hin : In x (filter (id_is (StringToNumber id)) (questions p)))
        by (apply filter_In; auto).
      destruct (filter (id_is (StringToNumber id)) (questions p)); [destruct Hin|].
      reflexivity.
Qed.

(* ================================================================== *)
(** * Further properties of the list operation *)
(* ================================================================== *)

Lemma firstn_incl {A} (n : nat) (l : list A) (x : A) :
  In x (firstn n l) -> In x l.
Proof.
  intros H. rewrite <- (firstn_skipn n l). apply in_or_app. left. exact H.
Qed.

Lemma skipn_incl {A} (n : nat) (l : list A) (x : A) :
  In x (skipn n l) -> In x l.
Proof.
  intros H. rewrite <- (firstn_skipn n l). apply in_or_app. right. exact H.
Qed.

(** ORDER BY created_at DESC: a stable insertion sort. *)
Lemma insert_desc_perm (r : Row) (l : list Row) :
  Permutation (insert_desc r l) (r :: l).
Proof.
  induction l as [|a l IH]; simpl; [reflexivity|].
  destruct (col_created_at a <? col_created_at r); [reflexivity|].
  rewrite IH. apply perm_swap.
Qed.

Lemma order_by_perm (l : list Row) :
  Permutation (order_by_created_at_desc l) l.
Proof.
  induction l as [|a l IH]; simpl; [reflexivity|].
  rewrite insert_desc_perm. apply perm_skip. exact IH.
Qed.

Lemma insert_desc_sorted (r : Row) (l : list Row) :
  StronglySorted newer_first l -> StronglySorted newer_first (insert_desc r l).
Proof.
  induction l as [|a l IH]; simpl; intros H.
  - repeat constructor.
  - inversion H as [|x xs Hs Hall]; subst.
    destruct (col_created_at a <? col_created_at r) eqn:E.
    + apply Z.ltb_lt in E. constructor; [exact H|].
      constructor; [unfold newer_first; lia|].
      eapply Forall_impl; [|exact Hall]. unfold newer_first. intros b Hb. lia.
    + apply Z.ltb_ge in E. constructor; [apply IH; exact Hs|].
      eapply Permutation_Forall; [symmetry; apply insert_desc_perm|].
      constructor; [exact E|exact Hall].
Qed.

Lemma order_by_sorted (l : list Row) :
  StronglySorted newer_first (order_by_created_at_desc l).
Proof.
  induction l as [|a l IH]; simpl; [constructor|].
  apply insert_desc_sorted. exact IH.
Qed.

Lemma StronglySorted_skipn {A} (R : A -> A -> Prop) (n : nat) (l : list A) :
  StronglySorted R l -> StronglySorted R (skipn n l).
Proof.
  revert l. induction n as [|n IH]; intros l H; [exact H|].
  destruct l as [|a l]; [constructor|]. simpl.
  inversion H; subst. apply IH. assumption.
Qed.

Lemma StronglySorted_firstn {A} (R : A -> A -> Prop) (n : nat) (l : list A) :
  StronglySorted R l -> StronglySorted R (firstn n l).
Proof.
  revert l. induction n as [|n IH]; intros l H; [constructor|].
  destruct l as [|a l]; [constructor|]. simpl.
  inversion H as [|x xs Hs Hall]; subst. constructor; [apply IH; exact Hs|].
  rewrite Forall_forall in *. intros b Hb. apply Hall.
  eapply firstn_incl; eauto.
Qed.

(** The answer of the list handler: the 500 of the catch clause, or the
    page computed from the table the request arrived on. *)
Lemma GET_shape (searchParams : list (jsstring * jsstring)) (p : Pool) :
  let page := page_of (Number_param searchParams (lit "page") 1) in
  let limit := limit_of (Number_param searchParams (lit "limit") 5) in
  let offset := num_mul (num_sub page (of_Z 1)) limit in
  let matching := filter (difficulty_is (list_filter searchParams)) (questions p) in
  fst (GET searchParams p) = list_failed \/
  exists l o : nat,
    bound limit = Some l /\ bound offset = Some o /\
    fst (GET searchParams p) =
    json
      (JObject
         [(lit "page", JNumber page);
          (lit "limit", JNumber limit);
          (lit "total", JNumber (of_Z (Z.of_nat (List.length matching))));
          (lit "totalPages",
            JNumber (Math_max (of_Z 1)
                       (Math_ceil
                          (num_div (of_Z (Z.of_nat (List.length matching))) limit))));
          (lit "count",
            JNumber (of_Z (Z.of_nat (List.length (page_rows searchParams p l o)))));
          (lit "data",
            JArray (map (selected (hint1_column p)) (page_rows searchParams p l o)))])
      200.
Proof.
  cbv zeta. unfold GET, handler, GET_body. cbv zeta.
  fold (list_filter searchParams).
  rewrite bind_unfold.
  match goal with
  | |- context [query ?s p] =>
      destruct (query_cases s p) as (q1 & (A1 & B1 & _) & _ & [[H _]|H]); rewrite H
  end; [left; reflexivity|].
  cbn [exec rows first_row prop_opt prop]. rewrite bind_unfold.
  destruct (query_cases ProbeHint1 q1) as (q2 & (A2 & B2 & _) & _ & [[H2 _]|H2]);
    rewrite H2; [left; reflexivity|].
  cbn [exec rows]. rewrite some_hint1_probe, bind_unfold.
  match goal with
  | |- context [query ?s q2] =>
      destruct (query_cases s q2) as (q3 & (A3 & B3 & _) & _ & [[H3 _]|H3]); rewrite H3
  end; [left; reflexivity|].
  cbn [exec]. rewrite B3, andb_negb_r.
  destruct (bound (limit_of _)) as [l|]; [|left; reflexivity].
  destruct (bound (num_mul _ _)) as [o|]; [|left; reflexivity].
  right. exists l, o. split; [reflexivity|]. split; [reflexivity|].
  cbn [ret fst rows]. unfold page_rows.
  rewrite A3, A2, A1, B2, B1, length_map. reflexivity.
Qed.

Lemma page_rows_incl (searchParams : list (jsstring * jsstring)) (p : Pool)
    (l o : nat) (x : Row) :
  In x (page_rows searchParams p l o) ->
  In x (questions p) /\ difficulty_is (list_filter searchParams) x = true.
Proof.
  unfold page_rows. intros H.
  apply firstn_incl, skipn_incl in H.
  apply (Permutation_in _ (order_by_perm _)) in H.
  apply filter_In in H. exact H.
Qed.

Lemma list_page_contents_aux (searchParams : list (jsstring * jsstring)) (p : Pool) :
  status (fst (GET searchParams p)) = 200 ->
  prop (body (fst (GET searchParams p))) (lit "total")
  = Some (JNumber (of_Z (Z.of_nat (List.length
       (filter (difficulty_is (list_filter searchParams)) (questions p)))))).
Proof.
  intros Hst.
  destruct (GET_shape searchParams p) as [H|(l & o & Hl & Ho & H)];
    cbv zeta in *; rewrite H in *; [discriminate Hst|]. reflexivity.
Qed.

(** X13. The list operation never writes: whatever the request and
    whatever the storage does, rows, schema and id sequence are as
    before, and on a storage that does not fail the pool is unchanged. *)
Theorem list_never_writes (searchParams : list (jsstring * jsstring)) (p : Pool) :
  let q := snd (GET searchParams p) in
  questions q = questions p /\
  hint1_column q = hint1_column p /\
  next_id q = next_id p /\
  (faults p = [] -> q = p).
Proof.
  cbv zeta. destruct (GET_reads_only searchParams p) as ((A & B & C & _) & H).
  auto.
Qed.

(** X14. When the list operation answers 200, total is the number of
    stored rows that match the difficulty filter, whatever the page and
    the limit; data holds at most limit rows and count is their number;
    every listed row is a stored row that matches the filter, with type
    "MCQ" or "OPEN"; and an offset past the last matching row gives an empty
    page, not an error. *)
Theorem list_page_contents (searchParams : list (jsstring * jsstring)) (p : Pool) :
  let r := fst (GET searchParams p) in
  let limit := limit_of (Number_param searchParams (lit "limit") 5) in
  let offset :=
    num_mul (num_sub (page_of (Number_param searchParams (lit "page") 1)) (of_Z 1))
            limit in
  let matching := filter (difficulty_is (list_filter searchParams)) (questions p) in
  status r = 200 ->
  exists (l o : nat) (page : list Row),
    bound limit = Some l /\ bound offset = Some o /\
    prop (body r) (lit "data")
      = Some (JArray (map (selected (hint1_column p)) page)) /\
    prop (body r) (lit "count")
      = Some (JNumber (of_Z (Z.of_nat (List.length page)))) /\
    prop (body r) (lit "total")
      = Some (JNumber (of_Z (Z.of_nat (List.length matching)))) /\
    (List.length page <= l)%nat /\
    (List.length page <= List.length matching)%nat /\
    (List.length matching <= o -> page = [])%nat /\
    (forall x : Row,
        In x page ->
        In x (questions p) /\
        (forall d, searchParams_get searchParams (lit "difficulty") = Some d ->
                   d <> [] -> col_difficulty x = JString d) /\
        (prop (selected (hint1_column p) x) (lit "type") = Some (str "MCQ") \/
         prop (selected (hint1_column p) x) (lit "type") = Some (str "OPEN"))).
Proof.
  cbv zeta. intros Hst.
  destruct (GET_shape searchParams p) as [H|(l & o & Hl & Ho & H)];
    cbv zeta in *; rewrite H in *; [discriminate Hst|].
  exists l, o, (page_rows searchParams p l o).
  split; [exact Hl|]. split; [exact Ho|].
  split; [reflexivity|]. split; [reflexivity|]. split; [reflexivity|].
  assert (Hlen : List.length (order_by_created_at_desc
                   (filter (difficulty_is (list_filter searchParams)) (questions p)))
                 = List.length (filter (difficulty_is (list_filter searchParams))
                                  (questions p)))
    by (apply Permutation_length, order_by_perm).
  split; [apply firstn_le_length|]. split; [|split].
  - unfold page_rows. rewrite length_firstn, length_skipn, Hlen. lia.
  - intros Hpast. unfold page_rows. rewrite skipn_all2; [|rewrite Hlen; exact Hpast].
    apply firstn_nil.
  - intros x Hx. destruct (page_rows_incl _ _ _ _ _ Hx) as [Hin Hd].
    split; [exact Hin|]. split.
    + intros d Hget Hne. unfold list_filter in Hd. rewrite Hget in Hd.
      destruct d as [|c d]; [contradiction|].
      cbn [difficulty_is] in Hd. apply strict_eq_string_eq in Hd. exact Hd.
    + rewrite selected_type.
      destruct (strict_eq_string (col_type x) (lit "multipla_escolha")); auto.
Qed.

(** X15. The rows of a listed page are in the order of the table sorted by
    createdAt, newest first; and when the offset is zero and the limit
    covers the matching rows, the page holds each of them exactly once. *)
Theorem list_newest_first (searchParams : list (jsstring * jsstring)) (p : Pool) :
  let r := fst (GET searchParams p) in
  let limit := limit_of (Number_param searchParams (lit "limit") 5) in
  let offset :=
    num_mul (num_sub (page_of (Number_param searchParams (lit "page") 1)) (of_Z 1))
            limit in
  let matching := filter (difficulty_is (list_filter searchParams)) (questions p) in
  status r = 200 ->
  exists (l o : nat) (page : list Row),
    bound limit = Some l /\ bound offset = Some o /\
    prop (body r) (lit "data")
      = Some (JArray (map (selected (hint1_column p)) page)) /\
    StronglySorted newer_first page /\
    (o = 0%nat -> (List.length matching <= l)%nat -> Permutation page matching).
Proof.
  cbv zeta. intros Hst.
  destruct (GET_shape searchParams p) as [H|(l & o & Hl & Ho & H)];
    cbv zeta in *; rewrite H in *; [discriminate Hst|].
  exists l, o, (page_rows searchParams p l o).
  split; [exact Hl|]. split; [exact Ho|]. split; [reflexivity|].
  unfold page_rows. split.
  - apply StronglySorted_firstn, StronglySorted_skipn, order_by_sorted.
  - intros -> Hfit. cbn [skipn]. rewrite firstn_all2.
    + apply order_by_perm.
    + rewrite (Permutation_length (order_by_perm _)). exact Hfit.
Qed.

(** X16. An empty difficulty parameter is no filter: like a request
    without the parameter, the request is answered with the count of all
    the rows as total. *)
Theorem list_empty_difficulty_is_no_filter
    (searchParams : list (jsstring * jsstring)) (p : Pool) :
  searchParams_get searchParams (lit "difficulty") = Some [] \/
  searchParams_get searchParams (lit "difficulty") = None ->
  status (fst (GET searchParams p)) = 200 ->
  prop (body (fst (GET searchParams p))) (lit "total")
    = Some (JNumber (of_Z (Z.of_nat (List.length (questions p))))).
Proof.
  intros Hd Hst.
  rewrite (list_page_contents_aux searchParams p Hst). unfold list_filter.
  destruct Hd as [-> | ->]; cbn [difficulty_is];
    rewrite (filter_all (fun _ => true)); auto.
Qed.

(* ================================================================== *)
(** * Operations in sequence *)
(* ================================================================== *)

(** X17. A question just created is counted by the list: on a storage
    that does not fail, after an accepted create request the list
    operation without a difficulty filter reports as total the former
    number of rows plus one. *)
Theorem created_question_is_counted
    (fields : list (jsstring * value))
    (searchParams : list (jsstring * jsstring)) (p : Pool) :
  faults p = [] ->
  accepted fields = true ->
  list_filter searchParams = None ->
  let q := snd (POST (Some (JObject fields)) p) in
  status (fst (GET searchParams q)) = 200 ->
  prop (body (fst (GET searchParams q))) (lit "total")
    = Some (JNumber (of_Z (Z.of_nat (List.length (questions p)) + 1))).
Proof.
  intros F Hacc Hfil. cbv zeta.
  destruct (POST_cases (Some (JObject fields)) p)
    as (r & q & H & _ & Hok & Hc); rewrite H; cbn [snd].
  destruct (Hok F fields eq_refl Hacc) as (H201 & _ & _).
  destruct Hc as [(Hno & _)|(fs & _ & _ & _ & Hq & _)]; [contradiction|].
  intros Hst. rewrite (list_page_contents_aux searchParams q Hst), Hfil.
  cbn [difficulty_is]. rewrite (filter_all (fun _ => true)); [|auto].
  rewrite Hq, length_app. cbn [List.length].
  do 3 f_equal. lia.
Qed.

(** X18. Deleting the question just created restores the table: on a
    storage that does not fail and a table whose ids come from the
    sequence, an accepted create request followed by the delete of the id
    it was given is answered with the success message and leaves the rows
    as they were before the create. *)
Theorem create_then_delete_restores
    (fields : list (jsstring * value)) (id : jsstring) (p : Pool) :
  ids_fresh p ->
  faults p = [] ->
  accepted fields = true ->
  to_integer (StringToNumber id) = Some (next_id p) ->
  let q := snd (POST (Some (JObject fields)) p) in
  fst (DELETE id q) = removed /\
  questions (snd (DELETE id q)) = questions p.
Proof.
  intros (Hpos & Hb & _) F Hacc Hid. cbv zeta.
  destruct (POST_cases (Some (JObject fields)) p)
    as (r & q & H & _ & Hok & Hc); rewrite H; cbn [snd].
  destruct (Hok F fields eq_refl Hacc) as (H201 & Fq & _).
  destruct Hc as [(Hno & _)|(fs & _ & _ & _ & Hq & _)]; [contradiction|].
  assert (Hv : invalid_id (StringToNumber id) = false)
    by (apply (nonzero_id_valid _ _ Hid); lia).
  rewrite (DELETE_no_fault id q Hv Fq). cbn [fst snd with_questions questions].
  rewrite Hq, !filter_app. cbn [filter].
  rewrite (id_is_eqb _ _ _ Hid). cbn [created_row inserted col_id].
  rewrite Z.eqb_refl. cbn [negb].
  assert (Hold : forall x, In x (questions p) ->
                           id_is (StringToNumber id) x = false).
  { intros x Hx. rewrite (id_is_eqb _ _ _ Hid). apply Z.eqb_neq.
    specialize (Hb x Hx). lia. }
  rewrite (filter_none _ _ Hold). rewrite filter_all.
  - cbn. rewrite app_nil_r. split; reflexivity.
  - intros x Hx. rewrite (Hold x Hx). reflexivity.
Qed.

Lemma returning_replaced_type (w : bool) (fields : list (jsstring * value))
    (y : Row) :
  prop (returning w false (replaced w fields y)) (lit "type")
  = Some (bind (lookup (lit "type") fields)).
Proof. destruct w; reflexivity. Qed.

(** X19. The update operation stores and answers the type as received,
    without the translation the create operation applies. On a storage
    that does not fail, updating an existing question answers 200 with the
    type of the body; the row keeps that value as its stored type; so the
    list operation, which reads "multipla_escolha" as "MCQ" and anything
    else as "OPEN", shows the question as "MCQ" only if the body used the
    storage tag, and as "OPEN" when the body said "MCQ". *)
Theorem updated_type_is_not_translated
    (fields : list (jsstring * value)) (id : jsstring) (k : Z)
    (searchParams : list (jsstring * jsstring)) (p : Pool) :
  to_integer (StringToNumber id) = Some k -> k <> 0 ->
  faults p = [] ->
  (exists y : Row, In y (questions p) /\ col_id y = k) ->
  let r := fst (PUT (Some (JObject fields)) id p) in
  let q := snd (PUT (Some (JObject fields)) id p) in
  let type_ := lookup (lit "type") fields in
  status r = 200 /\
  prop (body r) (lit "type") = Some (bind type_) /\
  (forall x : Row, In x (questions q) -> col_id x = k -> col_type x = bind type_) /\
  (status (fst (GET searchParams q)) = 200 ->
   exists page : list Row,
     prop (body (fst (GET searchParams q))) (lit "data")
       = Some (JArray (map (selected (hint1_column q)) page)) /\
     forall x : Row,
       In x page -> col_id x = k ->
       prop (selected (hint1_column q) x) (lit "type")
       = Some (if strict_eq_string type_ (lit "multipla_escolha")
               then str "MCQ" else str "OPEN") /\
       (type_ = str "MCQ" ->
        prop (selected (hint1_column q) x) (lit "type") = Some (str "OPEN"))).
Proof.
  intros Hk Hnz F (y & Hy & Hyk). cbv zeta.
  pose proof (nonzero_id_valid _ _ Hk Hnz) as Hv.
  rewrite (PUT_no_fault fields id p Hv F). cbv zeta. cbn [fst snd].
  assert (Hin : In y (filter (id_is (StringToNumber id)) (questions p))).
  { apply filter_In. split; [exact Hy|].
    rewrite (id_is_eqb _ _ _ Hk). apply Z.eqb_eq. exact Hyk. }
  assert (Hrows : forall x : Row,
             In x (map (fun x => if id_is (StringToNumber id) x
                                 then replaced (hint1_column p) fields x else x)
                       (questions p)) ->
             col_id x = k -> col_type x = bind (lookup (lit "type") fields)).
  { intros x Hx Hxk. apply in_map_iff in Hx. destruct Hx as (z & Hz & Hzin).
    destruct (id_is (StringToNumber id) z) eqn:Ez; subst x; [reflexivity|].
    rewrite (id_is_eqb _ _ _ Hk) in Ez. apply Z.eqb_neq in Ez. contradiction. }
  destruct (filter (id_is (StringToNumber id)) (questions p)) as [|z rest];
    [destruct Hin|].
  cbn [map List.length first_row].
  replace (Z.of_nat (S (Datatypes.length
             (map (replaced (hint1_column p) fields) rest))) =? 0) with false
    by (symmetry; apply Z.eqb_neq; lia).
  cbn [status body json].
  split; [reflexivity|]. split; [apply returning_replaced_type|].
  split; [exact Hrows|].
  intros Hst.
  match type of Hst with
  | status (fst (GET _ ?q)) = _ => set (q0 := q) in *
  end.
  destruct (GET_shape searchParams q0) as [H|(l & o & Hl & Ho & H)];
    cbv zeta in *; rewrite H in *; [discriminate Hst|].
  exists (page_rows searchParams q0 l o). split; [reflexivity|].
  intros x Hx Hxk. destruct (page_rows_incl _ _ _ _ _ Hx) as [Hxin _].
  rewrite selected_type, (Hrows x Hxin Hxk).
  split.
  - destruct (lookup (lit "type") fields); reflexivity.
  - intros ->. reflexivity.
Qed.

(* ================================================================== *)
(** * The form component *)
(* ================================================================== *)

Lemma is_empty_iff (s : jsstring) : is_empty s = true <-> s = [].
Proof. destruct s; simpl; split; congruence. Qed.

Lemma isNonEmptyString_trimmed (s : jsstring) :
  is_empty (trim s) = false -> isNonEmptyString (JString (trim s)) = true.
Proof.
  intros H. simpl. rewrite trim_idempotent.
  destruct (trim s); [discriminate H|reflexivity].
Qed.

(** X20. The form hands a question to onAdd exactly when text and answer
    are filled once trimmed, and what it hands over is a create request
    the server accepts: whatever the storage does the answer is never
    400, and on a storage that does not fail it is 201 and the stored row
    is an open question with the trimmed text and answer of the form. A
    refused submit alerts and calls neither onAdd nor anything else. *)
Theorem form_submit_passes_server_validation (s : QuestionForm.State) :
  let out := snd (QuestionForm.handleSubmit s) in
  ((exists q, In (QuestionForm.onAdd q) out) <->
   trim (QuestionForm.text s) <> [] /\ trim (QuestionForm.answer s) <> []) /\
  (forall q : value,
      In (QuestionForm.onAdd q) out ->
      forall p : Pool,
        status (fst (POST (Some q) p)) <> 400 /\
        (faults p = [] ->
         status (fst (POST (Some q) p)) = 201 /\
         exists row : Row,
           questions (snd (POST (Some q) p)) = questions p ++ [row] /\
           col_text row = JString (trim (QuestionForm.text s)) /\
           col_answer row = JString (trim (QuestionForm.answer s)) /\
           col_type row = str "discursiva" /\
           col_options row = JNull /\
           col_correct_index row = JNull)).
Proof.
  cbv zeta. unfold QuestionForm.handleSubmit.
  destruct (is_empty (trim (QuestionForm.text s))) eqn:Et.
  { apply is_empty_iff in Et. split.
    - split; [intros (q & [H|[H|[]]]); discriminate H|tauto].
    - intros q [H|[H|[]]]; discriminate H. }
  destruct (is_empty (trim (QuestionForm.answer s))) eqn:Ea.
  { apply is_empty_iff in Ea. split.
    - split; [intros (q & [H|[H|[]]]); discriminate H|tauto].
    - intros q [H|[H|[]]]; discriminate H. }
  split.
  - split.
    + intros _. split; intros E; rewrite E in *; discriminate.
    + intros _. eexists. right. left. reflexivity.
  - intros q [H|[H|[]]]; [discriminate H|]. injection H as <-. intros p.
    set (fields := [(lit "text", JString (trim (QuestionForm.text s)));
                    (lit "answer", JString (trim (QuestionForm.answer s)));
                    (lit "difficulty", JString (QuestionForm.difficulty s));
                    (lit "type", str "OPEN")]).
    assert (Hacc : accepted fields = true).
    { unfold accepted.
      change (req_text fields) with (JString (trim (QuestionForm.text s))).
      change (req_answer fields) with (JString (trim (QuestionForm.answer s))).
      change (strict_eq_string (req_dbType fields) (lit "multipla_escolha"))
        with false.
      rewrite !isNonEmptyString_trimmed by assumption. reflexivity. }
    destruct (POST_cases (Some (JObject fields)) p)
      as (r & q & H & _ & Hok & Hc); rewrite H; cbn [fst snd].
    split.
    + intros E.
      pose proof (proj1 (rejected_iff_not_accepted fields p)) as Hrej.
      rewrite H in Hrej. cbn [fst] in Hrej. rewrite (Hrej E) in Hacc.
      discriminate Hacc.
    + intros F. destruct (Hok F fields eq_refl Hacc) as (H201 & _ & _).
      split; [exact H201|].
      destruct Hc as [(Hno & _)|(fs & Efs & _ & _ & Hq & _)]; [contradiction|].
      injection Efs as Efs. subst fs.
      eexists. split; [exact Hq|].
      cbn [created_row inserted col_text col_answer col_type col_options
           col_correct_index].
      change (strict_eq_string (req_dbType fields) (lit "multipla_escolha"))
        with false. cbv iota.
      change (req_text fields) with (JString (trim (QuestionForm.text s))).
      change (req_answer fields) with (JString (trim (QuestionForm.answer s))).
      unfold trim_or. rewrite !isNonEmptyString_trimmed by assumption.
      rewrite !trim_idempotent. repeat split.
Qed.

Lemma step_dialog_invariant (s : QuestionForm.State) (e : QuestionForm.Event) :
  (QuestionForm.confirmOpen s = true <-> QuestionForm.pendingDelete s <> None) ->
  let s' := fst (QuestionForm.step s e) in
  QuestionForm.confirmOpen s' = true <-> QuestionForm.pendingDelete s' <> None.
Proof.
  intros Hinv. destruct e; cbn [QuestionForm.step fst]; try exact Hinv.
  - unfold QuestionForm.handleSubmit.
    destruct (is_empty _); [exact Hinv|].
    destruct (is_empty _); exact Hinv.
  - cbn. split; [discriminate|reflexivity].
  - unfold QuestionForm.confirmDelete.
    destruct (QuestionForm.pendingDelete s) as [[i t]|] eqn:E; cbn.
    + split; [discriminate|congruence].
    + rewrite E. exact Hinv.
  - cbn. split; [discriminate|congruence].
Qed.

Lemma run_cons (s : QuestionForm.State) (e : QuestionForm.Event)
    (rest : list QuestionForm.Event) :
  QuestionForm.run s (e :: rest) =
  (fst (QuestionForm.run (fst (QuestionForm.step s e)) rest),
   snd (QuestionForm.step s e)
     ++ snd (QuestionForm.run (fst (QuestionForm.step s e)) rest)).
Proof.
  cbn [QuestionForm.run]. destruct (QuestionForm.step s e) as [s1 o1].
  cbn [fst snd]. destruct (QuestionForm.run s1 rest). reflexivity.
Qed.

(** X21. Through any sequence of events from the initial state, the
    delete dialog is open exactly when a question is pending: the dialog
    never shows without a target, and no target stays behind a closed
    dialog. *)
Theorem dialog_open_iff_pending (EASY : jsstring)
    (events : list QuestionForm.Event) :
  let s := fst (QuestionForm.run (QuestionForm.initial EASY) events) in
  QuestionForm.confirmOpen s = true <-> QuestionForm.pendingDelete s <> None.
Proof.
  cbv zeta.
  assert (Hgen : forall s,
             (QuestionForm.confirmOpen s = true <->
              QuestionForm.pendingDelete s <> None) ->
             QuestionForm.confirmOpen (fst (QuestionForm.run s events)) = true <->
             QuestionForm.pendingDelete (fst (QuestionForm.run s events)) <> None).
  { induction events as [|e rest IH]; intros s Hinv; [exact Hinv|].
    rewrite run_cons. cbn [fst]. apply IH. apply step_dialog_invariant. exact Hinv. }
  apply Hgen. cbn. split; [discriminate|congruence].
Qed.

Lemma step_deletes (s : QuestionForm.State) (e : QuestionForm.Event) :
  let s' := fst (QuestionForm.step s e) in
  let out := snd (QuestionForm.step s e) in
  (List.length (filter QuestionForm.is_onDelete out) + QuestionForm.pending_weight s'
   <= QuestionForm.pending_weight s + (if QuestionForm.is_clickDelete e then 1 else 0))%nat /\
  (forall i, In (QuestionForm.onDelete i) out ->
             exists t, QuestionForm.pendingDelete s = Some (i, t)) /\
  (forall i t, QuestionForm.pendingDelete s' = Some (i, t) ->
               QuestionForm.pendingDelete s = Some (i, t) \/
               exists q, e = QuestionForm.clickDelete q /\
                         QuestionForm.q_id q = i).
Proof.
  unfold QuestionForm.pending_weight.
  destruct e; cbn [QuestionForm.step fst snd QuestionForm.is_clickDelete];
    try (cbn; split; [lia|split; [intros i []|intros i t H; left; exact H]]).
  - unfold QuestionForm.handleSubmit.
    destruct (is_empty _);
      [cbn; split; [lia|split; [intros i [H|[H|[]]]; discriminate H|auto]]|].
    destruct (is_empty _);
      cbn; (split; [lia|split; [intros i [H|[H|[]]]; discriminate H|auto]]).
  - cbn. destruct (QuestionForm.pendingDelete s); split; try lia;
      (split; [intros i []|]);
      intros i t H; injection H as <- _; right; exists q; auto.
  - unfold QuestionForm.confirmDelete.
    destruct (QuestionForm.pendingDelete s) as [[i0 t0]|] eqn:E; cbn.
    + split; [lia|]. split; [|discriminate].
      intros i [H|[]]. injection H as <-. exists t0. reflexivity.
    + rewrite E. split; [lia|]. split; [intros i []|discriminate].
  - cbn. destruct (QuestionForm.pendingDelete s); split; try lia;
      (split; [intros i []|discriminate]).
Qed.

Lemma run_deletes (events : list QuestionForm.Event) :
  forall s : QuestionForm.State,
    let s' := fst (QuestionForm.run s events) in
    let out := snd (QuestionForm.run s events) in
    (List.length (filter QuestionForm.is_onDelete out) + QuestionForm.pending_weight s'
     <= QuestionForm.pending_weight s
        + List.length (filter QuestionForm.is_clickDelete events))%nat /\
    (forall i,
        In (QuestionForm.onDelete i) out \/
        (exists t, QuestionForm.pendingDelete s' = Some (i, t)) ->
        (exists t, QuestionForm.pendingDelete s = Some (i, t)) \/
        exists q, In (QuestionForm.clickDelete q) events /\
                  QuestionForm.q_id q = i).
Proof.
  induction events as [|e rest IH]; intros s; cbv zeta.
  - cbn. split; [lia|]. intros i [[]|H]. left. exact H.
  - rewrite run_cons. cbn [fst snd].
    destruct (step_deletes s e) as (Hc & Ho & Hp). cbv zeta in *.
    destruct (IH (fst (QuestionForm.step s e))) as (IHc & IHo). cbv zeta in *.
    split.
    + rewrite filter_app, length_app. cbn [filter].
      destruct (QuestionForm.is_clickDelete e); cbn [List.length]; lia.
    + intros i H.
      assert (Hmid : (exists t, QuestionForm.pendingDelete
                                  (fst (QuestionForm.step s e)) = Some (i, t)) \/
                     (exists q, In (QuestionForm.clickDelete q) rest /\
                                QuestionForm.q_id q = i) \/
                     In (QuestionForm.onDelete i) (snd (QuestionForm.step s e))).
      { destruct H as [H|H].
        - apply in_app_iff in H. destruct H as [H|H]; [right; right; exact H|].
          destruct (IHo i (or_introl H)) as [H'|H']; auto.
        - destruct (IHo i (or_intror H)) as [H'|H']; auto. }
      destruct Hmid as [(t & Ht)|[(q & Hq & Hi)|Hout]].
      * destruct (Hp i t Ht) as [H'|(q & -> & Hi)].
        -- left. exists t. exact H'.
        -- right. exists q. split; [left; reflexivity|exact Hi].
      * right. exists q. split; [right; exact Hq|exact Hi].
      * left. apply Ho. exact Hout.
Qed.

(** X22. Through any sequence of events from the initial state, onDelete
    is called only with the id of a question whose delete button was
    clicked, and not more often than delete buttons were clicked: a
    confirmation deletes once, and nothing is deleted without a request. *)
Theorem deletes_are_requested (EASY : jsstring)
    (events : list QuestionForm.Event) :
  let out := snd (QuestionForm.run (QuestionForm.initial EASY) events) in
  (forall i : jsstring,
      In (QuestionForm.onDelete i) out ->
      exists q, In (QuestionForm.clickDelete q) events /\
                QuestionForm.q_id q = i) /\
  (List.length (filter QuestionForm.is_onDelete out)
   <= List.length (filter QuestionForm.is_clickDelete events))%nat.
Proof.
  cbv zeta.
  destruct (run_deletes events (QuestionForm.initial EASY)) as (Hc & Ho).
  cbv zeta in *. split.
  - intros i Hi. destruct (Ho i (or_introl Hi)) as [(t & Ht)|H];
      [discriminate Ht|exact H].
  - unfold QuestionForm.pending_weight in Hc at 2. cbn in Hc. lia.
Qed.

Lemma open_is_not_mcq (q : QuestionForm.Question) :
  QuestionForm.has_type (lit "OPEN") q = true ->
  QuestionForm.has_type (lit "MCQ") q = false.
Proof.
  unfold QuestionForm.has_type. intros H.
  apply strict_eq_string_eq in H. rewrite H. reflexivity.
Qed.

(** X23. The two type counters of the list never count a question twice:
    their sum is at most the total, and it is the total exactly when every
    question has type "OPEN", type "MCQ" or no type; a question without
    type is counted as open. *)
Theorem type_counters_partition (questions : list QuestionForm.Question) :
  (QuestionForm.totalAllOpen questions + QuestionForm.totalAllMcq questions
   <= QuestionForm.totalAll questions)%nat /\
  ((QuestionForm.totalAllOpen questions + QuestionForm.totalAllMcq questions
    = QuestionForm.totalAll questions)%nat <->
   forall q, In q questions -> QuestionForm.open_or_mcq q = true) /\
  (forall q, QuestionForm.q_type q = JUndefined \/ QuestionForm.q_type q = JNull ->
             QuestionForm.has_type (lit "OPEN") q = true).
Proof.
  unfold QuestionForm.totalAllOpen, QuestionForm.totalAllMcq,
    QuestionForm.totalAll, QuestionForm.open_or_mcq.
  assert (Hle : forall l : list QuestionForm.Question,
             (List.length (filter (QuestionForm.has_type (lit "OPEN")) l)
              + List.length (filter (QuestionForm.has_type (lit "MCQ")) l)
              <= List.length l)%nat).
  { induction l as [|q l IH]; cbn [filter List.length]; [lia|].
    pose proof (open_is_not_mcq q) as Hx.
    destruct (QuestionForm.has_type (lit "OPEN") q);
      destruct (QuestionForm.has_type (lit "MCQ") q);
      cbn [List.length]; try lia;
      try (specialize (Hx eq_refl); discriminate Hx). }
  split; [apply Hle|]. split.
  - induction questions as [|q l IH]; cbn [filter List.length].
    + split; [intros _ q []|reflexivity].
    + specialize (Hle l). pose proof (open_is_not_mcq q) as Hx.
      destruct (QuestionForm.has_type (lit "OPEN") q) eqn:Eo;
        destruct (QuestionForm.has_type (lit "MCQ") q) eqn:Em;
        cbn [List.length]; try (specialize (Hx eq_refl); discriminate Hx).
      * split.
        -- intros H x [<-|Hx']; [rewrite Eo; reflexivity|]. apply IH; [lia|exact Hx'].
        -- intros H. assert (Hl := proj2 IH (fun x Hx' => H x (or_intror Hx'))). lia.
      * split.
        -- intros H x [<-|Hx']; [rewrite Eo, Em; reflexivity|].
           apply IH; [lia|exact Hx'].
        -- intros H. assert (Hl := proj2 IH (fun x Hx' => H x (or_intror Hx'))). lia.
      * split; [intros H; lia|].
        intros H. specialize (H q (or_introl eq_refl)).
        rewrite Eo, Em in H. discriminate H.
  - intros q [H|H]; unfold QuestionForm.has_type; rewrite H; reflexivity.
Qed.

Lemma list_sum_cons (a : nat) (l : list nat) :
  list_sum (a :: l) = (a + list_sum l)%nat.
Proof. reflexivity. Qed.

Lemma level_hits_le_one (d : jsstring) (levels : list jsstring) :
  NoDup levels ->
  list_sum (map (fun level => if jsstring_eqb d level then 1 else 0)%nat levels)
  = (if existsb (jsstring_eqb d) levels then 1 else 0)%nat.
Proof.
  induction levels as [|a l IH]; intros Hnd; [reflexivity|].
  inversion Hnd as [|x xs Hnin Hnd']; subst. cbn [map existsb].
  rewrite list_sum_cons, (IH Hnd'). destruct (jsstring_eqb d a) eqn:E; [|reflexivity].
  apply jsstring_eqb_eq in E. subst a. cbn [orb].
  destruct (existsb (jsstring_eqb d) l) eqn:Ex; [|reflexivity].
  apply existsb_exists in Ex. destruct Ex as (y & Hy & Hd).
  apply jsstring_eqb_eq in Hd. subst y. contradiction.
Qed.

Lemma counts_cons (q : QuestionForm.Question) (l : list QuestionForm.Question)
    (levels : list jsstring) :
  list_sum (map (QuestionForm.counts (q :: l)) levels)
  = (list_sum (map (fun level =>
                      if jsstring_eqb (QuestionForm.q_difficulty q) level
                      then 1 else 0) levels)
     + list_sum (map (QuestionForm.counts l) levels))%nat.
Proof.
  induction levels as [|a ls IH]; [reflexivity|].
  cbn [map]. rewrite !list_sum_cons, IH.
  unfold QuestionForm.counts, QuestionForm.of_level. cbn [filter].
  destruct (jsstring_eqb (QuestionForm.q_difficulty q) a); cbn [List.length]; lia.
Qed.

(** X24. The counts shown on the difficulty tabs never count a question
    twice: for levels that are pairwise distinct their sum is at most the
    total, and it is the total exactly when the difficulty of every
    question is one of the levels; the filtered list holds, in the order
    of the full list, the questions of the selected level and only those,
    as many as the count of that level. *)
Theorem level_counters_partition (questions : list QuestionForm.Question)
    (levels : list jsstring) (s : QuestionForm.State) :
  NoDup levels ->
  (list_sum (map (QuestionForm.counts questions) levels)
   <= QuestionForm.totalAll questions)%nat /\
  (list_sum (map (QuestionForm.counts questions) levels)
   = QuestionForm.totalAll questions <->
   forall q, In q questions -> In (QuestionForm.q_difficulty q) levels) /\
  (forall q, In q (QuestionForm.filteredQuestions questions s) <->
             In q questions /\
             QuestionForm.q_difficulty q = QuestionForm.selectedDifficulty s) /\
  List.length (QuestionForm.filteredQuestions questions s)
  = QuestionForm.counts questions (QuestionForm.selectedDifficulty s).
Proof.
  intros Hnd. unfold QuestionForm.totalAll.
  assert (Hle : forall l : list QuestionForm.Question,
             (list_sum (map (QuestionForm.counts l) levels) <= List.length l)%nat).
  { induction l as [|q l IH].
    - cbn. induction levels as [|a ls IHl]; [cbn; lia|].
      inversion Hnd; subst. cbn [map]. rewrite list_sum_cons.
      specialize (IHl ltac:(assumption)). cbn in *. lia.
    - rewrite counts_cons, (level_hits_le_one _ _ Hnd). cbn [List.length].
      destruct (existsb _ levels); lia. }
  split; [apply Hle|]. split; [|split].
  - induction questions as [|q l IH].
    + split; [intros _ q []|]. intros _. specialize (Hle []). cbn in *. lia.
    + rewrite counts_cons, (level_hits_le_one _ _ Hnd). cbn [List.length].
      specialize (Hle l).
      destruct (existsb (jsstring_eqb (QuestionForm.q_difficulty q)) levels) eqn:Ex.
      * apply existsb_exists in Ex. destruct Ex as (y & Hy & Hd).
        apply jsstring_eqb_eq in Hd. subst y. split.
        -- intros H x [<-|Hx]; [exact Hy|]. apply IH; [lia|exact Hx].
        -- intros H. assert (Hl := proj2 IH (fun x Hx => H x (or_intror Hx))). lia.
      * split; [intros H; lia|].
        intros H. specialize (H q (or_introl eq_refl)).
        assert (Ht : existsb (jsstring_eqb (QuestionForm.q_difficulty q)) levels = true).
        { apply existsb_exists. eexists. split; [exact H|].
          apply jsstring_eqb_eq. reflexivity. }
        congruence.
  - intros q. unfold QuestionForm.filteredQuestions, QuestionForm.of_level.
    rewrite filter_In, jsstring_eqb_eq. tauto.
  - reflexivity.
Qed.

(* ================================================================== *)
(** * The further properties at concrete inputs *)
(* ================================================================== *)

Lemma isNonEmptyString_iff_witness : isNonEmptyString (str " a ") = true.
Proof.
  apply (proj2 (isNonEmptyString_iff (str " a "))).
  exists (lit " a "). split; reflexivity.
Defined.

Lemma vocabulary_translation_agrees_witness :
  toApiType (str "multipla_escolha") = str "MCQ".
Proof.
  destruct (vocabulary_translation_agrees (str "multipla_escolha"))
    as (_ & _ & H & _).
  apply (proj1 H). reflexivity.
Defined.

Lemma create_rejects_exactly_invalid_witness :
  status (fst (POST (Some (JObject two_option_mcq_fields)) old_pool)) = 400.
Proof.
  apply (proj2 (create_rejects_exactly_invalid two_option_mcq_fields old_pool)).
  right. left. split; [reflexivity|].
  intros (a & b & c & d & H & _). vm_compute in H. discriminate.
Defined.

Lemma created_type_in_both_vocabularies_witness :
  exists row : Row,
    questions (snd (POST (Some (JObject france_mcq_fields)) old_pool)) = [row] /\
    col_type row = str "multipla_escolha" /\
    prop (body (fst (POST (Some (JObject france_mcq_fields)) old_pool)))
         (lit "type") = Some (str "MCQ").
Proof.
  destruct (created_type_in_both_vocabularies france_mcq_fields old_pool eq_refl)
    as (row & Hq & Ht & _ & Hr & _).
  exists row. split; [exact Hq|]. split; [rewrite Ht; reflexivity|].
  rewrite Hr. reflexivity.
Defined.

Lemma created_difficulty_defaults_witness :
  exists row : Row,
    questions (snd (POST (Some (JObject france_mcq_fields)) old_pool)) = [row] /\
    col_difficulty row = str "facil".
Proof.
  destruct (created_difficulty_defaults france_mcq_fields old_pool eq_refl)
    as (row & Hq & _ & Hd).
  exists row. split; [exact Hq|]. apply Hd. reflexivity.
Defined.

Lemma created_hint_on_sound_storage_witness :
  hint1_column (snd (POST (Some (JObject padded_fields)) old_pool)) = true /\
  exists row : Row,
    questions (snd (POST (Some (JObject padded_fields)) old_pool)) = [row] /\
    col_hint1 row = str "fish".
Proof.
  destruct (created_hint_on_sound_storage padded_fields old_pool eq_refl eq_refl)
    as (_ & Hc & row & Hq & Hh & _).
  split; [exact Hc|]. exists row. split; [exact Hq|].
  rewrite (Hh (lit " fish ") eq_refl); [reflexivity|].
  vm_compute. discriminate.
Defined.

Lemma one_row_pool_ids_fresh : ids_fresh one_row_pool.
Proof.
  unfold ids_fresh. cbn. split; [lia|]. split.
  - intros r [<-|[]]. cbn. lia.
  - repeat constructor. intros [].
Qed.

Lemma handlers_keep_ids_fresh_witness :
  ids_fresh (snd (POST (Some (JObject charos_fields)) one_row_pool)) /\
  ids_fresh (snd (DELETE (lit "7") one_row_pool)).
Proof.
  destruct (handlers_keep_ids_fresh one_row_pool one_row_pool_ids_fresh)
    as (_ & Hpost & _ & Hdel).
  split; [apply Hpost|apply Hdel].
Defined.

Lemma delete_removes_only_that_id_witness :
  questions (snd (DELETE (lit "7") one_row_pool)) = [].
Proof.
  destruct (delete_removes_only_that_id (lit "7") one_row_pool)
    as (_ & _ & _ & _ & H).
  destruct (H eq_refl) as (Hq & _). rewrite Hq. reflexivity.
Defined.

Lemma update_validates_only_the_id_witness :
  PUT (Some (JObject [])) (lit "8") one_row_pool = (not_found, one_row_pool) /\
  status (fst (PUT (Some (JObject [])) (lit "7") one_row_pool)) = 200.
Proof.
  split.
  - destruct (update_validates_only_the_id None [] (lit "8") one_row_pool)
      as (_ & H).
    destruct (H eq_refl eq_refl) as (Hno & _). apply Hno.
    intros x [<-|[]]. reflexivity.
  - destruct (update_validates_only_the_id None [] (lit "7") one_row_pool)
      as (_ & H).
    destruct (H eq_refl eq_refl) as (_ & Hyes). apply Hyes.
    exists sample_row. split; [left; reflexivity|reflexivity].
Defined.

Lemma list_never_writes_witness :
  snd (GET [(lit "page", lit "2")] one_row_pool) = one_row_pool.
Proof.
  destruct (list_never_writes [(lit "page", lit "2")] one_row_pool)
    as (_ & _ & _ & H).
  apply H. reflexivity.
Defined.

Lemma list_page_contents_witness :
  exists page : list Row,
    prop (body (fst (GET [] one_row_pool))) (lit "data")
      = Some (JArray (map (selected true) page)) /\
    (List.length page <= 5)%nat.
Proof.
  destruct (list_page_contents [] one_row_pool eq_refl)
    as (l & o & page & Hl & _ & Hd & _ & _ & Hle & _).
  exists page. split; [exact Hd|].
  vm_compute in Hl. injection Hl as <-. exact Hle.
Defined.

Lemma list_newest_first_witness :
  exists page : list Row,
    prop (body (fst (GET [] one_row_pool))) (lit "data")
      = Some (JArray (map (selected true) page)) /\
    StronglySorted newer_first page /\
    Permutation page [sample_row].
Proof.
  destruct (list_newest_first [] one_row_pool eq_refl)
    as (l & o & page & Hl & Ho & Hd & Hs & Hp).
  exists page. split; [exact Hd|]. split; [exact Hs|].
  vm_compute in Hl, Ho. injection Hl as <-. injection Ho as <-.
  apply Hp; [reflexivity|]. cbn. lia.
Defined.

Lemma list_empty_difficulty_is_no_filter_witness :
  prop (body (fst (GET [(lit "difficulty", [])] one_row_pool))) (lit "total")
  = Some (JNumber (of_Z 1)).
Proof.
  rewrite (list_empty_difficulty_is_no_filter [(lit "difficulty", [])]
             one_row_pool (or_introl eq_refl) eq_refl).
  reflexivity.
Defined.

Lemma created_question_is_counted_witness :
  prop (body (fst (GET [] (snd (POST (Some (JObject charos_fields))
                                     one_row_pool)))))
       (lit "total")
  = Some (JNumber (of_Z 2)).
Proof.
  rewrite (created_question_is_counted charos_fields [] one_row_pool
             eq_refl eq_refl eq_refl eq_refl).
  reflexivity.
Defined.

Lemma create_then_delete_restores_witness :
  questions (snd (DELETE (lit "8")
                    (snd (POST (Some (JObject charos_fields)) one_row_pool))))
  = [sample_row].
Proof.
  destruct (create_then_delete_restores charos_fields (lit "8") one_row_pool
              one_row_pool_ids_fresh eq_refl eq_refl eq_refl) as (_ & H).
  exact H.
Defined.

Lemma updated_type_is_not_translated_witness :
  prop (body (fst (PUT (Some (JObject mcq_update_fields)) (lit "7") one_row_pool)))
       (lit "type") = Some (str "MCQ") /\
  exists page : list Row,
    prop (body (fst (GET [] (snd (PUT (Some (JObject mcq_update_fields))
                                      (lit "7") one_row_pool)))))
         (lit "data")
    = Some (JArray (map (selected true) page)) /\
    forall x, In x page -> col_id x = 7 ->
              prop (selected true x) (lit "type") = Some (str "OPEN").
Proof.
  destruct (updated_type_is_not_translated mcq_update_fields (lit "7") 7 []
              one_row_pool eq_refl ltac:(discriminate) eq_refl)
    as (_ & Ht & _ & Hlist).
  - exists sample_row. split; [left; reflexivity|reflexivity].
  - split; [exact Ht|].
    destruct (Hlist eq_refl) as (page & Hd & Hx).
    exists page. split; [exact Hd|].
    intros x Hin Hid. destruct (Hx x Hin Hid) as (_ & Hopen).
    apply Hopen. reflexivity.
Defined.

Lemma form_submit_passes_server_validation_witness :
  exists q : value,
    In (QuestionForm.onAdd q) (snd (QuestionForm.handleSubmit typed_state)) /\
    status (fst (POST (Some q) old_pool)) = 201.
Proof.
  destruct (form_submit_passes_server_validation typed_state) as (Hiff & Hok).
  destruct (proj2 Hiff) as (q & Hq).
  - split; vm_compute; discriminate.
  - exists q. split; [exact Hq|].
    destruct (Hok q Hq old_pool) as (_ & H). destruct (H eq_refl) as (H201 & _).
    exact H201.
Defined.

Lemma dialog_open_iff_pending_witness :
  QuestionForm.confirmOpen
    (fst (QuestionForm.run (QuestionForm.initial (lit "facil"))
            [QuestionForm.clickDelete listed_question])) = true.
Proof.
  apply (proj2 (dialog_open_iff_pending (lit "facil")
                  [QuestionForm.clickDelete listed_question])).
  discriminate.
Defined.

Lemma deletes_are_requested_witness :
  exists q,
    In (QuestionForm.clickDelete q) delete_session /\
    QuestionForm.q_id q = lit "7".
Proof.
  destruct (deletes_are_requested (lit "facil") delete_session) as (H & _).
  apply H. left. reflexivity.
Defined.

Lemma type_counters_partition_witness :
  QuestionForm.has_type (lit "OPEN") listed_question = true /\
  (QuestionForm.totalAllOpen [listed_question]
   + QuestionForm.totalAllMcq [listed_question]
   = QuestionForm.totalAll [listed_question])%nat.
Proof.
  destruct (type_counters_partition [listed_question]) as (_ & Hiff & Hun).
  split; [apply Hun; left; reflexivity|].
  apply (proj2 Hiff). intros q [<-|[]]. reflexivity.
Defined.

Lemma level_counters_partition_witness :
  (list_sum (map (QuestionForm.counts [listed_question])
                 [lit "facil"; lit "medio"; lit "dificil"])
   <= QuestionForm.totalAll [listed_question])%nat.
Proof.
  destruct (level_counters_partition [listed_question]
              [lit "facil"; lit "medio"; lit "dificil"] typed_state) as (H & _).
  - repeat constructor; cbn; intros H;
      repeat (destruct H as [H|H]; [vm_compute in H; discriminate H|]);
      exact H.
  - exact H.
Defined.

(* ================================================================== *)
(** * Sample evaluations *)
(* ================================================================== *)

Example StringToNumber_samples :
  StringToNumber (lit "0") = S754_zero false /\
  StringToNumber [] = S754_zero false /\
  StringToNumber (lit "0.0") = S754_zero false /\
  StringToNumber (lit "-0") = S754_zero true /\
  StringToNumber (lit " 12 ") = of_Z 12 /\
  StringToNumber (lit "1.5") = S754_finite false 6755399441055744 (-52) /\
  StringToNumber (lit "0.1") = S754_finite false 7205759403792794 (-56) /\
  StringToNumber (lit "1e3") = of_Z 1000 /\
  StringToNumber (lit "0x1F") = of_Z 31 /\
  StringToNumber (lit "1e400") = S754_infinity false /\
  StringToNumber (lit "1e-400") = S754_zero false /\
  StringToNumber (lit "abc") = NaN /\
  StringToNumber (lit "12px") = NaN /\
  StringToNumber (lit "1e") = NaN /\
  StringToNumber (lit ".") = NaN /\
  StringToNumber (lit "-Infinity") = S754_infinity true.
Proof. vm_compute. repeat split. Qed.

Example trim_samples :
  trim (lit "  CHAROS ") = lit "CHAROS" /\
  trim (lit " a b ") = lit "a b" /\
  trim (lit "   ") = [] /\
  isNonEmptyString (str "   ") = false /\
  isNonEmptyString (JNumber (of_Z 3)) = false.
Proof. vm_compute. repeat split. Qed.

(** Scenario of the specification: twelve rows, limit 5, page 3. *)
Example totalPages_sample :
  Math_max (of_Z 1) (Math_ceil (num_div (of_Z 12) (of_Z 5))) = of_Z 3 /\
  Math_max (of_Z 1) (Math_ceil (num_div (of_Z 0) (of_Z 5))) = of_Z 1 /\
  num_mul (num_sub (of_Z 3) (of_Z 1)) (of_Z 5) = of_Z 10.
Proof. vm_compute. repeat split. Qed.

(** Scenario of the specification: the multiple-choice question about the
    capital of France is created with answer "Paris". *)
Example create_mcq_sample :
  status (fst (POST (Some (JObject france_mcq_fields)) old_pool)) = 201 /\
  prop (body (fst (POST (Some (JObject france_mcq_fields)) old_pool)))
       (lit "answer") = Some (str "Paris") /\
  prop (body (fst (POST (Some (JObject france_mcq_fields)) old_pool)))
       (lit "type") = Some (str "MCQ").
Proof. vm_compute. repeat split. Qed.

(** Scenario of the specification: the open question CSROHA. *)
Example create_open_sample :
  status (fst (POST (Some (JObject charos_fields)) old_pool)) = 201 /\
  prop (body (fst (POST (Some (JObject charos_fields)) old_pool)))
       (lit "type") = Some (str "OPEN") /\
  prop (body (fst (POST (Some (JObject charos_fields)) old_pool)))
       (lit "options") = Some JNull.
Proof. vm_compute. repeat split. Qed.
